(** * SpendWise back end: a shallow embedding of the route handlers

    The development follows the layout of the repository:

    - [Js]       the JavaScript primitives the handlers lean on
                 (truthiness, [parseInt], [String.prototype.split],
                 [Date] month arithmetic);
    - [Db]       [db.js]: errors, the outcome of an awaited promise and
                 [retryOperation];
    - [Store]    the three tables ([users], [infodata], [categories]) and
                 the SQL statements the handlers send, as list functions;
    - [Tx]       a connection as a state-and-exception monad with
                 [beginTransaction] / [commit] / [rollback];
    - [Auth]     [middleware/authMiddleware.js] and [routes/authRoutes.js];
    - [Expense]  [routes/expenseRoutes.js];
    - [Profile]  [routes/profileRoutes.js];
    - [Spec]     the vocabulary of the properties, [Samples] the inputs
                 the properties are run on.

    Conventions.  Amounts are whole numbers ([Z]) in the tables and in
    the requests, and a numeric column holds any of them: the schema is
    not part of the repository.  Where a handler computes with amounts
    in the language (the two balance routes) the arithmetic is that of
    IEEE doubles ([Js.number]); where it only reads a sum made by the
    database (the summaries) the number is taken as the database made
    it.  A [DATE] column holds a calendar day.  The clock of the server is a
    parameter of the handlers that read it: the local day, the time of
    day, and the offset of local time from UTC ([Js.utc_day]), which
    the daily summary reads too when it steps through its range with
    [setDate].  SQL string comparison is exact equality.
    Row identifiers arrive already coerced to numbers. *)

From Stdlib Require Import ZArith List String Ascii Bool Lia.
From Stdlib Require Import Permutation Sorted DecimalString.
Import ListNotations.

Set Warnings "-register-all".
Local Open Scope string_scope.
Local Open Scope list_scope.
Local Open Scope Z_scope.

(* ===================================================================== *)
(** ** JavaScript primitives *)
(* ===================================================================== *)
Module Js.

(** Calendar days.  [month] is 1-based as in SQL and in ISO strings. *)
Record date : Type := Date { year : Z; month : Z; day : Z }.

(** The values handed to [res.json] and read from [req.body]; a [DATE]
    column comes back from the driver as a [Date] object. *)
Inductive json : Type :=
| JUndefined
| JNull
| JBool (b : bool)
| JNum (z : Z)
| JStr (s : string)
| JDate (d : date)
| JArr (l : list json)
| JObj (fields : list (string * json)).

Definition jopt {A : Type} (f : A -> json) (o : option A) : json :=
  match o with Some a => f a | None => JNull end.

(** An HTTP response: [res.status(code).json(body)]. *)
Record response : Type := Response { status : Z; body : json }.

Definition dquote : string := String (ascii_of_nat 34) EmptyString.

(** Number to string conversion of an integer ([`${n}`]). *)
Definition show (z : Z) : string := NilZero.string_of_int (Z.to_int z).

(** [!!s] for a string. *)
Definition truthy_str (s : string) : bool :=
  match s with EmptyString => false | _ => true end.

(** [!!x] for an optional string (a missing header, a missing query
    parameter). *)
Definition truthy_ostr (o : option string) : bool :=
  match o with None => false | Some s => truthy_str s end.

(** [!!n] for a number that may be undefined. *)
Definition truthy_onum (o : option Z) : bool :=
  match o with None => false | Some n => negb (n =? 0) end.

(** [s.split(" ")]. *)
Fixpoint split_acc (sep : ascii) (cur : string) (s : string) : list string :=
  match s with
  | EmptyString => [cur]
  | String c rest =>
      if Ascii.eqb c sep then cur :: split_acc sep EmptyString rest
      else split_acc sep (cur ++ String c EmptyString)%string rest
  end.

Definition split (sep : ascii) (s : string) : list string :=
  split_acc sep EmptyString s.

Definition space : ascii := ascii_of_nat 32.

(** Strings are held as the bytes of their UTF-8 encoding, as they
    arrive in a request.  The white space and line terminators of the
    language ([trim], [parseInt]) are the six ASCII characters of
    [is_ws], U+00A0 (two bytes), and U+1680, U+2000 to U+200A, U+2028,
    U+2029, U+202F, U+205F, U+3000 and U+FEFF (three bytes each). *)
Definition is_ws (c : ascii) : bool :=
  let n := nat_of_ascii c in
  (Nat.eqb n 32 || (Nat.leb 9 n && Nat.leb n 13))%bool.

Definition is_ws2 (a b : ascii) : bool :=
  (Nat.eqb (nat_of_ascii a) 194 && Nat.eqb (nat_of_ascii b) 160)%bool.

Definition is_ws3 (a b c : ascii) : bool :=
  let x := nat_of_ascii a in
  let y := nat_of_ascii b in
  let z := nat_of_ascii c in
  ((Nat.eqb x 225 && Nat.eqb y 154 && Nat.eqb z 128)
   || (Nat.eqb x 226 && Nat.eqb y 128
       && ((Nat.leb 128 z && Nat.leb z 138)
           || Nat.eqb z 168 || Nat.eqb z 169 || Nat.eqb z 175))
   || (Nat.eqb x 226 && Nat.eqb y 129 && Nat.eqb z 159)
   || (Nat.eqb x 227 && Nat.eqb y 128 && Nat.eqb z 128)
   || (Nat.eqb x 239 && Nat.eqb y 187 && Nat.eqb z 191))%bool.

Definition digit_of (c : ascii) : option Z :=
  let n := nat_of_ascii c in
  if (Nat.leb 48 n && Nat.leb n 57)%bool then Some (Z.of_nat n - 48) else None.

Definition hex_digit_of (c : ascii) : option Z :=
  let n := nat_of_ascii c in
  if (Nat.leb 48 n && Nat.leb n 57)%bool then Some (Z.of_nat n - 48)
  else if (Nat.leb 97 n && Nat.leb n 102)%bool then Some (Z.of_nat n - 87)
  else if (Nat.leb 65 n && Nat.leb n 70)%bool then Some (Z.of_nat n - 55)
  else None.

(** The string without the white space it starts with. *)
Fixpoint skip_ws (s : string) : string :=
  match s with
  | EmptyString => s
  | String a r1 =>
      if is_ws a then skip_ws r1
      else
        match r1 with
        | EmptyString => s
        | String b r2 =>
            if is_ws2 a b then skip_ws r2
            else
              match r2 with
              | EmptyString => s
              | String c r3 => if is_ws3 a b c then skip_ws r3 else s
              end
        end
  end.

Fixpoint digits_acc (radix : Z) (digit_of : ascii -> option Z) (acc : option Z)
         (s : string) : option Z :=
  match s with
  | EmptyString => acc
  | String c rest =>
      match digit_of c with
      | Some d =>
          digits_acc radix digit_of
            (Some (radix * match acc with Some a => a | None => 0 end + d)) rest
      | None => acc
      end
  end.

Definition is_x (c : ascii) : bool :=
  (Nat.eqb (nat_of_ascii c) 120 || Nat.eqb (nat_of_ascii c) 88)%bool.

(** [parseInt(s)] with no radix: leading white space is skipped, an
    optional sign is read, then the longest run of digits, in base 16
    after a [0x] prefix and in base 10 otherwise; [None] stands for
    [NaN]. *)
Definition unsigned_int (s : string) : option Z :=
  match s with
  | String z (String x rest) =>
      if (Nat.eqb (nat_of_ascii z) 48 && is_x x)%bool
      then digits_acc 16 hex_digit_of None rest
      else digits_acc 10 digit_of None s
  | _ => digits_acc 10 digit_of None s
  end.

Definition parseInt_str (s : string) : option Z :=
  match skip_ws s with
  | String c rest =>
      if Nat.eqb (nat_of_ascii c) 45 then option_map Z.opp (unsigned_int rest)
      else if Nat.eqb (nat_of_ascii c) 43 then unsigned_int rest
      else unsigned_int (String c rest)
  | EmptyString => None
  end.

(** [parseInt(req.query.x)]: an absent parameter is [undefined], whose
    [parseInt] is [NaN]. *)
Definition parseInt (q : option string) : option Z :=
  match q with None => None | Some s => parseInt_str s end.

(** [parseInt(x) || dflt]: [NaN] and [0] are falsy. *)
Definition or_default (n : option Z) (dflt : Z) : Z :=
  match n with
  | Some v => if v =? 0 then dflt else v
  | None => dflt
  end.

Definition date_eqb (a b : date) : bool :=
  ((year a =? year b) && (month a =? month b) && (day a =? day b))%bool.

(** Lexicographic order, the order of [YYYY-MM-DD] strings and of SQL
    [DATE]s. *)
Definition date_leb (a b : date) : bool :=
  ((year a <? year b)
   || ((year a =? year b)
       && ((month a <? month b)
           || ((month a =? month b) && (day a <=? day b)))))%bool.

(** [new Date(y, m0, 1)] with a 0-based month [m0] that may lie outside
    0..11: the constructor carries the overflow into the year.  The result
    is the first day of the normalised month. *)
Definition first_of_month (y m0 : Z) : date :=
  Date (y + m0 / 12) (m0 mod 12 + 1) 1.

Definition is_leap (y : Z) : bool :=
  (((y mod 4 =? 0) && negb (y mod 100 =? 0)) || (y mod 400 =? 0))%bool.

Definition days_in_month (y m : Z) : Z :=
  if m =? 2 then (if is_leap y then 29 else 28)
  else if (m =? 4) || (m =? 6) || (m =? 9) || (m =? 11) then 30
  else 31.

Definition valid_date (d : date) : bool :=
  ((1 <=? month d) && (month d <=? 12)
   && (1 <=? day d) && (day d <=? days_in_month (year d) (month d)))%bool.

(** [d.setDate(d.getDate() + 1)] on a valid day. *)
Definition next_day (d : date) : date :=
  if day d <? days_in_month (year d) (month d)
  then Date (year d) (month d) (day d + 1)
  else if month d <? 12 then Date (year d) (month d + 1) 1
       else Date (year d + 1) 1 1.

(** The day before a calendar day: what the [Date] constructor makes of
    a day of the month that has run down to 0. *)
Definition prev_day (d : date) : date :=
  if 1 <? day d then Date (year d) (month d) (day d - 1)
  else if 1 <? month d
       then Date (year d) (month d - 1) (days_in_month (year d) (month d - 1))
       else Date (year d - 1) 12 31.

(** The clock of the server.  A [Date] is set from the fields of local
    time ([new Date()], [new Date(y, m, d)], [setHours]) and printed by
    [toISOString] in UTC.  For a moment [ms] milliseconds into the local
    day [d], at which local time is [ahead] minutes ahead of UTC (behind
    it when [ahead] is negative; less than a day either way),
    [utc_day ahead d ms] is the day that [toISOString().split('T')[0]]
    prints: the day before [d] for an early hour east of Greenwich, the
    day after it for a late hour west of it. *)
Definition utc_day (ahead : Z) (d : date) (ms : Z) : date :=
  let t := ms - ahead * 60000 in
  if t <? 0 then prev_day d
  else if 86400000 <=? t then next_day d
  else d.

(** The same with the zone of the server, [ahead d ms] being the minutes
    local time is ahead of UTC at [ms] milliseconds into the local day
    [d]. *)
Definition toISOString_day (ahead : date -> Z -> Z) (d : date) (ms : Z) : date :=
  utc_day (ahead d ms) d ms.

(** A moment of time, as a [Date] object holds it: a day of the UTC
    calendar and the milliseconds since its midnight.  [carry] brings
    back into the day a time of day that was moved by less than a day. *)
Definition moment : Type := (date * Z)%type.

Definition carry (d : date) (t : Z) : moment :=
  if t <? 0 then (prev_day d, t + 86400000)
  else if 86400000 <=? t then (next_day d, t - 86400000)
  else (d, t).

(** [a <= b] on two [Date] objects. *)
Definition moment_leb (a b : moment) : bool :=
  if date_eqb (fst a) (fst b) then snd a <=? snd b
  else date_leb (fst a) (fst b).

(** The fields [getDate], [getHours] and the like read: the day and the
    time of day the server's clock shows at a moment, [ahead_at d ms]
    being the minutes local time is ahead of UTC at [ms] milliseconds
    into the UTC day [d]. *)
Definition local_fields (ahead_at : date -> Z -> Z) (m : moment) : moment :=
  carry (fst m) (snd m + ahead_at (fst m) (snd m) * 60000).

(** [d.setDate(d.getDate() + 1)]: the moment at which the server's clock
    shows the next day of its calendar at the same time of day. *)
Definition setDate_next (ahead_at ahead : date -> Z -> Z) (m : moment) : moment :=
  let l := local_fields ahead_at m in
  let tomorrow := next_day (fst l) in
  carry tomorrow (snd l - ahead tomorrow (snd l) * 60000).

(** [d.toISOString().split('T')[0]] for a [Date] at midnight UTC, and
    [DATE_FORMAT(d, '%Y-%m-%d')], for the years 0 to 9999. *)
Definition digit (n : Z) : ascii := ascii_of_nat (48 + Z.to_nat (n mod 10)).

Definition iso_date (d : date) : string :=
  String (digit (year d / 1000)) (String (digit (year d / 100))
  (String (digit (year d / 10)) (String (digit (year d))
  (String "-" (String (digit (month d / 10)) (String (digit (month d))
  (String "-" (String (digit (day d / 10)) (String (digit (day d))
   EmptyString))))))))).

(** The test [/^\d{4}-\d{2}-\d{2}$/] together with the reading of the
    three numbers. *)
Definition parse_ymd (s : string) : option date :=
  match s with
  | String y1 (String y2 (String y3 (String y4 (String h1
    (String m1 (String m2 (String h2 (String d1 (String d2
     EmptyString))))))))) =>
      if Ascii.eqb h1 "-" && Ascii.eqb h2 "-"
      then
        match digit_of y1, digit_of y2, digit_of y3, digit_of y4,
              digit_of m1, digit_of m2, digit_of d1, digit_of d2 with
        | Some a, Some b, Some c, Some e, Some f, Some g, Some h, Some i =>
            Some (Date (1000 * a + 100 * b + 10 * c + e) (10 * f + g) (10 * h + i))
        | _, _, _, _, _, _, _, _ => None
        end
      else None
  | _ => None
  end.

(** A [Map] with string keys, as an association list: [set] replaces the
    entry of its key. *)
Definition Map : Type := list (string * Z).

Definition map_set (k : string) (v : Z) (m : Map) : Map :=
  (k, v) :: filter (fun kv => negb (String.eqb (fst kv) k)) m.

Fixpoint map_get (k : string) (m : Map) : option Z :=
  match m with
  | [] => None
  | (k', v) :: m' => if String.eqb k' k then Some v else map_get k m'
  end.

(** Numbers.  An amount is a whole number here.  The language holds it
    as an IEEE double: as it is when it has at most 53 significant bits,
    otherwise rounded to the nearest double, to the one with the even
    mantissa on a tie, and to [Infinity] from [2^1024 - 2^970] on.  So
    [9007199254740992 + 1] is [9007199254740992]. *)
Inductive number : Type :=
| Num (z : Z)
| Infinity (negative : bool)
| NaN.

Definition nearest (z : Z) : Z :=
  let a := Z.abs z in
  if a <? 2 ^ 53 then z
  else
    let ulp := 2 ^ (Z.log2 a - 52) in
    let q := a / ulp in
    let r := a mod ulp in
    let q' := if 2 * r <? ulp then q
              else if ulp <? 2 * r then q + 1
              else if Z.even q then q else q + 1 in
    Z.sgn z * (q' * ulp).

(** The number a decimal is read as, by [JSON.parse] and by
    [parseFloat]. *)
Definition to_number (z : Z) : number :=
  let n := nearest z in
  if 2 ^ 1024 <=? Z.abs n then Infinity (z <? 0) else Num n.

(** [parseFloat(x)] of a nullable numeric column. *)
Definition parseFloat (x : option Z) : number :=
  match x with Some v => to_number v | None => NaN end.

(** [x + y] and [x - y]: the exact result, rounded. *)
Definition plus (x y : number) : number :=
  match x, y with
  | Num a, Num b => to_number (a + b)
  | NaN, _ => NaN
  | _, NaN => NaN
  | Infinity s, Infinity s' => if Bool.eqb s s' then Infinity s else NaN
  | Infinity s, Num _ => Infinity s
  | Num _, Infinity s => Infinity s
  end.

Definition negate (x : number) : number :=
  match x with
  | Num a => Num (- a)
  | Infinity s => Infinity (negb s)
  | NaN => NaN
  end.

Definition minus (x y : number) : number := plus x (negate y).

(** [x || 0]. *)
Definition or_zero (x : number) : number :=
  match x with NaN => Num 0 | _ => x end.

(** [x <= 0]. *)
Definition leb_zero (x : number) : bool :=
  match x with
  | Num a => a <=? 0
  | Infinity negative => negative
  | NaN => false
  end.

(** A number as [res.json] sends it: [JSON.stringify] writes [null] for
    what is not finite. *)
Definition jnum (x : number) : json :=
  match x with Num a => JNum a | _ => JNull end.

(** The whole numbers up to [2^53] in size, all of them doubles: sums
    and differences that stay among them are exact, [`${n}`] writes
    their digits, and a statement carries them as they are. *)
Definition safe (z : Z) : bool := Z.abs z <=? 2 ^ 53.

End Js.

(* ===================================================================== *)
(** ** db.js *)
(* ===================================================================== *)
Module Db.

(** A thrown [Error]: [error.code] (set by the MySQL driver),
    [error.name] and [error.message]. *)
Record error : Type :=
  Error { err_code : option string; err_name : string; err_message : string }.

(** What awaiting a promise gives: a value, a thrown error, or the value
    [undefined] thrown (what [throw lastError] does when no attempt ran). *)
Inductive outcome (A : Type) : Type :=
| Resolved (a : A)
| Rejected (e : error)
| RejectedUndefined.
Arguments Resolved {A} a.
Arguments Rejected {A} e.
Arguments RejectedUndefined {A}.

Definition is_user_limit (e : error) : bool :=
  match err_code e with
  | Some c => String.eqb c "ER_USER_LIMIT_REACHED"
  | None => false
  end.

Section RetryOperation.
(** [W] is whatever the operation can observe and change (the pool, the
    database); the operation is run once per attempt. *)
Variables (W A : Type).
Variable operation : W -> outcome A * W.

(** The state of the loop: the world and the [setTimeout] delays awaited
    so far, in milliseconds. *)
Record run : Type := Run { result : outcome A; world : W; slept : list Z }.

(** The [for] loop of [retryOperation]; [remaining] counts the
    iterations left, [i] is the loop variable. *)
Fixpoint retry_loop (remaining : nat) (i : Z) (lastError : option error)
         (w : W) (log : list Z) : run :=
  match remaining with
  | O =>
      match lastError with
      | Some e => Run (Rejected e) w log
      | None => Run RejectedUndefined w log
      end
  | S r =>
      match operation w with
      | (Resolved a, w') => Run (Resolved a) w' log
      | (Rejected e, w') =>
          if is_user_limit e
          then retry_loop r (i + 1) (Some e) w' (log ++ [1000 * (i + 1)])
          else Run (Rejected e) w' log
      | (RejectedUndefined, w') =>
          (* [undefined.code] is itself a TypeError thrown from the
             catch block *)
          Run (Rejected (Error None "TypeError"
                 "Cannot read properties of undefined (reading 'code')")) w' log
      end
  end.

Definition retryOperation (maxRetries : Z) (w : W) : run :=
  retry_loop (Z.to_nat maxRetries) 0 None w [].

(** The world before attempt [j] (attempts are numbered from 0) and the
    outcome of attempt [j], had all attempts been made. *)
Fixpoint world_before (j : nat) (w : W) : W :=
  match j with
  | O => w
  | S j' => world_before j' (snd (operation w))
  end.

Definition attempt (j : nat) (w : W) : outcome A :=
  fst (operation (world_before j w)).

Definition transient (o : outcome A) : Prop :=
  exists e, o = Rejected e /\ is_user_limit e = true.

(** The delays awaited after [k] transient failures: [1000 * 1], ...,
    [1000 * k]. *)
Definition linear_backoff (k : nat) : list Z :=
  map (fun j => 1000 * (Z.of_nat j + 1)) (seq 0 k).

End RetryOperation.

Arguments Run {W A} result world slept.
Arguments result {W A} r.
Arguments world {W A} r.
Arguments slept {W A} r.
Arguments retry_loop {W A} operation remaining i lastError w log.
Arguments retryOperation {W A} operation maxRetries w.
Arguments world_before {W A} operation j w.
Arguments attempt {W A} operation j w.
Arguments transient {A} o.

End Db.

(* ===================================================================== *)
(** ** The tables and the SQL statements sent to them *)
(* ===================================================================== *)
Module Store.
Import Js.

(** A row of [users]. *)
Record User : Type := mkUser {
  u_id : Z;
  first_name : string;
  last_name : string;
  email : string;
  phone_number : string;
  password : string;
  profile_photo : option string;
  refresh_token : option string;
  balance : option Z
}.

(** A row of [infodata], the ledger. *)
Record Row : Type := mkRow {
  i_id : Z;
  title : string;
  value : Z;
  i_date : date;
  section : string;
  target : option Z;
  payment_mode : option string;
  notes : option string;
  i_user_id : Z
}.

(** A row of [categories]; [c_user_id] is [NULL] for a shared default. *)
Record Category : Type := mkCategory {
  c_id : Z;
  label : string;
  iconName : option string;
  iconColor : option string;
  iconLibrary : option string;
  c_target : option Z;
  c_user_id : option Z
}.

Record tables : Type := mkTables {
  users : list User;
  infodata : list Row;
  categories : list Category
}.

Definition set_users (f : list User -> list User) (t : tables) : tables :=
  mkTables (f (users t)) (infodata t) (categories t).
Definition set_infodata (f : list Row -> list Row) (t : tables) : tables :=
  mkTables (users t) (f (infodata t)) (categories t).
Definition set_categories (f : list Category -> list Category) (t : tables)
  : tables :=
  mkTables (users t) (infodata t) (f (categories t)).

(** [DELETE FROM t WHERE p]: the rows kept and [affectedRows]. *)
Definition delete_where {R : Type} (p : R -> bool) (rows : list R)
  : list R * Z :=
  (filter (fun r => negb (p r)) rows, Z.of_nat (List.length (filter p rows))).

(** [UPDATE t SET ... WHERE p]. *)
Definition update_where {R : Type} (p : R -> bool) (f : R -> R)
           (rows : list R) : list R :=
  map (fun r => if p r then f r else r) rows.

(** [SUM(expr)] over the selected rows; SQL gives [NULL] on no rows. *)
Definition sum_by {R : Type} (f : R -> Z) (rows : list R) : Z :=
  fold_right (fun r acc => f r + acc) 0 rows.

Definition sql_sum {R : Type} (f : R -> Z) (rows : list R) : option Z :=
  match rows with
  | [] => None
  | _ => Some (sum_by f rows)
  end.

(** [CASE WHEN section != 'Income' THEN value ELSE 0 END]. *)
Definition expense_value (r : Row) : Z :=
  if String.eqb (section r) "Income" then 0 else value r.

(** [parseFloat(x) || 0] on a nullable numeric column. *)
Definition num_or_zero (x : option Z) : Z :=
  match x with Some v => v | None => 0 end.

(** [GROUP BY key] with one [SUM(f)] per group: the distinct keys in the
    order in which they first occur, each with the sum over its rows. *)
Fixpoint distinct (l : list string) : list string :=
  match l with
  | [] => []
  | k :: l' => k :: filter (fun k' => negb (String.eqb k' k)) (distinct l')
  end.

Definition group_sum {R : Type} (key : R -> string) (f : R -> Z)
           (rows : list R) : list (string * Z) :=
  map (fun k => (k, sum_by f (filter (fun r => String.eqb (key r) k) rows)))
      (distinct (map key rows)).

(** Stable insertion sort, for [ORDER BY]; [leb a b] says that [a] may
    stay in front of [b]. *)
Fixpoint insert_sorted {R : Type} (leb : R -> R -> bool) (x : R)
         (l : list R) : list R :=
  match l with
  | [] => [x]
  | y :: l' => if leb x y then x :: l else y :: insert_sorted leb x l'
  end.

Definition order_by {R : Type} (leb : R -> R -> bool) (l : list R) : list R :=
  fold_right (insert_sorted leb) [] l.

(** [LIMIT ? OFFSET ?] after the driver has written the two numbers into
    the statement: the MySQL grammar takes non-negative integer constants
    only, and answers a negative one with a parse error. *)
Definition limit_offset {R : Type} (limit offset : Z) (rows : list R)
  : option (list R) :=
  if (limit <? 0) || (offset <? 0) then None
  else Some (firstn (Z.to_nat limit) (skipn (Z.to_nat offset) rows)).

End Store.

(* ===================================================================== *)
(** ** A pooled connection *)
(* ===================================================================== *)
Module Tx.
Import Js Db Store.

(** The database as one request sees it: the committed tables, the
    working copy of the transaction this connection has open (if any),
    the [AUTO_INCREMENT] counter of [infodata], and the number of calls
    made to the driver so far. *)
Record world : Type := mkWorld {
  db : tables;
  tx : option tables;
  auto_inc : Z;
  tick : nat
}.

Definition M (A : Type) : Type := world -> outcome A * world.

Definition ret {A : Type} (a : A) : M A := fun w => (Resolved a, w).

Definition bind {A B : Type} (m : M A) (k : A -> M B) : M B :=
  fun w =>
    match m w with
    | (Resolved a, w') => k a w'
    | (Rejected e, w') => (Rejected e, w')
    | (RejectedUndefined, w') => (RejectedUndefined, w')
    end.

(** [try { body } catch (e) { handler }]. *)
Definition try_catch {A : Type} (body : M A) (handler : error -> M A) : M A :=
  fun w =>
    match body w with
    | (Rejected e, w') => handler e w'
    | r => r
    end.

Declare Scope tx_scope.
Delimit Scope tx_scope with tx.
Notation "x <- m ;; k" := (bind m (fun x => k))
  (at level 61, m at next level, right associativity) : tx_scope.
Notation "m ;;; k" := (bind m (fun _ => k))
  (at level 61, right associativity) : tx_scope.

Section Driver.
(** [faults n] is the error the driver throws on its [n]-th call, if
    any: a lost connection, a lock timeout, an exhausted pool. *)
Variable faults : nat -> option error.

Definition bump (w : world) : world :=
  mkWorld (db w) (tx w) (auto_inc w) (S (tick w)).

(** One awaited call to the driver. *)
Definition call {A : Type} (f : world -> A * world) : M A :=
  fun w =>
    match faults (tick w) with
    | Some e => (Rejected e, bump w)
    | None => let (a, w') := f w in (Resolved a, bump w')
    end.

(** [pool.promise().getConnection()]. *)
Definition getConnection : M unit := call (fun w => (tt, w)).

(** [connection.beginTransaction()]. *)
Definition beginTransaction : M unit :=
  call (fun w => (tt, mkWorld (db w) (Some (db w)) (auto_inc w) (tick w))).

(** [connection.query(...)]: inside a transaction the statement works
    on the working copy, otherwise it is committed at once. *)
Definition on_tables {A : Type} (f : tables -> A * tables) (w : world)
  : A * world :=
  match tx w with
  | Some t => let (a, t') := f t in
              (a, mkWorld (db w) (Some t') (auto_inc w) (tick w))
  | None => let (a, d') := f (db w) in
            (a, mkWorld d' None (auto_inc w) (tick w))
  end.

Definition query {A : Type} (f : tables -> A * tables) : M A :=
  call (on_tables f).

(** A [SELECT]. *)
Definition select {A : Type} (f : tables -> A) : M A :=
  query (fun t => (f t, t)).

(** [INSERT INTO infodata ...]: the row gets the next identifier. *)
Definition insert_infodata (mk : Z -> Row) : M Z :=
  call (fun w =>
          let id := auto_inc w in
          let (_, w') :=
            on_tables (fun t => (tt, set_infodata (fun l => l ++ [mk id]) t)) w in
          (id, mkWorld (db w') (tx w') (id + 1) (tick w'))).

(** [connection.commit()]. *)
Definition commit : M unit :=
  call (fun w =>
          match tx w with
          | Some t => (tt, mkWorld t None (auto_inc w) (tick w))
          | None => (tt, w)
          end).

(** [connection.rollback()] when the call goes through; outside a
    transaction it does nothing. *)
Definition rollback : M unit :=
  fun w => (Resolved tt, mkWorld (db w) None (auto_inc w) (tick w)).

(** [await connection.rollback()] as one more call to the driver, which
    can be rejected like any other (on a lost connection, say); the
    working copy is then still there when the handler is left. *)
Definition await_rollback : M unit :=
  call (fun w => (tt, mkWorld (db w) None (auto_inc w) (tick w))).

(** [pool.query(...)] / [pool.promise().query(...)]: a statement on a
    connection of its own, committed at once. *)
Definition pool_query {A : Type} (f : tables -> A * tables) : M A :=
  call (fun w => let (a, d') := f (db w) in
                 (a, mkWorld d' (tx w) (auto_inc w) (tick w))).

(** A transaction of another request that commits a change to
    [categories] while this connection has its own transaction open. *)
Definition concurrently (other : list Category -> list Category) : M unit :=
  fun w =>
    (Resolved tt,
     mkWorld (set_categories other (db w))
             (option_map (set_categories other) (tx w))
             (auto_inc w) (tick w)).
End Driver.

(** A request starts on an idle connection. *)
Definition idle (d : tables) (next_id : Z) : world := mkWorld d None next_id 0.

Definition no_faults : nat -> option error := fun _ => None.

(** [throw e]. *)
Definition throw {A : Type} (e : error) : M A := fun w => (Rejected e, w).

(** What the client receives once the handler has answered. *)
Definition answer (m : M response) (w : world) : option response :=
  match fst (m w) with
  | Resolved r => Some r
  | _ => None
  end.

Definition after {A : Type} (m : M A) (w : world) : world := snd (m w).

End Tx.

(* ===================================================================== *)
(** ** middleware/authMiddleware.js and routes/authRoutes.js *)
(* ===================================================================== *)
Module Auth.
Import Js Db Store Tx.
Local Open Scope tx_scope.

(** The payload of a token: [{ userId, email }]. *)
Record claims : Type := Claims { userId : option Z; c_email : option string }.

(** What the middleware does with a request: call [next()] with
    [req.user] set, or answer itself. *)
Inductive admission : Type :=
| Next (user : claims)
| Answered (r : response).

Definition error_body (msg : string) : json := JObj [("error", JStr msg)].

Definition error_details (msg : string) (e : error) : json :=
  JObj [("error", JStr msg); ("details", JStr (err_message e))].

(** [s.trim()]: the string without the white space at its two ends.
    [rtrim] cuts the string where what is left is white space only. *)
Fixpoint rtrim (s : string) : string :=
  match s with
  | EmptyString => EmptyString
  | String c rest =>
      if truthy_str (skip_ws s) then String c (rtrim rest) else EmptyString
  end.

Definition trim (s : string) : string := rtrim (skip_ws s).

Section Tokens.
(** The [jsonwebtoken] and [bcryptjs] libraries and the two signing
    keys of [config.js]. *)
Variables SECRET_KEY REFRESH_KEY : string.
(** [jwt.verify(token, key)]: the decoded payload, or the error thrown
    ([TokenExpiredError], [JsonWebTokenError], ...). *)
Variable jwt_verify : string -> string -> claims + error.
(** [jwt.sign(payload, key, { expiresIn })] at a given time. *)
Variable jwt_sign : claims -> string -> string -> Z -> string.
(** [bcrypt.compare(plain, hash)]. *)
Variable bcrypt_compare : string -> string -> bool.

(** [verifyToken(req, res, next)], from [req.headers.authorization]. *)
Definition verifyToken (authorization : option string) : admission :=
  match authorization with
  | None => Answered (Response 401 (error_body "No authorization header"))
  | Some bearerHeader =>
      if negb (truthy_str bearerHeader)
      then Answered (Response 401 (error_body "No authorization header"))
      else
        match nth_error (split space bearerHeader) 1 with
        | None => Answered (Response 401 (error_body "No token provided"))
        | Some token =>
            if negb (truthy_str token)
            then Answered (Response 401 (error_body "No token provided"))
            else
              match jwt_verify token SECRET_KEY with
              | inl decoded => Next decoded
              | inr error =>
                  if String.eqb (err_name error) "TokenExpiredError"
                  then Answered (Response 403 (error_details "Token expired" error))
                  else Answered (Response 403 (error_details "Invalid token" error))
              end
        end
  end.

Variable faults : nat -> option error.

Definition safeUser (user : User) : json :=
  JObj [("id", JNum (u_id user));
        ("first_name", JStr (first_name user));
        ("last_name", JStr (last_name user));
        ("email", JStr (email user));
        ("phone_number", JStr (phone_number user));
        ("profile_photo", jopt JStr (profile_photo user))].

(** [POST /auth/login]. *)
Definition login (b_email b_password : option string) (now : Z) : M response :=
  match b_email, b_password with
  | Some em, Some pw =>
      if negb (truthy_str em) || negb (truthy_str pw)
      then ret (Response 400 (error_body "Email and password are required"))
      else
        try_catch
          (results <- pool_query faults (fun t =>
             (filter (fun u => String.eqb (email u) em) (users t), t)) ;;
           match results with
           | [] => ret (Response 401 (error_body "Invalid email or password"))
           | user :: _ =>
               if negb (bcrypt_compare (trim pw) (password user))
               then ret (Response 401 (error_body "Invalid email or password"))
               else
                 let token :=
                   jwt_sign (Claims (Some (u_id user)) (Some (email user)))
                            SECRET_KEY "365d" now in
                 let refreshToken :=
                   jwt_sign (Claims (Some (u_id user)) None)
                            REFRESH_KEY "730d" now in
                 pool_query faults (fun t =>
                   (tt, set_users
                          (update_where
                             (fun u => u_id u =? u_id user)
                             (fun u => mkUser (u_id u) (first_name u) (last_name u)
                                         (email u) (phone_number u) (password u)
                                         (profile_photo u) (Some refreshToken)
                                         (balance u))) t)) ;;;
                 ret (Response 200
                        (JObj [("message", JStr "Login successful");
                               ("token", JStr token);
                               ("refreshToken", JStr refreshToken);
                               ("user", safeUser user)]))
           end)
          (fun error =>
             ret (Response 500 (error_details "Error during authentication" error)))
  | _, _ => ret (Response 400 (error_body "Email and password are required"))
  end.

(** [POST /auth/refresh-token]. *)
Definition refresh_token_route (b_refreshToken : option string) (now : Z)
  : M response :=
  match b_refreshToken with
  | None => ret (Response 401 (error_body "Refresh token required"))
  | Some refreshToken =>
      if negb (truthy_str refreshToken)
      then ret (Response 401 (error_body "Refresh token required"))
      else
        try_catch
          (decoded <- match jwt_verify refreshToken REFRESH_KEY with
                      | inl d => ret d
                      | inr e => throw e
                      end ;;
           found <- pool_query faults (fun t =>
             (filter (fun u =>
                        match userId decoded, refresh_token u with
                        | Some id, Some stored =>
                            (u_id u =? id) && String.eqb stored refreshToken
                        | _, _ => false
                        end) (users t), t)) ;;
           match found with
           | [] => ret (Response 401 (error_body "Invalid refresh token"))
           | user :: _ =>
               let newToken :=
                 jwt_sign (Claims (Some (u_id user)) (Some (email user)))
                          SECRET_KEY "365d" now in
               ret (Response 200 (JObj [("token", JStr newToken)]))
           end)
          (fun error =>
             ret (Response 401 (error_details "Invalid refresh token" error)))
  end.
End Tokens.

End Auth.

(* ===================================================================== *)
(** ** routes/expenseRoutes.js *)
(* ===================================================================== *)
Module Expense.
Import Js Db Store Tx.
Import Auth.
Local Open Scope tx_scope.

Definition no_user : response :=
  Response 401 (error_body "User ID not found in token payload.").

(** [category && category !== 'All']. *)
Definition category_filter (category : option string) (r : Row) : bool :=
  match category with
  | Some c =>
      if truthy_str c && negb (String.eqb c "All")
      then String.eqb (section r) c else true
  | None => true
  end.

Definition from_filter (fromDate : option date) (r : Row) : bool :=
  match fromDate with Some d => date_leb d (i_date r) | None => true end.

Definition to_filter (toDate : option date) (r : Row) : bool :=
  match toDate with Some d => date_leb (i_date r) d | None => true end.

(** The [WHERE] clause shared by the listing and the period summary. *)
Definition matches (uid : Z) (category : option string)
           (fromDate toDate : option date) (r : Row) : bool :=
  (i_user_id r =? uid) && category_filter category r
  && from_filter fromDate r && to_filter toDate r.

(** [infodata i LEFT JOIN categories c ON i.section = c.label AND
    c.user_id = i.user_id]. *)
Definition left_join (cs : list Category) (i : Row)
  : list (Row * option Category) :=
  match filter (fun c =>
                  String.eqb (section i) (label c)
                  && match c_user_id c with
                     | Some u => u =? i_user_id i
                     | None => false
                     end) cs with
  | [] => [(i, None)]
  | found => map (fun c => (i, Some c)) found
  end.

(** [ORDER BY date DESC, id DESC]. *)
Definition newest_first (a b : Row * option Category) : bool :=
  let x := fst a in
  let y := fst b in
  if date_eqb (i_date x) (i_date y) then i_id y <=? i_id x
  else date_leb (i_date y) (i_date x).

Definition item_json (ic : Row * option Category) : json :=
  let (i, c) := ic in
  JObj [("id", JNum (i_id i)); ("title", JStr (title i));
        ("value", JNum (value i)); ("date", JDate (i_date i));
        ("section", JStr (section i)); ("target", jopt JNum (target i));
        ("payment_mode", jopt JStr (payment_mode i));
        ("notes", jopt JStr (notes i)); ("user_id", JNum (i_user_id i));
        ("iconName", match c with Some c => jopt JStr (iconName c) | None => JNull end);
        ("iconColor", match c with Some c => jopt JStr (iconColor c) | None => JNull end);
        ("iconLibrary", match c with Some c => jopt JStr (iconLibrary c) | None => JNull end)].

Definition parse_error : error :=
  Error (Some "ER_PARSE_ERROR") "Error"
        "You have an error in your SQL syntax".


(** [getPeriodDates(period)], called [now] milliseconds into the local
    day [today]: the two [YYYY-MM-DD] bounds.  [endDate] is the end of
    today, 23:59:59.999 local time; [startDate] is local midnight of the
    first day of a month, and with an unknown period it stays at the
    moment of the call.  Both are printed in UTC. *)
Definition getPeriodDates (ahead : date -> Z -> Z) (today : date) (now : Z)
           (period : string) : date * date :=
  let y := year today in
  let m0 := month today - 1 in
  let endDate := toISOString_day ahead today 86399999 in
  let startDate :=
    if String.eqb period "thisMonth"
    then toISOString_day ahead (first_of_month y m0) 0
    else if String.eqb period "last3Months"
    then toISOString_day ahead (first_of_month y (m0 - 2)) 0
    else if String.eqb period "last6Months"
    then toISOString_day ahead (first_of_month y (m0 - 5)) 0
    else if String.eqb period "last12Months"
    then toISOString_day ahead (first_of_month (y - 1) m0) 0
    else toISOString_day ahead today now in
  (startDate, endDate).


Definition monthNames : list string :=
  ["Jan"; "Feb"; "Mar"; "Apr"; "May"; "Jun";
   "Jul"; "Aug"; "Sep"; "Oct"; "Nov"; "Dec"].

(** [monthNames[d.getMonth()]] and [DATE_FORMAT(d, '%b')]. *)
Definition month_name (d : date) : string :=
  nth (Z.to_nat (month d - 1)) monthNames "".

(** The loop that fills [monthLabels]: [n] iterations are left, [i] is
    the loop variable, and [unshift] puts the older month in front. *)
Fixpoint month_labels_loop (today : date) (n : nat) (i : Z)
         (monthLabels : list string) : list string :=
  match n with
  | O => monthLabels
  | S n' =>
      let d := first_of_month (year today) (month today - 1 - i) in
      month_labels_loop today n' (i + 1) (month_name d :: monthLabels)
  end.

Definition month_labels (today : date) (months : Z) : list string :=
  month_labels_loop today (Z.to_nat months) 0 [].

(** [rows.forEach(row => fetchedDataMap.set(row.key, parseFloat(row.total) || 0))]. *)
Definition fetched_map (rows : list (string * Z)) : Map :=
  fold_left (fun m row => map_set (fst row) (snd row) m) rows [].

(** [fetchedDataMap.get(label) || 0]. *)
Definition get_or_zero (m : Map) (k : string) : Z := num_or_zero (map_get k m).

(** The rows the monthly query aggregates, and its result set:
    [GROUP BY month ORDER BY MIN(date)]. *)
Definition monthly_rows (uid : Z) (startDate : date) (l : list Row) : list Row :=
  filter (fun r => (i_user_id r =? uid) && date_leb startDate (i_date r)) l.

Definition monthly_query (uid : Z) (startDate : date) (l : list Row)
  : list (string * Z) :=
  group_sum (fun r => month_name (i_date r)) expense_value
            (order_by (fun a b => date_leb (i_date a) (i_date b))
                      (monthly_rows uid startDate l)).

(** The rows the daily query aggregates, and its result set:
    [GROUP BY date ORDER BY date]. *)
Definition daily_rows (uid : Z) (startDate endDate : date) (l : list Row)
  : list Row :=
  filter (fun r => (i_user_id r =? uid)
                   && date_leb startDate (i_date r)
                   && date_leb (i_date r) endDate) l.

Definition daily_query (uid : Z) (startDate endDate : date) (l : list Row)
  : list (string * Z) :=
  group_sum (fun r => iso_date (i_date r)) expense_value
            (order_by (fun a b => date_leb (i_date a) (i_date b))
                      (daily_rows uid startDate endDate l)).

(** A count that grows with the calendar. *)
Definition day_index (d : date) : Z :=
  (year d * 12 + (month d - 1)) * 31 + (day d - 1).

(** The calendar days from one day to another, both included. *)



(** [new Date(s)] for a string that passed the format test: midnight
    UTC of the day it names.  A string that names no calendar day
    (month 13, February 30) is given the invalid date, with which the
    loop below does not run. *)
Definition new_Date (s : string) : option moment :=
  match parse_ymd s with
  | Some d => if valid_date d then Some (d, 0) else None
  | None => None
  end.

(** The [while (currentDate <= endDt)] loop of the daily summary: a
    bucket for the UTC day of [currentDate], which then moves to the
    next day of the server's calendar.  The loop has no bound of its
    own; [fuel] is the number of rounds it is given. *)
Fixpoint daily_loop (fuel : nat) (ahead_at ahead : date -> Z -> Z)
         (currentDate endDt : moment) : list date :=
  match fuel with
  | O => []
  | S fuel' =>
      if moment_leb currentDate endDt
      then fst currentDate
           :: daily_loop fuel' ahead_at ahead
                         (setDate_next ahead_at ahead currentDate) endDt
      else []
  end.

(** The loop is given two rounds for every day of the range: with a
    clock that is moved by an hour or so a few times a year it leaves
    through its test. *)
Definition daily_fuel (currentDate endDt : moment) : nat :=
  Z.to_nat (2 * (day_index (fst endDt) + 1 - day_index (fst currentDate))).

Section Routes.
Variable faults : nat -> option error.

(** The offset [GET /items] computes from [_page] and [_limit]. *)
Definition page_of (_page : option string) : Z := or_default (parseInt _page) 1.
Definition limit_of (_limit : option string) : Z := or_default (parseInt _limit) 10.
Definition offset_of (_page _limit : option string) : Z :=
  (page_of _page - 1) * limit_of _limit.

(** [GET /items]. *)
Definition get_items (userId : option Z) (_page _limit category : option string)
           (fromDate toDate : option date) : M response :=
  match userId with
  | Some uid =>
      if negb (truthy_onum userId) then ret no_user
      else
        let limit := limit_of _limit in
        let offset := offset_of _page _limit in
        try_catch
          (totalItems <- pool_query faults (fun t =>
             (Z.of_nat (List.length
                (filter (matches uid category fromDate toDate) (infodata t))), t)) ;;
           try_catch
             (results <- pool_query faults (fun t =>
                (limit_offset limit offset
                   (order_by newest_first
                      (flat_map (left_join (categories t))
                         (filter (matches uid category fromDate toDate)
                                 (infodata t)))), t)) ;;
              match results with
              | Some rows => ret (Response 200 (JArr (map item_json rows)))
              | None => throw parse_error
              end)
             (fun err =>
                ret (Response 500 (error_body "Failed to fetch items."))))
          (fun err =>
             ret (Response 500 (error_body "Failed to fetch item count.")))
  | None => ret no_user
  end.


Definition bucket_json (field : string) (label : string) (total : Z) : json :=
  JObj [(field, JStr label); ("total_expenses", JNum total)].

(** [GET /items/summary/monthly], answered on the local day [today].
    The labels are read from local fields; [startDate] is local midnight
    of the first day of the window, printed in UTC. *)
Definition summary_monthly (ahead : date -> Z -> Z) (today : date)
           (userId : option Z) (q_months : option string) : M response :=
  let months := or_default (parseInt q_months) 6 in
  match userId with
  | Some uid =>
      if negb (truthy_onum userId) then ret no_user
      else
        let startDate :=
          toISOString_day ahead
            (first_of_month (year today) (month today - 1 - (months - 1))) 0 in
        let monthLabels := month_labels today months in
        try_catch
          (getConnection faults ;;;
           rows <- select faults (fun t =>
             monthly_query uid startDate (infodata t)) ;;
           let fetchedDataMap := fetched_map rows in
           ret (Response 200
                  (JArr (map (fun monthLabel =>
                                bucket_json "month" monthLabel
                                  (get_or_zero fetchedDataMap monthLabel))
                             monthLabels))))
          (fun err =>
             ret (Response 500 (error_details "Failed to fetch monthly summary." err)))
  | None => ret no_user
  end.

(** [GET /items/summary/daily], on a server whose clock is [ahead_at]
    minutes ahead of UTC at a moment given in UTC and [ahead] minutes at
    a moment given in local time. *)
Definition summary_daily (ahead_at ahead : date -> Z -> Z)
           (userId : option Z) (q_startDate q_endDate : option string)
  : M response :=
  match userId with
  | Some uid =>
      if negb (truthy_onum userId) then ret no_user
      else
        (* the query compares the [DATE] column with the two strings as
           dates, here in the order of their year, month and day *)
        match q_startDate, q_endDate with
        | Some startDate, Some endDate =>
            if negb (truthy_str startDate) || negb (truthy_str endDate)
            then ret (Response 400
                   (error_body "startDate and endDate are required for daily summary."))
            else
              match parse_ymd startDate, parse_ymd endDate with
              | Some sd, Some ed =>
                  try_catch
                    (getConnection faults ;;;
                     rows <- select faults (fun t =>
                       daily_query uid sd ed (infodata t)) ;;
                     let fetchedDataMap := fetched_map rows in
                     let dates :=
                       match new_Date startDate, new_Date endDate with
                       | Some currentDate, Some endDt =>
                           daily_loop (daily_fuel currentDate endDt)
                                      ahead_at ahead currentDate endDt
                       | _, _ => []
                       end in
                     ret (Response 200
                            (JArr (map (fun d =>
                                          let formattedDate := iso_date d in
                                          bucket_json "date" formattedDate
                                            (get_or_zero fetchedDataMap formattedDate))
                                       dates))))
                    (fun err =>
                       rollback ;;;
                       ret (Response 500
                              (error_details "Failed to fetch daily summary." err)))
              | _, _ => ret (Response 400 (error_body "Date format must be YYYY-MM-DD."))
              end
        | _, _ => ret (Response 400
                   (error_body "startDate and endDate are required for daily summary."))
        end
  | None => ret no_user
  end.

(** [WHERE id = ? AND user_id = ?] on [categories]. *)
Definition owns (categoryId uid : Z) (c : Category) : bool :=
  (c_id c =? categoryId)
  && match c_user_id c with Some u => u =? uid | None => false end.

(** [WHERE user_id = ? AND section = ?] on [infodata]. *)
Definition in_section (uid : Z) (l : string) (r : Row) : bool :=
  (i_user_id r =? uid) && String.eqb (section r) l.

(** [DELETE /items/custom-categories/:id].  [other] is what a
    transaction of another request commits to [categories] between the
    two deletions (the identity when the request runs alone); Express
    only routes a non-empty [:id] here, so the [!categoryId] guard
    never fires. *)
Definition delete_custom_category (other : list Category -> list Category)
           (userId : option Z) (categoryId : Z) : M response :=
  match userId with
  | Some uid =>
      if negb (truthy_onum userId) then ret no_user
      else
        try_catch
          (getConnection faults ;;;
           beginTransaction faults ;;;
           categoryRows <- select faults (fun t =>
             map label (filter (owns categoryId uid) (categories t))) ;;
           match categoryRows with
           | [] =>
               rollback ;;;
               ret (Response 404 (error_body
                 "Custom category not found or not authorized for this user."))
           | deletedCategoryLabel :: _ =>
               deleteInfodataResult <- query faults (fun t =>
                 let (kept, n) :=
                   delete_where (in_section uid deletedCategoryLabel) (infodata t) in
                 (n, set_infodata (fun _ => kept) t)) ;;
               concurrently other ;;;
               deleteCategoryResult <- query faults (fun t =>
                 let (kept, n) :=
                   delete_where (owns categoryId uid) (categories t) in
                 (n, set_categories (fun _ => kept) t)) ;;
               if deleteCategoryResult =? 0
               then
                 rollback ;;;
                 ret (Response 404 (error_body
                   "Custom category not found or could not be deleted from categories table."))
               else
                 commit faults ;;;
                 ret (Response 200
                        (JObj [("message",
                                JStr ("Custom category " ++ dquote
                                      ++ deletedCategoryLabel ++ dquote ++ " and "
                                      ++ show deleteInfodataResult
                                      ++ " associated transactions deleted successfully.")%string);
                               ("deletedTransactionsCount",
                                JNum deleteInfodataResult)]))
           end)
          (fun err =>
             rollback ;;;
             ret (Response 500 (error_details
               "Internal server error. Failed to delete custom category and associated transactions."
               err)))
  | None => ret no_user
  end.
End Routes.

End Expense.

(* ===================================================================== *)
(** ** routes/profileRoutes.js *)
(* ===================================================================== *)
Module Profile.
Import Js Db Store Tx.
Import Auth.
Local Open Scope tx_scope.

Definition set_balance (uid : Z) (newBalance : Z) (l : list User) : list User :=
  update_where (fun u => u_id u =? uid)
               (fun u => mkUser (u_id u) (first_name u) (last_name u) (email u)
                           (phone_number u) (password u) (profile_photo u)
                           (refresh_token u) (Some newBalance)) l.

(** [SELECT balance FROM users WHERE id = ? FOR UPDATE]. *)
Definition balance_rows (uid : Z) (t : tables) : list (option Z) :=
  map balance (filter (fun u => u_id u =? uid) (users t)).

(** The ledger row of a deposit of [amount] whose note spells the amount
    as [text]. *)
Definition deposit_row (uid : Z) (amount : Z) (text : string) (currentDate : date)
           (id : Z) : Row :=
  mkRow id "Balance Addition" amount currentDate "Income" (Some 0)
        (Some "Digital") (Some ("Added " ++ text ++ " to balance")%string) uid.

(** The ledger row [POST /profile/balance/add] writes for an amount up
    to [2^53]. *)
Definition income_row (uid : Z) (amount : Z) (currentDate : date) (id : Z) : Row :=
  deposit_row uid amount (show amount) currentDate id.

Definition is_income_of (transactionId uid : Z) (r : Row) : bool :=
  (i_id r =? transactionId) && (i_user_id r =? uid)
  && String.eqb (section r) "Income".

Definition is_row_of (transactionId uid : Z) (r : Row) : bool :=
  (i_id r =? transactionId) && (i_user_id r =? uid).

(** What the server answers to a statement in which a number was written
    as [Infinity] or [NaN]: it takes the bare word for a column. *)
Definition unknown_column (x : number) : error :=
  Error (Some "ER_BAD_FIELD_ERROR") "Error"
        ("Unknown column '"
         ++ match x with NaN => "NaN" | _ => "Infinity" end
         ++ "' in 'field list'")%string.

Section Routes.
Variable faults : nat -> option error.
(** Beyond [2^53] the driver writes a double into a statement, and the
    language into a template string, as the shortest decimal that reads
    back as the same double ([1152921504606847000] for [2^60], [1e+21]
    for [10^21]); what the column holds afterwards depends on its type.
    [as_text x] is that text and [as_stored x] that value, for a double
    [x] beyond [2^53]. *)
Variable as_text : Z -> string.
Variable as_stored : Z -> Z.

(** [`${x}`] for a finite double. *)
Definition text_of (x : Z) : string := if safe x then show x else as_text x.

(** What a numeric column holds once a statement that carries the finite
    double [x] has set it. *)
Definition stored_of (x : Z) : Z := if safe x then x else as_stored x.

(** A statement that carries the number [x] as a parameter: it runs when
    [x] is finite, and is refused otherwise. *)
Definition query_with (x : number) (statement : Z -> tables -> tables) : M unit :=
  match x with
  | Num n => query faults (fun t => (tt, statement n t))
  | _ => query faults (fun t => (tt, t)) ;;; throw (unknown_column x)
  end.

(** [DELETE /profile/income-transactions/delete/:id].  The [catch] rolls
    back when [connection] has been assigned, that is, once
    [getConnection] has resolved; the rollback is awaited, and when it is
    rejected the handler is left without an answer. *)
Definition delete_income_transaction (userId : option Z) (transactionId : Z)
  : M response :=
  match userId with
  | Some uid =>
      if negb (truthy_onum userId) then ret Expense.no_user
      else
        let failed (err : error) :=
          Response 500 (error_details "Failed to delete deposit entry." err) in
        connection <- try_catch (getConnection faults ;;; ret None)
                                (fun err => ret (Some err)) ;;
        match connection with
        | Some err => ret (failed err)
        | None =>
        try_catch
          (beginTransaction faults ;;;
           transactionRows <- select faults (fun t =>
             map value (filter (is_income_of transactionId uid) (infodata t))) ;;
           match transactionRows with
           | [] =>
               await_rollback faults ;;;
               ret (Response 404 (error_body "Transaction not found or unauthorized."))
           | v :: _ =>
               let amountToDeduct := to_number v in
               query faults (fun t =>
                 (tt, set_infodata
                        (fun l => fst (delete_where (is_row_of transactionId uid) l)) t)) ;;;
               userRows <- select faults (balance_rows uid) ;;
               match userRows with
               | b :: _ =>
                   let currentBalance := or_zero (parseFloat b) in
                   let newBalance := minus currentBalance amountToDeduct in
                   query_with newBalance (fun n =>
                     set_users (set_balance uid (stored_of n)))
               | [] => ret tt
               end ;;;
               commit faults ;;;
               ret (Response 200
                      (JObj [("message", JStr "Deposit entry deleted successfully.")]))
           end)
          (fun err => await_rollback faults ;;; ret (failed err))
        end
  | None => ret Expense.no_user
  end.

(** [POST /profile/balance/add]; [amount] is [req.body.amount], a number
    when the body has a number there. *)
Definition add_balance (currentDate : date) (userId : option Z) (amount : json)
  : M response :=
  match userId with
  | Some uid =>
      if negb (truthy_onum userId) then ret Expense.no_user
      else
        match amount with
        | JNum a =>
            let amount := to_number a in
            if leb_zero amount
            then ret (Response 400
                   (error_body "Invalid amount. Must be a positive number."))
            else
              let failed (err : error) :=
                Response 500 (error_details "Failed to add balance." err) in
              connection <- try_catch (getConnection faults ;;; ret None)
                                      (fun err => ret (Some err)) ;;
              match connection with
              | Some err => ret (failed err)
              | None =>
              try_catch
                (beginTransaction faults ;;;
                 userRows <- select faults (balance_rows uid) ;;
                 match userRows with
                 | [] =>
                     await_rollback faults ;;;
                     ret (Response 404 (error_body "User not found."))
                 | b :: _ =>
                     let currentBalance := or_zero (parseFloat b) in
                     let newBalance := plus currentBalance amount in
                     query_with newBalance (fun n =>
                       set_users (set_balance uid (stored_of n))) ;;;
                     match amount with
                     | Num n =>
                         insert_infodata faults
                           (deposit_row uid (stored_of n) (text_of n) currentDate) ;;;
                         ret tt
                     | _ => query_with amount (fun _ t => t)
                     end ;;;
                     commit faults ;;;
                     ret (Response 200 (JObj [("newBalance", jnum newBalance)]))
                 end)
                (fun err => await_rollback faults ;;; ret (failed err))
              end
        | _ => ret (Response 400
                 (error_body "Invalid amount. Must be a positive number."))
        end
  | None => ret Expense.no_user
  end.
End Routes.

(** [POST /profile/balance/add] called once per amount, one request after
    the other, each on an idle connection. *)
Fixpoint add_balances (as_text : Z -> string) (as_stored : Z -> Z)
         (currentDate : date) (userId : option Z)
         (amounts : list Z) (w : world) : list (option response) * world :=
  match amounts with
  | [] => ([], w)
  | a :: rest =>
      let m := add_balance no_faults as_text as_stored currentDate userId (JNum a) in
      let w0 := mkWorld (db w) None (auto_inc w) 0 in
      let (rs, w') := add_balances as_text as_stored currentDate userId rest
                                   (after m w0) in
      (answer m w0 :: rs, w')
  end.

End Profile.

(* ===================================================================== *)
(** ** Vocabulary of the properties, and sample inputs *)
(* ===================================================================== *)
Module Spec.
Import Js Db Store Tx Auth.

(** The delays [retryOperation] has awaited once the iterations [i] to
    [i + k - 1] of its loop have failed. *)
Definition delays (i : Z) (k : nat) : list Z :=
  map (fun j => 1000 * (i + Z.of_nat j + 1)) (seq 0 k).

(** The token a request presents: the second word of the header, when
    there is a header and the word is not empty. *)
Definition presented_token (authorization : option string) : option string :=
  match authorization with
  | Some h =>
      match nth_error (split space h) 1 with
      | Some t => if truthy_str t then Some t else None
      | None => None
      end
  | None => None
  end.

Definition rejection_message (e : error) : string :=
  if String.eqb (err_name e) "TokenExpiredError"
  then "Token expired" else "Invalid token".

(** The presented refresh token decodes to a user whose stored refresh
    token equals it. *)
Definition refresh_accepted (REFRESH_KEY : string)
           (jwt_verify : string -> string -> claims + error)
           (presented : option string) (us : list User) : Prop :=
  exists t decoded id u,
    presented = Some t /\ t <> "" /\
    jwt_verify t REFRESH_KEY = inl decoded /\
    userId decoded = Some id /\
    In u us /\ u_id u = id /\ refresh_token u = Some t.

(** The whole numbers a double holds as they are, up to [2^53] in
    size. *)
Definition exactly_held (z : Z) : Prop := - 2 ^ 53 <= z <= 2 ^ 53.

(** The balance on file for a user, a null balance counting as 0: what
    the row [SELECT balance FROM users WHERE id = ?] returns holds, if
    there is one. *)
Definition stored_balance (uid : Z) (t : tables) : option Z :=
  match Profile.balance_rows uid t with
  | b :: _ => Some (num_or_zero b)
  | [] => None
  end.

(** The ledger rows that a run of deposits writes, the first with
    identifier [id]. *)
Fixpoint income_rows (uid : Z) (currentDate : date) (id : Z) (amounts : list Z)
  : list Row :=
  match amounts with
  | [] => []
  | a :: rest =>
      Profile.income_row uid a currentDate id
      :: income_rows uid currentDate (id + 1) rest
  end.

Definition total (amounts : list Z) : Z := fold_right Z.add 0 amounts.


Definition is_expense (r : Row) : bool := negb (String.eqb (section r) "Income").


(** The sum a bucket stands for: the values of the rows of [uid] that
    are not in "Income", on one day or in one month of one year. *)
Definition day_total (uid : Z) (d : date) (rows : list Row) : Z :=
  sum_by value
    (filter (fun r => (i_user_id r =? uid) && is_expense r
                      && date_eqb (i_date r) d) rows).



(** Local midnight of the day [s], and the last moment of the local day
    [d], as the server prints them in UTC: the day before [s] when the
    server is east of Greenwich, the day after [d] when it is west of
    it. *)
Definition midnight_utc (ahead : date -> Z -> Z) (s : date) : date :=
  if 0 <? ahead s 0 then prev_day s else s.

Definition day_end_utc (ahead : date -> Z -> Z) (d : date) : date :=
  if ahead d 86399999 <? 0 then next_day d else d.





(** Months counted from year 0. *)
Definition month_index (d : date) : Z := year d * 12 + (month d - 1).

End Spec.

Module Samples.
Import Js Db Store Tx Auth.

(** An operation that meets the connection limit twice and then succeeds;
    the world counts the calls. *)
Definition flaky_operation (calls : nat) : outcome Z * nat :=
  if (calls <? 2)%nat
  then (Rejected (Error (Some "ER_USER_LIMIT_REACHED") "Error" "limit"), S calls)
  else (Resolved 7, S calls).

(** A verifier for which every token has expired. *)
Definition always_expired (token key : string) : claims + error :=
  inr (Error None "TokenExpiredError" "jwt expired").

(** One registered user, holding the refresh token ["r1"]. *)
Definition alice : User :=
  mkUser 1 "Alice" "A" "a@x.com" "555-1" "hash" None (Some "r1") (Some 100).

(** A verifier that reads every token as user 1. *)
Definition verify_as_1 (token key : string) : claims + error :=
  inl (Claims (Some 1) None).

Definition sign_plain (c : claims) (key expiresIn : string) (now : Z) : string :=
  "signed".

Definition day1 : date := Date 2024 3 15.

(** The clock of a server on UTC, of one in Kolkata (five and a half
    hours ahead of UTC all year) and of one five hours behind UTC; noon
    in milliseconds. *)
Definition utc : date -> Z -> Z := fun _ _ => 0.
Definition kolkata : date -> Z -> Z := fun _ _ => 330.
Definition five_behind : date -> Z -> Z := fun _ _ => -300.

(** New York in March 2024: five hours behind UTC until the clock is
    put forward at 2 a.m. on the 10th (7 a.m. UTC), four hours behind
    from then on; the first by the UTC moment, the second by the fields
    of local time, of which those of the hour left out are read with
    the earlier offset. *)
Definition new_york_at : date -> Z -> Z := fun d ms =>
  if moment_leb (Date 2024 3 10, 25200000) (d, ms) then -240 else -300.
Definition new_york : date -> Z -> Z := fun d ms =>
  if moment_leb (Date 2024 3 10, 10800000) (d, ms) then -240 else -300.
Definition noon : Z := 43200000.

(** User 7 owns the category "Gym" with five ledger rows; one more row
    of theirs is in "Food", and user 8 has a "Gym" row of their own. *)
Definition gym_row (id uid : Z) (sec : string) (v : Z) : Row :=
  mkRow id "entry" v day1 sec None (Some "Cash") None uid.

Definition gym_category : Category :=
  mkCategory 3 "Gym" (Some "dumbbell") (Some "red") (Some "fa") None (Some 7).

Definition gym_tables : tables :=
  mkTables [mkUser 7 "U" "U" "u@x.com" "555-7" "hash" None None (Some 50)]
           [gym_row 1 7 "Gym" 10; gym_row 2 7 "Gym" 20; gym_row 3 7 "Food" 5;
            gym_row 4 7 "Gym" 30; gym_row 5 8 "Gym" 99; gym_row 6 7 "Gym" 40;
            gym_row 7 7 "Gym" 50]
           [gym_category].

(** A concurrent request that empties [categories]. *)
Definition drop_all (cs : list Category) : list Category := [].

(** User 7 with balance 50 and one deposit of 30 (row 2) next to an
    expense (row 1). *)
Definition income_tables : tables :=
  mkTables [mkUser 7 "U" "U" "u@x.com" "555-7" "hash" None None (Some 50)]
           [gym_row 1 7 "Food" 12; gym_row 2 7 "Income" 30]
           [].



End Samples.

(* ===================================================================== *)
(** ** routes/expenseRoutes.js: the item routes *)
(* ===================================================================== *)
Module Items.
Import Js Db Store Tx Auth Expense.
Local Open Scope tx_scope.

(** A ledger row as [res.json] shows it, without the joined icon. *)
Definition row_json (i : Row) : json :=
  JObj [("id", JNum (i_id i)); ("title", JStr (title i));
        ("value", JNum (value i)); ("date", JDate (i_date i));
        ("section", JStr (section i)); ("target", jopt JNum (target i));
        ("payment_mode", jopt JStr (payment_mode i));
        ("notes", jopt JStr (notes i)); ("user_id", JNum (i_user_id i))].

(** [WHERE user_id = ?] with the identifier of the token, which matches
    nothing when the token carries none. *)
Definition of_user (userId : option Z) (r : Row) : bool :=
  match userId with Some uid => i_user_id r =? uid | None => false end.

(** [x || null] on an optional string. *)
Definition or_null (x : option string) : option string :=
  match x with
  | Some s => if truthy_str s then Some s else None
  | None => None
  end.

(** [retryOperation(operation)] with its default of three attempts, as a
    step of a handler; the delays awaited are not part of the state. *)
Definition retry {A : Type} (operation : M A) : M A :=
  fun w => let r := retryOperation operation 3 w in (Db.result r, Db.world r).

Section Routes.
Variable faults : nat -> option error.



(** [DELETE /items/:id]. *)
Definition delete_item (userId : option Z) (id : Z) : M response :=
  try_catch
    (pool_query faults (fun t =>
       (tt, set_infodata
              (fun l => fst (delete_where
                               (fun r => (i_id r =? id) && of_user userId r) l)) t)) ;;;
     ret (Response 200 (JObj [("message", JStr "Item deleted successfully")])))
    (fun err => ret (Response 500 (error_body "Failed to delete item."))).

(** [UPDATE infodata SET target = ? WHERE section = ? AND user_id = ?]. *)
Definition set_section_target (userId : option Z) (sec : string)
           (newTarget : option Z) (l : list Row) : list Row :=
  update_where (fun r => String.eqb (section r) sec && of_user userId r)
               (fun r => mkRow (i_id r) (title r) (value r) (i_date r) (section r)
                           newTarget (payment_mode r) (notes r) (i_user_id r)) l.

(** [UPDATE infodata SET title = ?, value = ?, date = ?, section = ?,
    payment_mode = ?, notes = ? WHERE id = ? AND user_id = ?]. *)
Definition set_item_fields (userId : option Z) (id : Z) (t : string) (v : Z)
           (d : date) (sec : string) (pm nt : option string) (l : list Row)
  : list Row :=
  update_where (fun r => (i_id r =? id) && of_user userId r)
               (fun r => mkRow (i_id r) t v d sec (target r) pm nt (i_user_id r)) l.

Definition range_error : error :=
  Error None "RangeError" "Invalid time value".

(** [PUT /items/:id].  [title] and [section] are taken as the strings
    the client sends.  [b_value] is [None] when [parseFloat(value)] is
    no number; [b_target] is [None] when the field is absent and
    [Some None] when it is present and no number; [b_date] is [None]
    when [new Date(date)] is no date, and then [toISOString] throws
    before the [try].  The variable [connection] is assigned when the
    first [retryOperation] resolves: if that one is rejected, the
    [catch] finds [connection] undefined and does not roll back;
    afterwards it awaits the rollback, and if the rollback is rejected
    the handler is left without an answer. *)
Definition update_item (userId : option Z) (id : Z) (b_title : string)
           (b_value : option Z) (b_date : option date) (b_section : string)
           (b_target : option (option Z)) (b_payment_mode b_notes : option string)
  : M response :=
  match b_value with
  | None => ret (Response 400 (error_body "Value must be a valid number."))
  | Some numericValue =>
      match match b_target with Some t => t | None => Some 0 end with
      | None => ret (Response 400 (error_body "Target must be a valid number."))
      | Some numericTarget =>
      match b_date with
      | None => throw range_error
      | Some formattedDate =>
          let failed (error : error) :=
            Response 500 (error_details "Failed to update items" error) in
          connection <- try_catch
            (retry (getConnection faults ;;; beginTransaction faults) ;;; ret None)
            (fun error => ret (Some error)) ;;
          match connection with
          | Some error => ret (failed error)
          | None =>
          try_catch
            (match b_target with
             | Some _ =>
                 retry (query faults (fun t =>
                   (tt, set_infodata
                          (set_section_target userId b_section (Some numericTarget)) t)))
             | None => ret tt
             end ;;;
             retry (query faults (fun t =>
               (tt, set_infodata
                      (set_item_fields userId id b_title numericValue formattedDate
                         b_section (or_null b_payment_mode) (or_null b_notes)) t))) ;;;
             commit faults ;;;
             updatedItems <- retry (pool_query faults (fun t =>
               (filter (fun r => String.eqb (section r) b_section && of_user userId r)
                       (infodata t), t))) ;;
             ret (Response 200
                    (JObj [("message", JStr "Items updated successfully");
                           ("updatedItem",
                            JObj [("id", JNum id); ("title", JStr b_title);
                                  ("value", JNum numericValue);
                                  ("date", JStr (iso_date formattedDate));
                                  ("section", JStr b_section);
                                  ("target", JNum numericTarget);
                                  ("payment_mode", jopt JStr (or_null b_payment_mode));
                                  ("notes", jopt JStr (or_null b_notes));
                                  ("user_id", jopt JNum userId)]);
                           ("sectionItems", JArr (map row_json updatedItems))])))
            (fun error => await_rollback faults ;;; ret (failed error))
          end
      end
      end
  end.




End Routes.

End Items.

(* ===================================================================== *)
(** ** routes/expenseRoutes.js: the category routes *)
(* ===================================================================== *)
Module Categories.
Import Js Db Store Tx Auth Expense Items.
Local Open Scope tx_scope.

Definition defaultCategories : list string :=
  ["Travel"; "Food"; "Petrol"; "Clothes"; "Rent"; "Groceries"].

(** [defaultCategories.includes(category)]. *)
Definition is_default (category : string) : bool :=
  existsb (String.eqb category) defaultCategories.

(** [WHERE label = ? AND (user_id = ? OR user_id IS NULL)]. *)
Definition labelled_own_or_shared (userId : option Z) (l : string) (c : Category)
  : bool :=
  String.eqb (label c) l
  && match c_user_id c with
     | None => true
     | Some u => match userId with Some uid => u =? uid | None => false end
     end.

(** [WHERE label = ? AND user_id = ?]. *)
Definition labelled_own (userId : option Z) (l : string) (c : Category) : bool :=
  String.eqb (label c) l
  && match c_user_id c, userId with
     | Some u, Some uid => u =? uid
     | _, _ => false
     end.

Definition set_category_target (newTarget : option Z) (c : Category) : Category :=
  mkCategory (c_id c) (label c) (iconName c) (iconColor c) (iconLibrary c)
             newTarget (c_user_id c).

(** [ORDER BY id DESC]. *)
Definition highest_id_first (a b : Row) : bool := i_id b <=? i_id a.

Section Routes.
Variable faults : nat -> option error.

(** [PUT /items/update-category-target].  [b_target] is [None] when the
    field is absent, [Some None] when it is [null], and a number
    otherwise; [affectedRows] counts the rows the [WHERE] clause
    matches. *)
Definition update_category_target (userId : option Z) (b_category : option string)
           (b_target : option (option Z)) : M response :=
  match b_category, b_target with
  | Some category, Some newTarget =>
      if negb (truthy_str category)
      then ret (Response 400 (error_body "Missing category or target."))
      else
        try_catch
          (if is_default category
           then
             affectedRows <- pool_query faults (fun t =>
               (Z.of_nat (List.length
                  (filter (fun r => String.eqb (section r) category && of_user userId r)
                          (infodata t))),
                set_infodata (set_section_target userId category newTarget) t)) ;;
             if affectedRows =? 0
             then ret (Response 404 (error_body "No expenses found for this category."))
             else ret (Response 200
                    (JObj [("message", JStr "Target updated successfully in infodata!")]))
           else
             affectedRows <- pool_query faults (fun t =>
               (Z.of_nat (List.length
                  (filter (labelled_own_or_shared userId category) (categories t))),
                set_categories
                  (update_where (labelled_own_or_shared userId category)
                                (set_category_target newTarget)) t)) ;;
             if affectedRows =? 0
             then ret (Response 404 (error_body "Category not found."))
             else ret (Response 200
                    (JObj [("message", JStr "Target updated successfully in categories!")])))
          (fun err => ret (Response 500 (error_body "Internal server error.")))
  | _, _ => ret (Response 400 (error_body "Missing category or target."))
  end.

(** [GET /items/category-target]. *)
Definition category_target (userId : option Z) (q_category : option string)
  : M response :=
  match q_category with
  | Some category =>
      if negb (truthy_str category)
      then ret (Response 400 (error_body "Category is required."))
      else
        try_catch
          (rows <- pool_query faults (fun t =>
             (if is_default category
              then firstn 1
                     (map target
                        (order_by highest_id_first
                           (filter (fun r => String.eqb (section r) category
                                             && of_user userId r) (infodata t))))
              else firstn 1
                     (map c_target
                        (filter (labelled_own userId category) (categories t))),
              t)) ;;
           let target := match rows with
                         | found :: _ => jopt JNum found
                         | [] => JNum 0
                         end in
           ret (Response 200 (JObj [("target", target)])))
          (fun err => ret (Response 500 (error_body "Internal server error.")))
  | None => ret (Response 400 (error_body "Category is required."))
  end.

(** [POST /items/add-category].  [insertId] is the identifier the table
    gives the new row. *)
Definition add_category (insertId : Z) (userId : option Z)
           (b_label b_iconName b_iconColor : option string) (b_target : option Z)
           (b_iconLibrary : option string) : M response :=
  match b_label, b_iconLibrary with
  | Some l, Some lib =>
      if negb (truthy_str l) || negb (truthy_str lib)
      then ret (Response 400 (error_body "Category label is required."))
      else
        try_catch
          (pool_query faults (fun t =>
             (tt, set_categories
                    (fun cs => cs ++ [mkCategory insertId l b_iconName b_iconColor
                                        (Some lib)
                                        (Some (num_or_zero b_target))
                                        userId]) t)) ;;;
           ret (Response 201
                  (JObj [("message", JStr "Category added successfully!");
                         ("categoryId", JNum insertId)])))
          (fun err => ret (Response 500 (error_body "Internal server error.")))
  | _, _ => ret (Response 400 (error_body "Category label is required."))
  end.

Definition custom_category_json (c : Category) : json :=
  JObj [("id", JNum (c_id c)); ("label", JStr (label c));
        ("iconName", jopt JStr (iconName c));
        ("iconColor", jopt JStr (iconColor c));
        ("target", jopt JNum (c_target c))].

(** [WHERE user_id = ? AND label NOT IN (defaultCategories)]. *)
Definition is_custom_of (userId : option Z) (c : Category) : bool :=
  match c_user_id c, userId with
  | Some u, Some uid => (u =? uid) && negb (is_default (label c))
  | _, _ => false
  end.

(** [GET /items/custom-categories]. *)
Definition custom_categories (userId : option Z) : M response :=
  try_catch
    (rows <- pool_query faults (fun t =>
       (filter (is_custom_of userId) (categories t), t)) ;;
     ret (Response 200 (JArr (map custom_category_json rows))))
    (fun err => ret (Response 500 (error_body "Internal server error."))).
End Routes.

End Categories.

(* ===================================================================== *)
(** ** routes/profileRoutes.js: reading the balance *)
(* ===================================================================== *)
Module Account.
Import Js Db Store Tx Auth Expense Profile.
Local Open Scope tx_scope.

(** [parseFloat(v).toFixed(2)] of an integer amount. *)
Definition toFixed2 (v : Z) : string := (show v ++ ".00")%string.

(** [ORDER BY date DESC, id DESC] on ledger rows. *)
Definition latest_first (x y : Row) : bool :=
  if date_eqb (i_date x) (i_date y) then i_id y <=? i_id x
  else date_leb (i_date y) (i_date x).

Definition is_income_row_of (uid : Z) (r : Row) : bool :=
  (i_user_id r =? uid) && String.eqb (section r) "Income".

Section Routes.
Variable faults : nat -> option error.
(** [new Date(d).toLocaleDateString('en-US', {...})]. *)
Variable toLocaleDateString : date -> string.

Definition income_json (r : Row) : json :=
  JObj [("id", JStr (show (i_id r))); ("name", JStr (title r));
        ("amount", JStr (toFixed2 (value r)));
        ("date", JStr (toLocaleDateString (i_date r)));
        ("section", JStr (section r));
        ("payment_mode", jopt JStr (payment_mode r));
        ("notes", jopt JStr (notes r)); ("type", JStr "income")].

(** [GET /profile/balance]. *)
Definition get_balance (userId : option Z) : M response :=
  match userId with
  | Some uid =>
      if negb (truthy_onum userId) then ret no_user
      else
        try_catch
          (getConnection faults ;;;
           userRows <- select faults (balance_rows uid) ;;
           match userRows with
           | [] => ret (Response 200 (JObj [("balance", JNum 0);
                                            ("lastIncomeTransaction", JNull)]))
           | b :: _ =>
               let balance := num_or_zero b in
               incomeRows <- select faults (fun t =>
                 firstn 1 (order_by latest_first
                             (filter (is_income_row_of uid) (infodata t)))) ;;
               let lastIncomeTransaction :=
                 match incomeRows with
                 | r :: _ => income_json r
                 | [] => JNull
                 end in
               ret (Response 200 (JObj [("balance", JNum balance);
                                        ("lastIncomeTransaction", lastIncomeTransaction)]))
           end)
          (fun err =>
             ret (Response 500 (error_details "Failed to fetch bank balance." err)))
  | None => ret no_user
  end.

End Routes.

End Account.

(* ===================================================================== *)
(** ** routes/authRoutes.js: signing up *)
(* ===================================================================== *)
Module Signup.
Import Js Db Store Tx Auth.
Local Open Scope tx_scope.

(** [BASE_URL] of [config.js]. *)
Definition BASE_URL : string := "https://spendwise-back-end.onrender.com".

Section Routes.
Variable faults : nat -> option error.
(** [bcrypt.hash(password, 10)] with the salt it draws. *)
Variable bcrypt_hash : string -> string -> string.

(** [POST /auth/signup], once the upload middleware has stored the
    photo: [file] is [req.file.filename], [insertId] the identifier the
    table gives the new row, [salt] what [bcrypt] draws.  Columns the
    [INSERT] leaves out are [NULL].  The removal of the uploaded file on
    the failure paths acts on the disk, which is not part of the state. *)
Definition signup (insertId : Z) (salt : string) (file : option string)
           (b_first_name b_last_name b_email b_phone_number b_password : option string)
  : M response :=
  try_catch
    (let profile_photo :=
       match file with
       | Some filename => Some (BASE_URL ++ "/uploads/" ++ filename)%string
       | None => None
       end in
     match b_first_name, b_last_name, b_email, b_password, b_phone_number with
     | Some fn, Some ln, Some em, Some pw, Some ph =>
         if negb (truthy_str fn) || negb (truthy_str ln) || negb (truthy_str em)
            || negb (truthy_str pw) || negb (truthy_str ph)
         then ret (Response 400 (error_body "Missing required fields"))
         else
           phoneResults <- pool_query faults (fun t =>
             (filter (fun u => String.eqb (phone_number u) ph) (users t), t)) ;;
           match phoneResults with
           | _ :: _ => ret (Response 400 (error_body "Phone number already registered"))
           | [] =>
               emailResults <- pool_query faults (fun t =>
                 (filter (fun u => String.eqb (email u) em) (users t), t)) ;;
               match emailResults with
               | _ :: _ => ret (Response 400 (error_body "Email already registered"))
               | [] =>
                   let hashedPassword := bcrypt_hash pw salt in
                   pool_query faults (fun t =>
                     (tt, set_users
                            (fun us => us ++ [mkUser insertId fn ln em ph hashedPassword
                                                profile_photo None None]) t)) ;;;
                   ret (Response 200
                          (JObj [("message", JStr "User registered successfully");
                                 ("user",
                                  JObj [("id", JNum insertId);
                                        ("first_name", JStr fn);
                                        ("last_name", JStr ln);
                                        ("email", JStr em);
                                        ("phone_number", JStr ph);
                                        ("profile_photo", jopt JStr profile_photo)])]))
               end
           end
     | _, _, _, _, _ => ret (Response 400 (error_body "Missing required fields"))
     end)
    (fun dbError =>
       ret (Response 500
              (JObj [("error", JStr "Database operation failed");
                     ("details", JStr "Please try again later")]))).
End Routes.

End Signup.

(* ===================================================================== *)
(** ** routes/expenseRoutes.js: the weekly summary *)
(* ===================================================================== *)
Module Weekly.
Import Js Db Store Tx Auth Expense.
Local Open Scope tx_scope.

(** [new Date(d.getFullYear(), d.getMonth(), d.getDate() - n)] for a
    calendar day [d] and [0 <= n]. *)
Definition minus_days (d : date) (n : Z) : date :=
  Nat.iter (Z.to_nat n) prev_day d.

(** [WHERE user_id = ? AND date BETWEEN ? AND ?] with
    [SUM(CASE WHEN section != 'Income' THEN value ELSE 0 END)], read
    through [parseFloat(...) || 0]. *)
Definition total_between (uid : Z) (startDate endDate : date) (l : list Row) : Z :=
  num_or_zero (sql_sum expense_value (daily_rows uid startDate endDate l)).

Section Routes.
Variable faults : nat -> option error.

(** The [for (let i = 0; i < weeks; i++)] loop; [remaining] counts the
    iterations left and [weeklySummaries] is the array built so far.
    [endDate] and [startDate] are local midnights, and the two bounds of
    the query are their days in UTC. *)
Fixpoint weekly_loop (ahead : date -> Z -> Z) (today : date) (uid weeks : Z)
         (remaining : nat) (i : Z)
         (weeklySummaries : list json) : M (list json) :=
  match remaining with
  | O => ret weeklySummaries
  | S remaining' =>
      let endDate := minus_days today (i * 7) in
      let startDate := minus_days endDate 6 in
      let formattedStartDate := toISOString_day ahead startDate 0 in
      let formattedEndDate := toISOString_day ahead endDate 0 in
      totalExpenses <- select faults (fun t =>
        total_between uid formattedStartDate formattedEndDate (infodata t)) ;;
      weekly_loop ahead today uid weeks remaining' (i + 1)
        (JObj [("week", JNum (weeks - i)); ("total_expenses", JNum totalExpenses)]
         :: weeklySummaries)
  end.

(** [GET /items/summary/weekly]; [today] is the local day of the
    server clock. *)
Definition summary_weekly (ahead : date -> Z -> Z) (today : date)
           (userId : option Z) (q_weeks : option string) : M response :=
  let weeks := or_default (parseInt q_weeks) 4 in
  match userId with
  | Some uid =>
      if negb (truthy_onum userId) then ret no_user
      else
        try_catch
          (getConnection faults ;;;
           weeklySummaries <- weekly_loop ahead today uid weeks (Z.to_nat weeks) 0 [] ;;
           ret (Response 200 (JArr weeklySummaries)))
          (fun err =>
             rollback ;;;
             ret (Response 500 (error_details "Failed to fetch weekly summary." err)))
  | None => ret no_user
  end.
End Routes.



Definition week_json (week total : Z) : json :=
  JObj [("week", JNum week); ("total_expenses", JNum total)].

End Weekly.

(* ===================================================================== *)
(** ** routes/profileRoutes.js: reading and editing the profile *)
(* ===================================================================== *)
Module UserProfile.
Import Js Db Store Tx Auth Expense.
Local Open Scope tx_scope.

(** [/^[^\s@]+@[^\s@]+\.[^\s@]+$/.test(email)], for ASCII text: one
    [@], no white space, something before the [@], and after it a dot
    with a character on either side. *)
Definition plain_char (c : ascii) : bool :=
  negb (is_ws c) && negb (Ascii.eqb c "@").

Fixpoint all_plain (s : string) : bool :=
  match s with
  | EmptyString => true
  | String c rest => plain_char c && all_plain rest
  end.

Fixpoint has_inner_dot (s : string) : bool :=
  match s with
  | String _ (String c rest as tl) =>
      (Ascii.eqb c "." && negb (String.eqb rest "")) || has_inner_dot tl
  | _ => false
  end.

(** The text before the first [@] and the text after it. *)
Fixpoint at_sign (s : string) : option (string * string) :=
  match s with
  | EmptyString => None
  | String c rest =>
      if Ascii.eqb c "@" then Some (EmptyString, rest)
      else match at_sign rest with
           | Some (a, b) => Some (String c a, b)
           | None => None
           end
  end.

Definition emailRegex_test (s : string) : bool :=
  match at_sign s with
  | Some (name, domain) =>
      negb (String.eqb name "") && all_plain name
      && all_plain domain && has_inner_dot domain
  | None => false
  end.

(** [WHERE id = ?] and [AND id != ?] on [users]; a comparison with the
    [NULL] of an absent identifier holds for no row. *)
Definition is_user (userId : option Z) (u : User) : bool :=
  match userId with Some uid => u_id u =? uid | None => false end.

Definition is_other (userId : option Z) (u : User) : bool :=
  match userId with Some uid => negb (u_id u =? uid) | None => false end.

(** [UPDATE users SET ... WHERE id = ?] with the fields that are not
    [undefined]. *)
Definition or_keep {A : Type} (x : option A) (old : A) : A :=
  match x with Some v => v | None => old end.

Definition set_profile (first last phone em : option string)
           (photo : option string) (u : User) : User :=
  mkUser (u_id u) (or_keep first (first_name u)) (or_keep last (last_name u))
         (or_keep em (email u)) (or_keep phone (phone_number u)) (password u)
         (match photo with Some p => Some p | None => profile_photo u end)
         (refresh_token u) (balance u).

Definition truthy_field (x : option string) : bool :=
  match x with Some s => truthy_str s | None => false end.

Section Routes.
Variable faults : nat -> option error.


(** [updateFields], the assignments of the [UPDATE]. *)
Definition assignment {A : Type} (x : option A) (column : string) : list string :=
  match x with Some _ => [(column ++ " = ?")%string] | None => [] end.

(** The tail of [PUT /profile], from the photo on. *)
Definition write_profile (userId : option Z) (file : option string)
           (b_first_name b_last_name b_phone_number b_email : option string)
  : M response :=
  let profile_photo_url :=
    match file with
    | Some filename => Some (Signup.BASE_URL ++ "/uploads/" ++ filename)%string
    | None => None
    end in
  match file with
  | Some _ =>
      select faults (fun t => map profile_photo (filter (is_user userId) (users t)))
      ;;; ret tt
  | None => ret tt
  end ;;;
  let updateFields :=
    assignment b_first_name "first_name" ++ assignment b_last_name "last_name"
    ++ assignment b_phone_number "phone_number" ++ assignment b_email "email"
    ++ assignment profile_photo_url "profile_photo" in
  if Nat.eqb (List.length updateFields) 0
  then
    rollback ;;;
    ret (Response 400 (error_body "No fields to update"))
  else
    affectedRows <- query faults (fun t =>
      (Z.of_nat (List.length (filter (is_user userId) (users t))),
       set_users (update_where (is_user userId)
                    (set_profile b_first_name b_last_name b_phone_number b_email
                                 profile_photo_url)) t)) ;;
    if affectedRows =? 0
    then
      rollback ;;;
      ret (Response 404 (error_body "User not found or no changes made."))
    else
      commit faults ;;;
      updatedUserRows <- select faults (fun t =>
        filter (is_user userId) (users t)) ;;
      ret (Response 200
             (JObj (("message", JStr "Profile updated successfully")
                    :: match updatedUserRows with
                       | u :: _ => [("user", safeUser u)]
                       | [] => []
                       end))).

(** The check of the phone number and what follows it. *)
Definition check_phone (userId : option Z) (file : option string)
           (b_first_name b_last_name b_phone_number b_email : option string)
  : M response :=
  match b_phone_number with
  | Some phone_number =>
      if truthy_str phone_number
      then
        phoneExists <- select faults (fun t =>
          filter (fun u => String.eqb (Store.phone_number u) phone_number
                           && is_other userId u) (users t)) ;;
        match phoneExists with
        | [] => write_profile userId file b_first_name b_last_name b_phone_number
                              b_email
        | _ => rollback ;;;
               ret (Response 400 (error_body "Phone number already in use"))
        end
      else write_profile userId file b_first_name b_last_name b_phone_number b_email
  | None => write_profile userId file b_first_name b_last_name b_phone_number b_email
  end.

(** [PUT /profile], once the upload middleware has stored the photo:
    [file] is [req.file.filename].  The removal of files acts on the
    disk, which is not part of the state. *)
Definition update_profile (userId : option Z) (file : option string)
           (b_first_name b_last_name b_phone_number b_email : option string)
  : M response :=
  try_catch
    (getConnection faults ;;;
     beginTransaction faults ;;;
     match b_email with
     | Some email =>
         if truthy_str email
         then
           if negb (emailRegex_test email)
           then rollback ;;; ret (Response 400 (error_body "Invalid email format"))
           else
             emailExists <- select faults (fun t =>
               filter (fun u => String.eqb (Store.email u) email
                                && is_other userId u) (users t)) ;;
             match emailExists with
             | [] => check_phone userId file b_first_name b_last_name b_phone_number
                                 b_email
             | _ => rollback ;;;
                    ret (Response 400 (error_body "Email already in use"))
             end
         else check_phone userId file b_first_name b_last_name b_phone_number b_email
     | None => check_phone userId file b_first_name b_last_name b_phone_number b_email
     end)
    (fun error =>
       rollback ;;;
       ret (Response 500 (error_details "Failed to update profile" error))).
End Routes.

End UserProfile.

(* ===================================================================== *)
(** ** More vocabulary and sample inputs *)
(* ===================================================================== *)
Module Vocabulary.
Import Js Db Store Tx Auth Expense Items Categories Account.

(** No two users share an email address or a phone number. *)
Definition unique_contacts (us : list User) : Prop :=
  NoDup (map email us) /\ NoDup (map phone_number us).

(** A user row without its refresh token. *)
Definition sans_refresh_token (u : User) : User :=
  mkUser (u_id u) (first_name u) (last_name u) (email u) (phone_number u)
         (password u) (profile_photo u) None (balance u).

(** A string without a space. *)
Fixpoint no_space (s : string) : bool :=
  match s with
  | EmptyString => true
  | String c rest => negb (Ascii.eqb c space) && no_space rest
  end.


(** A row as it is after a deposit or an edit of its target. *)
Definition with_target (t : option Z) (r : Row) : Row :=
  mkRow (i_id r) (title r) (value r) (i_date r) (section r) t
        (payment_mode r) (notes r) (i_user_id r).

(** A driver that fails once, on its [k]-th call. *)
Definition fault_at (k : nat) (e : error) : nat -> option error :=
  fun n => if Nat.eqb n k then Some e else None.

(** The driver throws [e] on every call from its [k]-th on. *)
Definition fault_from (k : nat) (e : error) : nat -> option error :=
  fun n => if Nat.leb k n then Some e else None.

Definition total_slept (l : list Z) : Z := fold_right Z.add 0 l.

(** A user row with a refresh token stored. *)
Definition with_refresh_token (rt : string) (u : User) : User :=
  mkUser (u_id u) (first_name u) (last_name u) (email u) (phone_number u)
         (password u) (profile_photo u) (Some rt) (balance u).


(** Two worlds that differ in the count of driver calls at most. *)
Definition same_state (w1 w2 : world) : Prop :=
  db w1 = db w2 /\ tx w1 = tx w2 /\ auto_inc w1 = auto_inc w2.

(** [op] either fails and leaves the state, or succeeds and does what
    [F] does. *)
Definition acts_as {A : Type} (op : M A) (F : world -> A * world) : Prop :=
  forall w,
    match op w with
    | (Resolved a, w') => a = fst (F w) /\ same_state w' (snd (F w))
    | (Rejected _, w') => same_state w' w
    | (RejectedUndefined, _) => False
    end.

(** [F] does not look at the count of driver calls. *)
Definition untimed {A : Type} (F : world -> A * world) : Prop :=
  forall w1 w2, same_state w1 w2 ->
    fst (F w1) = fst (F w2) /\ same_state (snd (F w1)) (snd (F w2)).



End Vocabulary.

Module Cases.
Import Js Db Store Tx Auth Expense Items Categories Account Weekly UserProfile
       Vocabulary.

(** A password hash that keeps the password, for trying the routes. *)
Definition plain_hash (pw salt : string) : string := pw.
Definition plain_compare (pw hash : string) : bool := String.eqb pw hash.

(** Tokens that spell out their payload. *)
Definition spell (c : claims) (key expiresIn : string) (now : Z) : string :=
  (key ++ ":" ++ match userId c with Some i => show i | None => "" end
       ++ ":" ++ show now)%string.

Definition too_many : error :=
  Error (Some "ER_USER_LIMIT_REACHED") "Error" "User has exceeded the limit".

Definition lost : error :=
  Error (Some "PROTOCOL_CONNECTION_LOST") "Error" "Connection lost".


(** The tables of [Samples.gym_tables] with a category "Yoga" that
    belongs to no user. *)
Definition yoga_shared : Category :=
  mkCategory 9 "Yoga" None None (Some "fa") (Some 0) None.

Definition shared_tables : tables :=
  mkTables (users Samples.gym_tables) (infodata Samples.gym_tables)
           [Samples.gym_category; yoga_shared].


(** Two users, the second one without an email address. *)
Definition bob : User := mkUser 2 "Bob" "B" "" "555-2" "hash" None None None.

Definition pair_tables : tables := mkTables [Samples.alice; bob] [] [].


(** U+00A0 and U+FEFF as they arrive, in UTF-8. *)
Definition nbsp : string :=
  String (ascii_of_nat 194) (String (ascii_of_nat 160) EmptyString).

Definition bom : string :=
  String (ascii_of_nat 239) (String (ascii_of_nat 187)
    (String (ascii_of_nat 191) EmptyString)).


(** User 7 with a balance of 1 and an empty ledger. *)
Definition one_left : tables :=
  mkTables [mkUser 7 "U" "U" "u@x.com" "555-7" "hash" None None (Some 1)] [] [].


(** User 7 with a balance of 10 and a deposit whose value, [2^53 + 1],
    is no double. *)
Definition big_deposit : tables :=
  mkTables [mkUser 7 "U" "U" "u@x.com" "555-7" "hash" None None (Some 10)]
           [Samples.gym_row 1 7 "Food" 12;
            Samples.gym_row 2 7 "Income" 9007199254740993]
           [].


(** Two expenses of user 7, on 10 and on 12 March 2024. *)
Definition spring_tables : tables :=
  mkTables [mkUser 7 "U" "U" "u@x.com" "555-7" "hash" None None (Some 50)]
           [mkRow 1 "a" 40 (Date 2024 3 10) "Food" None (Some "Cash") None 7;
            mkRow 2 "b" 60 (Date 2024 3 12) "Food" None (Some "Cash") None 7]
           [].

End Cases.

(* ===================================================================== *)
(** ** Stepping through a handler *)
(* ===================================================================== *)

Ltac tx_unfold :=
  unfold Tx.try_catch, Tx.bind, Tx.ret, Tx.throw, Tx.getConnection,
    Tx.beginTransaction, Tx.select, Tx.query, Tx.insert_infodata, Tx.commit,
    Tx.rollback, Tx.await_rollback, Tx.concurrently, Tx.pool_query, Tx.call,
    Tx.on_tables.

Ltac tx_simpl :=
  cbn [Tx.tick Tx.bump Tx.db Tx.tx Tx.auto_inc fst snd Store.delete_where
       option_map Store.set_infodata Store.set_users Store.set_categories
       Store.infodata Store.users Store.categories Js.status Js.body negb].

(** Case analysis on whether the next call to the driver throws. *)
Ltac tx_fault faults :=
  tx_simpl;
  match goal with
  | |- context [faults ?k] =>
      let F := fresh "F" in destruct (faults k) eqn:F; tx_simpl
  end.

(** A branch that ends in a response with another status. *)
Ltac other_status := cbn; intros [= <-]; discriminate.


(* ===================================================================== *)
(** * Properties *)
(* ===================================================================== *)

(** ** [retryOperation] *)
Section RetryFacts.
Import Db Spec.
Context {W A : Type}.
Variable operation : W -> outcome A * W.

Lemma delays_succ (i : Z) (k : nat) :
  delays i (S k) = 1000 * (i + 1) :: delays (i + 1) k.
Proof.
  unfold delays. cbn [seq map]. f_equal.
  - f_equal. lia.
  - rewrite <- seq_shift, map_map. apply map_ext. intros j. f_equal. lia.
Qed.

Lemma attempt_succ (j : nat) (w : W) :
  attempt operation (S j) w = attempt operation j (snd (operation w)).
Proof. reflexivity. Qed.

Lemma retry_loop_transient (r : nat) (i : Z) (last : option error) (w w' : W)
      (log : list Z) (e : error) :
  operation w = (Rejected e, w') ->
  is_user_limit e = true ->
  retry_loop operation (S r) i last w log
  = retry_loop operation r (i + 1) (Some e) w' (log ++ [1000 * (i + 1)]).
Proof. intros Hop Hlim. cbn [retry_loop]. now rewrite Hop, Hlim. Qed.

(** After [k] transient failures the loop is at iteration [i + k] with
    the [k] delays in its log; whatever attempt [k] does that is not a
    transient failure ends the loop there. *)
Lemma retry_loop_resolved (k r : nat) :
  forall (i : Z) (last : option error) (w : W) (log : list Z) (a : A),
    (forall j, (j < k)%nat -> transient (attempt operation j w)) ->
    attempt operation k w = Resolved a ->
    retry_loop operation (k + S r) i last w log
    = Run (Resolved a) (world_before operation (S k) w) (log ++ delays i k).
Proof.
  induction k as [|k IH]; intros i last w log a Htr Hk.
  - unfold attempt in Hk. simpl in *.
    destruct (operation w) as [o w']. simpl in Hk. subst o.
    now rewrite app_nil_r.
  - destruct (Htr 0%nat ltac:(lia)) as (e & He & Hlim).
    assert (Htr' : forall j, (j < k)%nat ->
              transient (attempt operation j (snd (operation w))))
      by (intros j Hj; apply (Htr (S j)); lia).
    pose proof (Hk : attempt operation k (snd (operation w)) = Resolved a) as Hk'.
    unfold attempt in He. simpl in He.
    change (S k + S r)%nat with (S (k + S r)). cbn [retry_loop].
    change (world_before operation (S (S k)) w)
      with (world_before operation (S k) (snd (operation w))).
    destruct (operation w) as [o w']. cbn [fst snd] in He, Htr', Hk' |- *.
    cbv beta iota.
    subst o. rewrite Hlim.
    rewrite (IH (i + 1) (Some e) w' (log ++ [1000 * (i + 1)]) a Htr' Hk').
    rewrite delays_succ, <- app_assoc. reflexivity.
Qed.

Lemma retry_loop_rejected (k r : nat) :
  forall (i : Z) (last : option error) (w : W) (log : list Z) (e : error),
    (forall j, (j < k)%nat -> transient (attempt operation j w)) ->
    attempt operation k w = Rejected e ->
    is_user_limit e = false ->
    retry_loop operation (k + S r) i last w log
    = Run (Rejected e) (world_before operation (S k) w) (log ++ delays i k).
Proof.
  induction k as [|k IH]; intros i last w log e Htr Hk Hnt.
  - unfold attempt in Hk. simpl in *.
    destruct (operation w) as [o w']. simpl in Hk. subst o.
    rewrite Hnt. now rewrite app_nil_r.
  - destruct (Htr 0%nat ltac:(lia)) as (e0 & He & Hlim).
    assert (Htr' : forall j, (j < k)%nat ->
              transient (attempt operation j (snd (operation w))))
      by (intros j Hj; apply (Htr (S j)); lia).
    pose proof (Hk : attempt operation k (snd (operation w)) = Rejected e) as Hk'.
    unfold attempt in He. simpl in He.
    change (S k + S r)%nat with (S (k + S r)). cbn [retry_loop].
    change (world_before operation (S (S k)) w)
      with (world_before operation (S k) (snd (operation w))).
    destruct (operation w) as [o w']. cbn [fst snd] in He, Htr', Hk' |- *.
    cbv beta iota.
    subst o. rewrite Hlim.
    rewrite (IH (i + 1) (Some e0) w' (log ++ [1000 * (i + 1)]) e Htr' Hk' Hnt).
    rewrite delays_succ, <- app_assoc. reflexivity.
Qed.

(** When every one of the [k] attempts fails transiently the loop runs
    dry and the error of the last attempt is thrown. *)
Lemma retry_loop_exhausted (k : nat) :
  forall (i : Z) (last : option error) (w : W) (log : list Z),
    (forall j, (j <= k)%nat -> transient (attempt operation j w)) ->
    retry_loop operation (S k) i last w log
    = Run (attempt operation k w) (world_before operation (S k) w)
          (log ++ delays i (S k)).
Proof.
  induction k as [|k IH]; intros i last w log Htr.
  - destruct (Htr 0%nat ltac:(lia)) as (e & He & Hlim).
    unfold attempt in *. cbn [retry_loop world_before] in *.
    destruct (operation w) as [o w']. cbn [fst snd] in He |- *.
    cbv beta iota. subst o. rewrite Hlim.
    rewrite delays_succ. reflexivity.
  - destruct (Htr 0%nat ltac:(lia)) as (e & He & Hlim).
    assert (Htr' : forall j, (j <= k)%nat ->
              transient (attempt operation j (snd (operation w))))
      by (intros j Hj; apply (Htr (S j)); lia).
    unfold attempt in He. simpl in He.
    change (world_before operation (S (S k)) w)
      with (world_before operation (S k) (snd (operation w))).
    rewrite attempt_succ.
    destruct (operation w) as [o w'] eqn:Hop. cbn [fst snd] in He, Htr' |- *.
    subst o.
    rewrite (retry_loop_transient (S k) i last w w' log e Hop Hlim).
    rewrite (IH (i + 1) (Some e) w' (log ++ [1000 * (i + 1)]) Htr').
    rewrite (delays_succ i (S k)), <- app_assoc. reflexivity.
Qed.

Lemma delays_linear (k : nat) : delays 0 k = linear_backoff k.
Proof. unfold delays, linear_backoff. apply map_ext. intros. f_equal. Qed.

(** C4.  [retryOperation] with [maxRetries] attempts (3 by default):
    as long as the attempts fail with code [ER_USER_LIMIT_REACHED] it
    waits 1000 ms times the number of the failed attempt (1000, 2000,
    ...: linear) and tries again; a success is returned and a failure
    with any other code is rethrown at once, with no further attempt
    and no further wait; when all attempts fail with the transient
    code, the error of the last attempt is rethrown. *)
Theorem retryOperation_linear_backoff (n : nat) (w : W) :
  (forall k a,
      (k < n)%nat ->
      (forall j, (j < k)%nat -> transient (attempt operation j w)) ->
      attempt operation k w = Resolved a ->
      retryOperation operation (Z.of_nat n) w
      = Run (Resolved a) (world_before operation (S k) w) (linear_backoff k))
  /\ (forall k e,
      (k < n)%nat ->
      (forall j, (j < k)%nat -> transient (attempt operation j w)) ->
      attempt operation k w = Rejected e ->
      is_user_limit e = false ->
      retryOperation operation (Z.of_nat n) w
      = Run (Rejected e) (world_before operation (S k) w) (linear_backoff k))
  /\ ((0 < n)%nat ->
      (forall j, (j < n)%nat -> transient (attempt operation j w)) ->
      retryOperation operation (Z.of_nat n) w
      = Run (attempt operation (n - 1) w) (world_before operation n w)
            (linear_backoff n)).
Proof.
  unfold retryOperation. rewrite Nat2Z.id. repeat split.
  - intros k a Hk Htr Ha.
    replace n with (k + S (n - S k))%nat at 1 by lia.
    rewrite (retry_loop_resolved k _ 0 None w [] a Htr Ha).
    now rewrite delays_linear.
  - intros k e Hk Htr He Hnt.
    replace n with (k + S (n - S k))%nat at 1 by lia.
    rewrite (retry_loop_rejected k _ 0 None w [] e Htr He Hnt).
    now rewrite delays_linear.
  - intros Hn Htr. destruct n as [|m]; [lia|].
    rewrite (retry_loop_exhausted m 0 None w []).
    + rewrite delays_linear. simpl. now rewrite Nat.sub_0_r.
    + intros j Hj. apply Htr. lia.
Qed.
End RetryFacts.


Lemma retryOperation_linear_backoff_witness :
  Db.retryOperation Samples.flaky_operation 3 0%nat = Db.Run (Db.Resolved 7) 3%nat [1000; 2000].
Proof.
  apply (proj1 (retryOperation_linear_backoff Samples.flaky_operation 3 0%nat) 2%nat 7).
  - lia.
  - intros j Hj. destruct j as [|[|j]]; [| |lia];
      (eexists; split; [reflexivity|reflexivity]).
  - reflexivity.
Defined.


(** ** The token check *)
Section AuthFacts.
Import Js Db Store Tx Auth Spec.
Variables SECRET_KEY REFRESH_KEY : string.
Variable jwt_verify : string -> string -> claims + error.
Variable jwt_sign : claims -> string -> string -> Z -> string.


(** C7.  On a protected route a request with no [Authorization] header,
    or with a header that carries no token, is answered 401; a request
    whose token fails verification is answered 403, and expiry differs
    from any other invalidity in the error message only; a request whose
    token verifies is passed on with the decoded payload.  So 401 is
    answered exactly when no token is presented, and 403 only when one
    is. *)
Theorem verifyToken_401_absent_403_invalid (authorization : option string) :
  (presented_token authorization = None ->
   exists msg, verifyToken SECRET_KEY jwt_verify authorization
               = Answered (Response 401 (error_body msg)))
  /\ (forall t e,
         presented_token authorization = Some t ->
         jwt_verify t SECRET_KEY = inr e ->
         verifyToken SECRET_KEY jwt_verify authorization
         = Answered (Response 403 (error_details (rejection_message e) e)))
  /\ (forall t decoded,
         presented_token authorization = Some t ->
         jwt_verify t SECRET_KEY = inl decoded ->
         verifyToken SECRET_KEY jwt_verify authorization = Next decoded)
  /\ (forall r,
         verifyToken SECRET_KEY jwt_verify authorization = Answered r ->
         (status r = 401 <-> presented_token authorization = None)
         /\ (status r = 403 <-> presented_token authorization <> None)).
Proof.
  assert (H401 : presented_token authorization = None ->
                 exists msg, verifyToken SECRET_KEY jwt_verify authorization
                             = Answered (Response 401 (error_body msg))).
  { unfold presented_token, verifyToken.
    destruct authorization as [h|]; [|intros _; eexists; reflexivity].
    destruct h as [|c h']; [intros _; eexists; reflexivity|].
    set (hd := String c h'). cbn [truthy_str negb].
    destruct (nth_error (split space hd) 1) as [t|];
      [|intros _; eexists; reflexivity].
    destruct (truthy_str t); [discriminate|].
    intros _; eexists; reflexivity. }
  assert (Hsome : forall t, presented_token authorization = Some t ->
                  verifyToken SECRET_KEY jwt_verify authorization
                  = match jwt_verify t SECRET_KEY with
                    | inl decoded => Next decoded
                    | inr e => Answered
                                 (Response 403 (error_details (rejection_message e) e))
                    end).
  { unfold presented_token, verifyToken, rejection_message.
    destruct authorization as [h|]; [|discriminate].
    destruct h as [|c h']; [discriminate|].
    set (hd := String c h'). cbn [truthy_str negb].
    destruct (nth_error (split space hd) 1) as [t|]; [|discriminate].
    destruct (truthy_str t); [|discriminate].
    intros t' [= <-]. cbn [negb].
    destruct (jwt_verify t SECRET_KEY) as [d|e]; [reflexivity|].
    destruct (String.eqb (err_name e) "TokenExpiredError"); reflexivity. }
  split; [exact H401|]. split; [|split].
  - intros t e Hp Hv. rewrite (Hsome t Hp), Hv. reflexivity.
  - intros t d Hp Hv. rewrite (Hsome t Hp), Hv. reflexivity.
  - intros r. destruct (presented_token authorization) as [t|] eqn:Hp.
    + rewrite (Hsome t eq_refl).
      destruct (jwt_verify t SECRET_KEY) as [d|e]; [discriminate|].
      intros [= <-]. simpl. repeat split; try discriminate; congruence.
    + destruct (H401 eq_refl) as [msg ->]. intros [= <-]. simpl.
      repeat split; try discriminate; congruence.
Qed.
End AuthFacts.


Lemma verifyToken_401_absent_403_invalid_witness :
  Auth.verifyToken "k" Samples.always_expired (Some "Bearer abc")
  = Auth.Answered
      (Js.Response 403
         (Js.JObj [("error", Js.JStr "Token expired");
                   ("details", Js.JStr "jwt expired")])).
Proof.
  apply (proj1 (proj2 (verifyToken_401_absent_403_invalid
                         "k" Samples.always_expired (Some "Bearer abc")))
               "abc" (Db.Error None "TokenExpiredError" "jwt expired")).
  - reflexivity.
  - reflexivity.
Defined.


(** ** [POST /auth/refresh-token] and [POST /auth/login] *)
Section RefreshFacts.
Import Js Db Store Tx Auth Spec.
Variables SECRET_KEY REFRESH_KEY : string.
Variable jwt_verify : string -> string -> claims + error.
Variable jwt_sign : claims -> string -> string -> Z -> string.
Variable bcrypt_compare : string -> string -> bool.
Variable faults : nat -> option error.

Lemma truthy_str_nonempty (s : string) : truthy_str s = true <-> s <> "".
Proof. destruct s; simpl; split; congruence. Qed.

Lemma filter_nil_iff {R : Type} (p : R -> bool) (l : list R) :
  filter p l = [] <-> forall x, In x l -> p x = false.
Proof.
  induction l as [|a l IH]; simpl.
  - split; auto. intros _ x [].
  - destruct (p a) eqn:Ha; split.
    + discriminate.
    + intros H. specialize (H a (or_introl eq_refl)). congruence.
    + intros H x [<-|Hx]; auto. now apply IH.
    + intros H. apply IH. auto.
Qed.

(** C8.  [POST /auth/refresh-token] never writes to the database: the
    stored refresh token of every user is what it was.  It always
    answers, and in one of two ways.  Either the presented token decodes
    to a user whose stored refresh token equals it, and the answer is 200
    with the body [{ token }], where [token] is the access token newly
    signed with [SECRET_KEY] for that user's id and email, for 365 days;
    or the answer is 401 with one of the three error bodies, none of
    which carries a token.  When the lookup itself does not fail, the
    answer is the first of the two exactly when the presented token
    decodes to a user whose stored refresh token equals it. *)
Theorem refresh_token_issued_iff_stored_match
        (presented : option string) (now : Z) (w : world) :
  db (after (refresh_token_route SECRET_KEY REFRESH_KEY jwt_verify jwt_sign
                                 faults presented now) w) = db w
  /\ tx (after (refresh_token_route SECRET_KEY REFRESH_KEY jwt_verify jwt_sign
                                 faults presented now) w) = tx w
  /\ exists r,
      answer (refresh_token_route SECRET_KEY REFRESH_KEY jwt_verify jwt_sign
                                 faults presented now) w = Some r
      /\ ((exists t decoded id u,
              presented = Some t /\ t <> "" /\
              jwt_verify t REFRESH_KEY = inl decoded /\
              userId decoded = Some id /\
              In u (users (db w)) /\ u_id u = id /\ refresh_token u = Some t /\
              r = Response 200
                    (JObj [("token",
                            JStr (jwt_sign (Claims (Some (u_id u)) (Some (email u)))
                                           SECRET_KEY "365d" now))]))
          \/ (status r = 401 /\
              (body r = error_body "Refresh token required"
               \/ body r = error_body "Invalid refresh token"
               \/ exists e, body r = error_details "Invalid refresh token" e)))
      /\ (faults (tick w) = None ->
          (status r = 200 <->
           refresh_accepted REFRESH_KEY jwt_verify presented (users (db w)))).
Proof.
  unfold refresh_token_route, refresh_accepted, answer, after.
  destruct presented as [t|].
  2:{ cbn. do 2 (split; [reflexivity|]). eexists. split; [reflexivity|]. split.
      - right. split; [reflexivity|]. now left.
      - intros _. split; [discriminate|].
        intros (t & d & i & u & Hpres & _). discriminate. }
  destruct (truthy_str t) eqn:Ht; cbn [negb].
  2:{ cbn. do 2 (split; [reflexivity|]). eexists. split; [reflexivity|]. split.
      - right. split; [reflexivity|]. now left.
      - intros _. split; [discriminate|].
        intros (t' & d & i & u & Hpres & Hne & _). injection Hpres as <-.
        apply truthy_str_nonempty in Hne. congruence. }
  unfold try_catch, bind, ret, throw, pool_query, call.
  destruct (jwt_verify t REFRESH_KEY) as [decoded|e] eqn:Hv.
  2:{ cbn. do 2 (split; [reflexivity|]). eexists. split; [reflexivity|]. split.
      - right. split; [reflexivity|]. right. right. now exists e.
      - intros _. split; [discriminate|].
        intros (t' & d & i & u & Hpres & _ & Hv' & _). injection Hpres as <-.
        congruence. }
  destruct (faults (tick w)) as [e|] eqn:Hf.
  { cbn. do 2 (split; [reflexivity|]). eexists. split; [reflexivity|]. split.
    - right. split; [reflexivity|]. right. right. now exists e.
    - discriminate. }
  cbn [fst snd].
  match goal with |- context [filter ?p (users (db w))] =>
    set (p0 := p); destruct (filter p0 (users (db w))) as [|u l] eqn:Hfl end.
  - cbn. do 2 (split; [reflexivity|]). eexists. split; [reflexivity|]. split.
    + right. split; [reflexivity|]. right. now left.
    + intros _. split; [discriminate|].
      intros (t' & d & i & u & Hpres & _ & Hv' & Hid & Hin & Hu & Hr).
      injection Hpres as <-. rewrite Hv in Hv'. injection Hv' as <-.
      apply filter_nil_iff with (x := u) in Hfl; auto.
      unfold p0 in Hfl. rewrite Hid, Hr, Hu, Z.eqb_refl, String.eqb_refl in Hfl.
      discriminate.
  - assert (Hacc : In u (users (db w)) /\ exists id,
               userId decoded = Some id /\ u_id u = id /\ refresh_token u = Some t).
    { assert (Hin : In u (filter p0 (users (db w)))) by (rewrite Hfl; now left).
      apply filter_In in Hin. destruct Hin as [Hin Hp]. unfold p0 in Hp.
      destruct (userId decoded) as [id|] eqn:Hid; [|discriminate].
      destruct (refresh_token u) as [stored|] eqn:Hst; [|discriminate].
      apply andb_prop in Hp. destruct Hp as [Hi Hs].
      apply Z.eqb_eq in Hi. apply String.eqb_eq in Hs. subst stored.
      split; [exact Hin|]. now exists id. }
    destruct Hacc as (Hin & id & Hid & Hu & Hst).
    apply truthy_str_nonempty in Ht.
    cbn. do 2 (split; [reflexivity|]). eexists. split; [reflexivity|]. split.
    + left. exists t, decoded, id, u. repeat split; auto.
    + intros _. split; [intros _|reflexivity].
      exists t, decoded, id, u. repeat split; auto.
Qed.

(** A successful login is what overwrites the stored refresh token: it is
    set to the refresh token just signed, for the user who logged in. *)
Lemma login_overwrites_refresh_token (em pw : string) (now : Z) (w : world) (r : response) :
  answer (login SECRET_KEY REFRESH_KEY jwt_sign bcrypt_compare faults
                (Some em) (Some pw) now) w = Some r ->
  status r = 200 ->
  exists user,
    In user (users (db w)) /\ email user = em
    /\ users (db (after (login SECRET_KEY REFRESH_KEY jwt_sign bcrypt_compare faults
                              (Some em) (Some pw) now) w))
       = update_where (fun u => u_id u =? u_id user)
           (fun u => mkUser (u_id u) (first_name u) (last_name u) (email u)
                       (phone_number u) (password u) (profile_photo u)
                       (Some (jwt_sign (Claims (Some (u_id user)) None)
                                       REFRESH_KEY "730d" now))
                       (balance u))
           (users (db w)).
Proof.
  unfold login, answer, after.
  destruct (negb (truthy_str em) || negb (truthy_str pw)).
  { cbn. intros [= <-]. discriminate. }
  unfold try_catch, bind, ret, pool_query, call.
  destruct (faults (tick w)) eqn:Hf.
  { cbn. intros [= <-]. discriminate. }
  cbn [fst snd].
  match goal with |- context [filter ?p (users (db w))] =>
    set (p0 := p); destruct (filter p0 (users (db w))) as [|u l] eqn:Hfl end.
  { cbn. intros [= <-]. discriminate. }
  destruct (negb (bcrypt_compare (trim pw) (password u))).
  { cbn. intros [= <-]. discriminate. }
  cbn [bump tick].
  destruct (faults (S (tick w))) eqn:Hf2.
  { cbn. intros [= <-]. discriminate. }
  cbn. intros _ _.
  assert (Hin : In u (filter p0 (users (db w)))) by (rewrite Hfl; now left).
  apply filter_In in Hin. destruct Hin as [Hin Hp]. unfold p0 in Hp.
  apply String.eqb_eq in Hp.
  exists u. repeat split; auto.
Qed.
End RefreshFacts.

Lemma refresh_token_issued_iff_stored_match_witness :
  Js.status
    (match Tx.answer
             (Auth.refresh_token_route "s" "r" Samples.verify_as_1 Samples.sign_plain
                Tx.no_faults (Some "r1") 0)
             (Tx.idle (Store.mkTables [Samples.alice] [] []) 1) with
     | Some r => r
     | None => Js.Response 0 Js.JNull
     end) = 200.
Proof.
  destruct (refresh_token_issued_iff_stored_match
              "s" "r" Samples.verify_as_1 Samples.sign_plain Tx.no_faults
              (Some "r1") 0 (Tx.idle (Store.mkTables [Samples.alice] [] []) 1))
    as (_ & _ & r & Hr & _ & Hiff).
  rewrite Hr. apply (Hiff eq_refl).
  exists "r1", (Auth.Claims (Some 1) None), 1, Samples.alice.
  repeat split; try reflexivity; try discriminate. now left.
Defined.

Example refresh_token_sample_body :
  Tx.answer
    (Auth.refresh_token_route "s" "r" Samples.verify_as_1 Samples.sign_plain
       Tx.no_faults (Some "r1") 0)
    (Tx.idle (Store.mkTables [Samples.alice] [] []) 1)
  = Some (Js.Response 200
            (Js.JObj [("token",
                       Js.JStr (Samples.sign_plain
                                  (Auth.Claims (Some 1) (Some "a@x.com"))
                                  "s" "365d" 0))])).
Proof. reflexivity. Qed.

Lemma filter_negb_In {R : Type} (p : R -> bool) (l : list R) (x : R) :
  In x (filter (fun r => negb (p r)) l) -> p x = false.
Proof.
  intros H. apply filter_In in H. destruct H as [_ H]. now apply negb_true_iff.
Qed.

Lemma filter_cons_In {R : Type} (p : R -> bool) (l : list R) (x : R) (xs : list R) :
  filter p l = x :: xs -> In x l /\ p x = true.
Proof.
  intros H. apply filter_In. rewrite H. now left.
Qed.

(** ** [DELETE /items/custom-categories/:id] *)
Section DeleteCategoryFacts.
Import Js Db Store Tx Auth Expense Spec.
Variable faults : nat -> option error.
Variable other : list Category -> list Category.

(** C1.  Let [c] be the category that user [uid] owns under identifier
    [cid].  Whenever the deletion answers 200, the ledger afterwards is
    the old ledger without the rows of [uid] in section [label c], so no
    row of [uid] has that section, and [deletedTransactionsCount] is the
    number of rows of [uid] that were in that section.  When no call to
    the driver fails and the category is still there at the time of its
    deletion, the deletion does answer 200. *)
Theorem delete_category_cascade (uid cid : Z) (w : world) (c : Category)
        (cs : list Category) :
  uid <> 0 ->
  filter (owns cid uid) (categories (db w)) = c :: cs ->
  (forall r,
      answer (delete_custom_category faults other (Some uid) cid) w = Some r ->
      status r = 200 ->
      infodata (db (after (delete_custom_category faults other (Some uid) cid) w))
      = filter (fun row => negb (in_section uid (label c) row)) (infodata (db w))
      /\ (forall row,
             In row (infodata (db (after (delete_custom_category faults other
                                            (Some uid) cid) w))) ->
             ~ (i_user_id row = uid /\ section row = label c))
      /\ exists msg,
          body r = JObj [("message", JStr msg);
                         ("deletedTransactionsCount",
                          JNum (Z.of_nat (List.length
                                  (filter (in_section uid (label c))
                                          (infodata (db w))))))])
  /\ ((forall k, faults k = None) ->
      filter (owns cid uid) (other (categories (db w))) <> [] ->
      exists r,
        answer (delete_custom_category faults other (Some uid) cid) w = Some r
        /\ status r = 200).
Proof.
  intros Huid HL. apply Z.eqb_neq in Huid.
  unfold delete_custom_category, answer, after. cbn [truthy_onum].
  rewrite Huid. cbn [negb]. tx_unfold. split.
  - intros r.
    do 3 (tx_fault faults; [other_status|]).
    rewrite HL. cbn [map].
    do 2 (tx_fault faults; [other_status|]).
    match goal with |- context [if ?b then _ else _] => destruct b end;
      [other_status|].
    tx_fault faults; [other_status|].
    cbn [fst snd]. intros [= <-] _. tx_simpl.
    repeat split.
    + intros row Hrow [Hu' Hs]. apply filter_negb_In in Hrow.
      unfold in_section in Hrow.
      rewrite Hu', Hs, Z.eqb_refl, String.eqb_refl in Hrow. discriminate.
    + eexists. reflexivity.
  - intros Hnf Hstill. tx_simpl. rewrite !Hnf. tx_simpl.
    rewrite HL. cbn [map]. rewrite !Hnf. tx_simpl. rewrite !Hnf. tx_simpl.
    destruct (filter (owns cid uid) (other (categories (db w)))) as [|c' cs'];
      [contradiction|].
    cbn [List.length]. rewrite Nat2Z.inj_succ.
    destruct (Z.succ (Z.of_nat (List.length cs')) =? 0) eqn:Hz;
      [apply Z.eqb_eq in Hz; lia|].
    rewrite !Hnf. tx_simpl. eexists. split; reflexivity.
Qed.

(** After such a deletion a listing of the deleted section is empty
    (for a label that the listing does not read as the absent filter). *)
Lemma listing_of_deleted_section_is_empty (uid : Z) (l : string) (w : world) :
  uid <> 0 -> l <> "" -> l <> "All" ->
  (forall row, In row (infodata (db w)) ->
               ~ (i_user_id row = uid /\ section row = l)) ->
  answer (get_items no_faults (Some uid) None None (Some l) None None) w
  = Some (Response 200 (JArr [])).
Proof.
  intros Huid Hne Hall Hnone. apply Z.eqb_neq in Huid.
  assert (Hf : filter (matches uid (Some l) None None) (infodata (db w)) = []).
  { apply filter_nil_iff. intros row Hin. unfold matches, category_filter.
    destruct (i_user_id row =? uid) eqn:Hu; [|reflexivity].
    apply truthy_str_nonempty in Hne. rewrite Hne.
    apply String.eqb_neq in Hall. rewrite Hall. cbn.
    destruct (String.eqb (section row) l) eqn:Hs; [|reflexivity].
    exfalso. apply (Hnone row Hin). split.
    - now apply Z.eqb_eq. - now apply String.eqb_eq. }
  unfold get_items, answer. cbn [truthy_onum]. rewrite Huid. cbn [negb].
  tx_unfold. unfold no_faults. tx_simpl. rewrite Hf. reflexivity.
Qed.

(** C2.  When the lookup finds no category with this identifier for
    this user, the answer is 404 and the database is what it was.  When
    the lookup finds one but the category is gone by the time its row is
    deleted, the answer is 404 and the ledger and the users are what
    they were: the deletion of the ledger rows is rolled back.  And
    whatever call to the driver fails, an answer other than 200 leaves
    the ledger and the users untouched. *)
Theorem delete_category_failure_rolls_back (uid cid : Z) (w : world) :
  uid <> 0 ->
  (filter (owns cid uid) (categories (db w)) = [] ->
   answer (delete_custom_category no_faults other (Some uid) cid) w
   = Some (Response 404 (error_body
        "Custom category not found or not authorized for this user."))
   /\ db (after (delete_custom_category no_faults other (Some uid) cid) w) = db w)
  /\ (filter (owns cid uid) (categories (db w)) <> [] ->
      filter (owns cid uid) (other (categories (db w))) = [] ->
      answer (delete_custom_category no_faults other (Some uid) cid) w
      = Some (Response 404 (error_body
           "Custom category not found or could not be deleted from categories table."))
      /\ infodata (db (after (delete_custom_category no_faults other (Some uid) cid) w))
         = infodata (db w)
      /\ users (db (after (delete_custom_category no_faults other (Some uid) cid) w))
         = users (db w))
  /\ (forall r,
         answer (delete_custom_category faults other (Some uid) cid) w = Some r ->
         status r <> 200 ->
         infodata (db (after (delete_custom_category faults other (Some uid) cid) w))
         = infodata (db w)
         /\ users (db (after (delete_custom_category faults other (Some uid) cid) w))
            = users (db w)
         /\ tx (after (delete_custom_category faults other (Some uid) cid) w) = None).
Proof.
  intros Huid. apply Z.eqb_neq in Huid.
  unfold delete_custom_category, answer, after. cbn [truthy_onum].
  rewrite Huid. cbn [negb]. tx_unfold. unfold no_faults. repeat apply conj.
  - intros Hnone. tx_simpl. rewrite Hnone. cbn. destruct w as [d t a k].
    destruct d; split; reflexivity.
  - intros Hsome Hgone. tx_simpl.
    destruct (filter (owns cid uid) (categories (db w))) as [|c cs];
      [contradiction|].
    cbn [map]. tx_simpl. rewrite Hgone. cbn. repeat split.
  - intros r.
    tx_fault faults; [cbn; intros [= <-] _; repeat split|].
    tx_fault faults; [cbn; intros [= <-] _; repeat split|].
    tx_fault faults; [cbn; intros [= <-] _; repeat split|].
    destruct (filter (owns cid uid) (categories (db w))) as [|c cs]; cbn [map].
    { cbn. intros [= <-] _. repeat split. }
    tx_fault faults; [cbn; intros [= <-] _; repeat split|].
    tx_fault faults; [cbn; intros [= <-] _; repeat split|].
    match goal with |- context [if ?b then _ else _] => destruct b end.
    { cbn. intros [= <-] _. repeat split. }
    tx_fault faults; [cbn; intros [= <-] _; repeat split|].
    cbn. intros [= <-] H. now contradiction H.
Qed.
End DeleteCategoryFacts.

Lemma delete_category_cascade_witness :
  exists r,
    Tx.answer (Expense.delete_custom_category Tx.no_faults (fun cs => cs) (Some 7) 3)
              (Tx.idle Samples.gym_tables 8) = Some r
    /\ Js.status r = 200
    /\ exists msg,
        Js.body r = Js.JObj [("message", Js.JStr msg);
                             ("deletedTransactionsCount", Js.JNum 5)].
Proof.
  destruct (delete_category_cascade Tx.no_faults (fun cs => cs) 7 3
              (Tx.idle Samples.gym_tables 8) Samples.gym_category [])
    as [Hok Hruns]; [lia|reflexivity|].
  destruct Hruns as (r & Hr & Hs); [reflexivity|discriminate|].
  exists r. repeat split; auto.
  destruct (Hok r Hr Hs) as (_ & _ & msg & Hb). exists msg. exact Hb.
Defined.

Lemma delete_category_failure_rolls_back_witness :
  Store.infodata
    (Tx.db (Tx.after (Expense.delete_custom_category Tx.no_faults Samples.drop_all
                        (Some 7) 3) (Tx.idle Samples.gym_tables 8)))
  = Store.infodata Samples.gym_tables.
Proof.
  destruct (delete_category_failure_rolls_back Tx.no_faults Samples.drop_all 7 3
              (Tx.idle Samples.gym_tables 8)) as (_ & Hgone & _); [lia|].
  destruct Hgone as (_ & Hledger & _); [discriminate|reflexivity|].
  exact Hledger.
Defined.

(** ** [POST /profile/balance/add] *)
Section BalanceFacts.
Import Js Db Store Tx Auth Profile Spec.
Variable as_text : Z -> string.
Variable as_stored : Z -> Z.

Lemma safe_iff (z : Z) : safe z = true <-> exactly_held z.
Proof. unfold safe, exactly_held. rewrite Z.leb_le. lia. Qed.

Lemma to_number_safe (z : Z) : safe z = true -> to_number z = Num z.
Proof.
  intros H. apply safe_iff in H. unfold exactly_held in H.
  assert (Hbig : 2 ^ 53 < 2 ^ 1024) by (apply Z.pow_lt_mono_r; lia).
  destruct (Z.eq_dec (Z.abs z) (2 ^ 53)) as [E|E].
  - assert (Hz : z = 2 ^ 53 \/ z = - 2 ^ 53) by lia.
    destruct Hz as [-> | ->]; vm_compute; reflexivity.
  - unfold to_number, nearest.
    assert (Hlt : (Z.abs z <? 2 ^ 53) = true) by (apply Z.ltb_lt; lia).
    rewrite Hlt. cbv zeta.
    assert (Hle : (2 ^ 1024 <=? Z.abs z) = false) by (apply Z.leb_gt; lia).
    now rewrite Hle.
Qed.

Lemma current_balance_safe (b : option Z) :
  safe (num_or_zero b) = true -> or_zero (parseFloat b) = Num (num_or_zero b).
Proof.
  destruct b as [v|]; cbn [num_or_zero parseFloat or_zero]; [|reflexivity].
  intros H. now rewrite to_number_safe.
Qed.

Lemma stored_of_safe (z : Z) : safe z = true -> stored_of as_stored z = z.
Proof. intros H. unfold stored_of. now rewrite H. Qed.

Lemma text_of_safe (z : Z) : safe z = true -> text_of as_text z = show z.
Proof. intros H. unfold text_of. now rewrite H. Qed.

Lemma balance_rows_set_balance (uid nb : Z) (t : tables) :
  balance_rows uid (set_users (set_balance uid nb) t)
  = map (fun _ => Some nb) (balance_rows uid t).
Proof.
  unfold balance_rows, set_users, set_balance, update_where. cbn [users].
  induction (users t) as [|u us IH]; [reflexivity|].
  cbn [map filter]. destruct (u_id u =? uid) eqn:Hu; cbn [u_id].
  - rewrite Hu. cbn [map balance]. now rewrite IH.
  - rewrite Hu. exact IH.
Qed.

Lemma balance_rows_set_infodata (uid : Z) (f : list Row -> list Row) (t : tables) :
  balance_rows uid (set_infodata f t) = balance_rows uid t.
Proof. reflexivity. Qed.

Lemma stored_balance_set_balance (uid nb : Z) (t : tables) (b : Z) :
  stored_balance uid t = Some b ->
  stored_balance uid (set_users (set_balance uid nb) t) = Some nb.
Proof.
  unfold stored_balance. rewrite balance_rows_set_balance.
  destruct (balance_rows uid t); [discriminate|reflexivity].
Qed.

Lemma income_rows_values (uid : Z) (d : date) (amounts : list Z) :
  forall id, map value (income_rows uid d id amounts) = amounts.
Proof. induction amounts as [|a l IH]; intros id; simpl; [|rewrite IH]; reflexivity. Qed.

Lemma income_rows_tagged (uid : Z) (d : date) (amounts : list Z) :
  forall id, Forall (fun r => section r = "Income" /\ i_user_id r = uid)
                    (income_rows uid d id amounts).
Proof.
  induction amounts as [|a l IH]; intros id; simpl; constructor; auto.
Qed.

(** One deposit with no failing call, when the amount, the balance and
    their sum are held exactly. *)
Lemma add_balance_runs (currentDate : date) (uid a : Z) (w : world)
      (b : option Z) (bs : list (option Z)) :
  uid <> 0 -> 0 < a ->
  safe a = true -> safe (num_or_zero b) = true -> safe (num_or_zero b + a) = true ->
  balance_rows uid (db w) = b :: bs ->
  answer (add_balance no_faults as_text as_stored currentDate (Some uid) (JNum a)) w
  = Some (Response 200 (JObj [("newBalance", JNum (num_or_zero b + a))]))
  /\ db (after (add_balance no_faults as_text as_stored currentDate (Some uid)
                            (JNum a)) w)
     = mkTables (set_balance uid (num_or_zero b + a) (users (db w)))
                (infodata (db w) ++ [income_row uid a currentDate (auto_inc w)])
                (categories (db w))
  /\ auto_inc (after (add_balance no_faults as_text as_stored currentDate (Some uid)
                                  (JNum a)) w)
     = auto_inc w + 1
  /\ tx (after (add_balance no_faults as_text as_stored currentDate (Some uid)
                            (JNum a)) w) = None.
Proof.
  intros Huid Ha Hsa Hsb Hsum Hb. apply Z.eqb_neq in Huid.
  assert (Ha' : (a <=? 0) = false) by (apply Z.leb_gt; lia).
  unfold add_balance, answer, after. cbn [truthy_onum].
  rewrite Huid, (to_number_safe a Hsa). cbn [negb leb_zero]. rewrite Ha'. cbv zeta.
  unfold query_with, income_row.
  tx_unfold. unfold no_faults. tx_simpl.
  rewrite Hb. rewrite (current_balance_safe b Hsb). cbn [plus].
  rewrite (to_number_safe _ Hsum). tx_simpl.
  rewrite (stored_of_safe _ Hsum), (stored_of_safe _ Hsa), (text_of_safe _ Hsa).
  cbn [jnum]. repeat split.
Qed.

Lemma nearest_sign (a : Z) : a <= 0 -> nearest a <= 0.
Proof.
  intros Ha. unfold nearest. destruct (Z.abs a <? 2 ^ 53); [exact Ha|]. cbv zeta.
  set (ulp := 2 ^ (Z.log2 (Z.abs a) - 52)).
  assert (Hu : 0 <= ulp) by (apply Z.pow_nonneg; lia).
  assert (Hq : 0 <= Z.abs a / ulp).
  { destruct (Z.eq_dec ulp 0) as [->|Hne]; [now rewrite Z.div_0_r|].
    apply Z.div_pos; lia. }
  assert (Hs : Z.sgn a <= 0) by lia.
  destruct (2 * (Z.abs a mod ulp) <? ulp); [nia|].
  destruct (ulp <? 2 * (Z.abs a mod ulp)); [nia|].
  destruct (Z.even (Z.abs a / ulp)); nia.
Qed.

Lemma positive_amount (a v : Z) : to_number a = Num v -> 0 < v -> 0 < a.
Proof.
  unfold to_number. cbv zeta.
  destruct (2 ^ 1024 <=? Z.abs (nearest a)); [discriminate|].
  intros [= <-] Hv. pose proof (nearest_sign a). lia.
Qed.

Ltac nothing_written :=
  right; split;
  [intros r0 H0; first [discriminate H0 | injection H0 as <-; discriminate]
  |reflexivity].

(** One deposit, whatever the body carries and whatever call fails:
    nothing is written unless both the balance and the ledger row are,
    and then the answer is 200. *)
Lemma add_balance_all_or_nothing (faults : nat -> option error)
      (currentDate : date) (uid : Z) (amount : json) (w : world) :
  (exists a v b bs n,
      amount = JNum a /\ 0 < a /\ to_number a = Num v
      /\ balance_rows uid (db w) = b :: bs
      /\ plus (or_zero (parseFloat b)) (Num v) = Num n
      /\ answer (add_balance faults as_text as_stored currentDate (Some uid) amount) w
         = Some (Response 200 (JObj [("newBalance", JNum n)]))
      /\ db (after (add_balance faults as_text as_stored currentDate (Some uid)
                                amount) w)
         = mkTables (set_balance uid (stored_of as_stored n) (users (db w)))
                    (infodata (db w)
                     ++ [deposit_row uid (stored_of as_stored v) (text_of as_text v)
                                     currentDate (auto_inc w)])
                    (categories (db w)))
  \/ ((forall r,
          answer (add_balance faults as_text as_stored currentDate (Some uid) amount) w
          = Some r -> status r <> 200)
      /\ db (after (add_balance faults as_text as_stored currentDate (Some uid)
                                amount) w)
         = db w).
Proof.
  unfold add_balance, answer, after. cbn [truthy_onum].
  destruct (uid =? 0); cbn [negb].
  { nothing_written. }
  destruct amount as [| |bo|a|s|d|l|f]; try nothing_written.
  destruct (to_number a) as [v|neg|] eqn:Ea; cbv zeta; cbn [leb_zero].
  - destruct (v <=? 0) eqn:Hv; [nothing_written|].
    apply Z.leb_gt in Hv. pose proof (positive_amount a v Ea Hv) as Ha.
    unfold query_with. tx_unfold.
    tx_fault faults; [nothing_written|].
    tx_fault faults; [tx_fault faults; nothing_written|].
    tx_fault faults; [tx_fault faults; nothing_written|].
    destruct (balance_rows uid (db w)) as [|b bs] eqn:Hb.
    { tx_fault faults; [tx_fault faults; nothing_written|nothing_written]. }
    destruct (plus (or_zero (parseFloat b)) (Num v)) as [n|sg|] eqn:Hn; tx_simpl.
    2,3: tx_fault faults; tx_fault faults; nothing_written.
    tx_fault faults; [tx_fault faults; nothing_written|].
    tx_fault faults; [tx_fault faults; nothing_written|].
    tx_fault faults; [tx_fault faults; nothing_written|].
    left. exists a, v, b, bs, n. repeat split; auto.
  - destruct neg; [nothing_written|].
    unfold query_with. tx_unfold.
    tx_fault faults; [nothing_written|].
    tx_fault faults; [tx_fault faults; nothing_written|].
    tx_fault faults; [tx_fault faults; nothing_written|].
    destruct (balance_rows uid (db w)) as [|b bs] eqn:Hb.
    { tx_fault faults; [tx_fault faults; nothing_written|nothing_written]. }
    destruct (or_zero (parseFloat b)) as [x|[|]|]; cbn [plus Bool.eqb]; tx_simpl;
      tx_fault faults; tx_fault faults; nothing_written.
  - unfold to_number in Ea. cbv zeta in Ea.
    destruct (2 ^ 1024 <=? Z.abs (nearest a)); discriminate.
Qed.

Lemma total_nonneg (amounts : list Z) :
  Forall (fun a => 0 < a <= 2 ^ 53) amounts -> 0 <= total amounts.
Proof.
  induction 1 as [|a l Ha Hl IH]; unfold total in *; cbn [fold_right]; lia.
Qed.

Lemma add_balances_run (currentDate : date) (uid : Z) (amounts : list Z) :
  uid <> 0 ->
  Forall (fun a => 0 < a <= 2 ^ 53) amounts ->
  forall (w : world) (b : Z),
    stored_balance uid (db w) = Some b ->
    - 2 ^ 53 <= b -> b + total amounts <= 2 ^ 53 ->
    Forall (fun r => exists resp, r = Some resp /\ status resp = 200)
           (fst (add_balances as_text as_stored currentDate (Some uid) amounts w))
    /\ List.length (fst (add_balances as_text as_stored currentDate (Some uid)
                                      amounts w))
       = List.length amounts
    /\ stored_balance uid
         (db (snd (add_balances as_text as_stored currentDate (Some uid) amounts w)))
       = Some (b + total amounts)
    /\ infodata (db (snd (add_balances as_text as_stored currentDate (Some uid)
                                       amounts w)))
       = infodata (db w) ++ income_rows uid currentDate (auto_inc w) amounts
    /\ categories (db (snd (add_balances as_text as_stored currentDate (Some uid)
                                         amounts w)))
       = categories (db w).
Proof.
  intros Huid Hpos. induction Hpos as [|a l Ha Hl IH]; intros w b Hb Hlo Hhi.
  - cbn. rewrite Z.add_0_r, app_nil_r. repeat split; auto.
  - cbn [add_balances].
    set (w0 := mkWorld (db w) None (auto_inc w) 0).
    unfold stored_balance in Hb.
    destruct (balance_rows uid (db w)) as [|bo bs] eqn:Hrows; [discriminate|].
    injection Hb as Hb.
    pose proof (total_nonneg l Hl) as Hl0.
    assert (Htot : total (a :: l) = a + total l) by reflexivity.
    assert (Hsa : safe a = true) by (apply safe_iff; unfold exactly_held; lia).
    assert (Hsb : safe (num_or_zero bo) = true)
      by (apply safe_iff; unfold exactly_held; lia).
    assert (Hsum : safe (num_or_zero bo + a) = true)
      by (apply safe_iff; unfold exactly_held; lia).
    destruct (add_balance_runs currentDate uid a w0 bo bs Huid (proj1 Ha) Hsa Hsb Hsum
                Hrows) as (Hans & Hdb & Hinc & _).
    set (w1 := after (add_balance no_faults as_text as_stored currentDate (Some uid)
                                  (JNum a)) w0) in *.
    assert (Hb1 : stored_balance uid (db w1) = Some (b + a)).
    { rewrite Hdb. subst b.
      change (mkTables (set_balance uid (num_or_zero bo + a) (users (db w0)))
                (infodata (db w0) ++ [income_row uid a currentDate (auto_inc w0)])
                (categories (db w0)))
        with (set_users (set_balance uid (num_or_zero bo + a))
                (mkTables (users (db w0))
                   (infodata (db w0) ++ [income_row uid a currentDate (auto_inc w0)])
                   (categories (db w0)))).
      unfold stored_balance. rewrite balance_rows_set_balance.
      unfold balance_rows at 1. cbn [users].
      change (map balance (filter (fun u => u_id u =? uid) (users (db w0))))
        with (balance_rows uid (db w)).
      rewrite Hrows. reflexivity. }
    destruct (IH w1 (b + a) Hb1 ltac:(lia) ltac:(lia))
      as (Hrs & Hlen & Hbal & Hled & Hcat).
    destruct (add_balances as_text as_stored currentDate (Some uid) l w1)
      as [rs w'] eqn:Hrun.
    cbn [fst snd] in *. repeat split.
    + constructor; [|exact Hrs]. rewrite Hans. eexists; split; reflexivity.
    + cbn [List.length]. f_equal. exact Hlen.
    + rewrite Hbal. f_equal. lia.
    + rewrite Hled, Hdb, Hinc. cbn [infodata income_rows].
      rewrite <- app_assoc. reflexivity.
    + rewrite Hcat, Hdb. reflexivity.
Qed.

(** C3.  For a user with a row in [users], and deposits that are
    positive whole numbers up to [2^53] with the balance staying within
    [2^53] in size, [N] requests to [POST /profile/balance/add] made one
    after the other all answer 200, leave the stored balance at the
    initial balance plus the sum of the amounts, and append exactly [N]
    rows to the ledger, all in section "Income" and for this user, whose
    values are the amounts in order.  Moreover a single request,
    whatever it carries and whatever call to the driver fails, either
    writes both the new balance and its ledger row and answers 200 with
    the new balance, or writes nothing and does not answer 200; the new
    balance is the sum of the balance and the amount as doubles, which
    beyond that range is a rounded number. *)
Theorem add_balance_sequence (currentDate : date) (uid : Z) (amounts : list Z)
        (w : world) (b : Z) :
  uid <> 0 ->
  Forall (fun a => 0 < a <= 2 ^ 53) amounts ->
  stored_balance uid (db w) = Some b ->
  - 2 ^ 53 <= b -> b + total amounts <= 2 ^ 53 ->
  (Forall (fun r => exists resp, r = Some resp /\ status resp = 200)
          (fst (add_balances as_text as_stored currentDate (Some uid) amounts w))
   /\ stored_balance uid
        (db (snd (add_balances as_text as_stored currentDate (Some uid) amounts w)))
      = Some (b + total amounts)
   /\ exists new,
       infodata (db (snd (add_balances as_text as_stored currentDate (Some uid)
                                       amounts w)))
       = infodata (db w) ++ new
       /\ List.length new = List.length amounts
       /\ map value new = amounts
       /\ Forall (fun r => section r = "Income" /\ i_user_id r = uid) new)
  /\ (forall faults amount w0,
         (exists a v b0 bs n,
             amount = JNum a /\ 0 < a /\ to_number a = Num v
             /\ balance_rows uid (db w0) = b0 :: bs
             /\ plus (or_zero (parseFloat b0)) (Num v) = Num n
             /\ answer (add_balance faults as_text as_stored currentDate (Some uid)
                                    amount) w0
                = Some (Response 200 (JObj [("newBalance", JNum n)]))
             /\ db (after (add_balance faults as_text as_stored currentDate (Some uid)
                                       amount) w0)
                = mkTables (set_balance uid (stored_of as_stored n) (users (db w0)))
                           (infodata (db w0)
                            ++ [deposit_row uid (stored_of as_stored v)
                                            (text_of as_text v) currentDate
                                            (auto_inc w0)])
                           (categories (db w0)))
         \/ ((forall r,
                 answer (add_balance faults as_text as_stored currentDate (Some uid)
                                     amount) w0 = Some r ->
                 status r <> 200)
             /\ db (after (add_balance faults as_text as_stored currentDate (Some uid)
                                       amount) w0)
                = db w0)).
Proof.
  intros Huid Hpos Hb Hlo Hhi. split.
  - destruct (add_balances_run currentDate uid amounts Huid Hpos w b Hb Hlo Hhi)
      as (Hrs & _ & Hbal & Hled & _).
    repeat split; auto.
    exists (income_rows uid currentDate (auto_inc w) amounts). repeat split; auto.
    + rewrite <- (income_rows_values uid currentDate amounts (auto_inc w)) at 2.
      now rewrite length_map.
    + apply income_rows_values.
    + apply income_rows_tagged.
  - intros faults amount w0. apply add_balance_all_or_nothing.
Qed.
End BalanceFacts.

Lemma add_balance_sequence_witness :
  Spec.stored_balance 7
    (Tx.db (snd (Profile.add_balances Js.show (fun z => z) Samples.day1 (Some 7)
                   [10; 25; 5] (Tx.idle Samples.gym_tables 8))))
  = Some 90.
Proof.
  destruct (add_balance_sequence Js.show (fun z => z) Samples.day1 7 [10; 25; 5]
              (Tx.idle Samples.gym_tables 8) 50) as [(_ & Hbal & _) _].
  - lia.
  - repeat constructor; lia.
  - reflexivity.
  - lia.
  - vm_compute. discriminate.
  - exact Hbal.
Defined.

(** A deposit of [2^53] on a balance of 1 is answered 200 with the new
    balance [2^53], which is also what is stored: the sum of the two,
    [2^53 + 1], is no double. *)
Lemma add_balance_rounds_the_sum :
  fst (Profile.add_balances Js.show (fun z => z) Samples.day1 (Some 7)
         [9007199254740992] (Tx.idle Cases.one_left 8))
  = [Some (Js.Response 200 (Js.JObj [("newBalance", Js.JNum 9007199254740992)]))]
  /\ Tx.db (snd (Profile.add_balances Js.show (fun z => z) Samples.day1 (Some 7)
                   [9007199254740992] (Tx.idle Cases.one_left 8)))
     = Store.mkTables
         [Store.mkUser 7 "U" "U" "u@x.com" "555-7" "hash" None None
                       (Some 9007199254740992)]
         [Profile.income_row 7 9007199254740992 Samples.day1 8]
         []
  /\ Spec.stored_balance 7 (Tx.db (Tx.idle Cases.one_left 8)) = Some 1
  /\ Spec.stored_balance 7
       (Tx.db (snd (Profile.add_balances Js.show (fun z => z) Samples.day1 (Some 7)
                      [9007199254740992] (Tx.idle Cases.one_left 8))))
     <> Some (1 + Spec.total [9007199254740992]).
Proof.
  split; [vm_compute; reflexivity|]. split; [vm_compute; reflexivity|].
  split; [reflexivity|]. vm_compute. discriminate.
Qed.

(** A deposit that is read as [Infinity] is refused by the server when
    the balance is written: the answer is 500 and nothing is stored. *)
Example add_balance_infinity :
  Tx.answer (Profile.add_balance Tx.no_faults Js.show (fun z => z) Samples.day1
               (Some 7) (Js.JNum (10 ^ 400)))
            (Tx.idle Samples.gym_tables 8)
  = Some (Js.Response 500
            (Auth.error_details "Failed to add balance."
               (Profile.unknown_column (Js.Infinity false))))
  /\ Tx.db (Tx.after (Profile.add_balance Tx.no_faults Js.show (fun z => z)
                        Samples.day1 (Some 7) (Js.JNum (10 ^ 400)))
                     (Tx.idle Samples.gym_tables 8))
     = Samples.gym_tables.
Proof. split; vm_compute; reflexivity. Qed.

(** ** [DELETE /profile/income-transactions/delete/:id] *)
Section DeleteIncomeFacts.
Import Js Db Store Tx Auth Profile Spec.
Variable faults : nat -> option error.
Variable as_text : Z -> string.
Variable as_stored : Z -> Z.

Ltac not_200 :=
  cbn; intros H0; first [discriminate H0 | injection H0 as <-; discriminate].

Ltac unchanged :=
  cbn; intros; reflexivity.

(** The new balance of a deletion whose numbers are held exactly. *)
Lemma new_balance_safe (bo : option Z) (v : Z) :
  safe v = true -> safe (num_or_zero bo) = true -> safe (num_or_zero bo - v) = true ->
  minus (or_zero (parseFloat bo)) (to_number v) = Num (num_or_zero bo - v).
Proof.
  intros Hv Hb Hd. rewrite (current_balance_safe bo Hb), (to_number_safe v Hv).
  unfold minus. cbn [negate plus]. rewrite Z.add_opp_r. now apply to_number_safe.
Qed.

(** C10.  Let [row] be the "Income" row of user [uid] with identifier
    [tid], and let its value, the stored balance (a null balance
    counting as 0) and their difference be whole numbers up to [2^53] in
    size.  Whenever the deletion answers 200, the ledger has lost the
    rows of [uid] with that identifier and nothing else, and the stored
    balance has gone down by the value of [row]; both writes are
    committed together, and with no failing call the deletion does
    answer 200.  When there is no such row (no row with this identifier,
    or one of another user, or one in another section) and no call
    fails, the answer is 404.  Every answer other than 200, and every
    run that ends without an answer, leaves the ledger, the balances and
    the categories as they were.  Whatever the numbers, a deletion that
    answers 200 has set the balance to the difference of the balance and
    the value as doubles, which beyond that range is a rounded
    number. *)
Theorem delete_income_transaction_adjusts_balance (uid tid : Z) (w : world) :
  uid <> 0 ->
  (forall row rest b r,
      filter (is_income_of tid uid) (infodata (db w)) = row :: rest ->
      stored_balance uid (db w) = Some b ->
      exactly_held (value row) -> exactly_held b -> exactly_held (b - value row) ->
      answer (delete_income_transaction faults as_stored (Some uid) tid) w = Some r ->
      status r = 200 ->
      infodata (db (after (delete_income_transaction faults as_stored (Some uid) tid)
                          w))
      = filter (fun x => negb (is_row_of tid uid x)) (infodata (db w))
      /\ ~ In row (infodata (db (after (delete_income_transaction faults as_stored
                                         (Some uid) tid) w)))
      /\ stored_balance uid
           (db (after (delete_income_transaction faults as_stored (Some uid) tid) w))
         = Some (b - value row)
      /\ users (db (after (delete_income_transaction faults as_stored (Some uid) tid)
                          w))
         = set_balance uid (b - value row) (users (db w)))
  /\ (forall row rest b,
         filter (is_income_of tid uid) (infodata (db w)) = row :: rest ->
         stored_balance uid (db w) = Some b ->
         exactly_held (value row) -> exactly_held b -> exactly_held (b - value row) ->
         exists r,
           answer (delete_income_transaction no_faults as_stored (Some uid) tid) w
           = Some r
           /\ status r = 200)
  /\ (filter (is_income_of tid uid) (infodata (db w)) = [] ->
      answer (delete_income_transaction no_faults as_stored (Some uid) tid) w
      = Some (Response 404 (error_body "Transaction not found or unauthorized.")))
  /\ (forall r,
         answer (delete_income_transaction faults as_stored (Some uid) tid) w = Some r ->
         status r <> 200 ->
         db (after (delete_income_transaction faults as_stored (Some uid) tid) w)
         = db w)
  /\ (answer (delete_income_transaction faults as_stored (Some uid) tid) w = None ->
      db (after (delete_income_transaction faults as_stored (Some uid) tid) w) = db w)
  /\ (forall row rest bo bs r,
         filter (is_income_of tid uid) (infodata (db w)) = row :: rest ->
         balance_rows uid (db w) = bo :: bs ->
         answer (delete_income_transaction faults as_stored (Some uid) tid) w = Some r ->
         status r = 200 ->
         exists n,
           minus (or_zero (parseFloat bo)) (to_number (value row)) = Num n
           /\ users (db (after (delete_income_transaction faults as_stored (Some uid)
                                  tid) w))
              = set_balance uid (stored_of as_stored n) (users (db w))
           /\ infodata (db (after (delete_income_transaction faults as_stored
                                     (Some uid) tid) w))
              = filter (fun x => negb (is_row_of tid uid x)) (infodata (db w))).
Proof.
  intros Huid. apply Z.eqb_neq in Huid.
  unfold delete_income_transaction, answer, after, stored_balance.
  cbn [truthy_onum]. rewrite Huid. cbn [negb]. cbv zeta. repeat apply conj.
  - intros row rest b r Hrow Hb Hv Hbh Hd.
    apply safe_iff in Hv, Hbh, Hd.
    destruct (balance_rows uid (db w)) as [|bo bs] eqn:Hrows; [discriminate|].
    injection Hb as <-.
    pose proof (new_balance_safe bo (value row) Hv Hbh Hd) as Hnew.
    tx_unfold.
    tx_fault faults; [not_200|].
    do 2 (tx_fault faults; [tx_fault faults; not_200|]).
    rewrite Hrow. cbn [map].
    do 2 (tx_fault faults; [tx_fault faults; not_200|]).
    rewrite balance_rows_set_infodata, Hrows, Hnew. unfold query_with. tx_unfold.
    do 2 (tx_fault faults; [tx_fault faults; not_200|]).
    rewrite (stored_of_safe as_stored _ Hd).
    cbn. intros _ _. repeat split.
    + intros Hin. apply filter_negb_In in Hin.
      apply filter_cons_In in Hrow. destruct Hrow as [_ Hrow].
      unfold is_income_of in Hrow. unfold is_row_of in Hin.
      apply andb_prop in Hrow. destruct Hrow as [Hrow _]. congruence.
    + refine (stored_balance_set_balance uid (num_or_zero bo - value row) (db w)
                (num_or_zero bo) _).
      unfold stored_balance. now rewrite Hrows.
  - intros row rest b Hrow Hb Hv Hbh Hd.
    apply safe_iff in Hv, Hbh, Hd.
    destruct (balance_rows uid (db w)) as [|bo bs] eqn:Hrows; [discriminate|].
    injection Hb as <-.
    pose proof (new_balance_safe bo (value row) Hv Hbh Hd) as Hnew.
    tx_unfold. unfold no_faults. tx_simpl.
    rewrite Hrow. cbn [map]. tx_simpl.
    rewrite balance_rows_set_infodata, Hrows, Hnew. unfold query_with. tx_unfold.
    tx_simpl. eexists. split; reflexivity.
  - intros Hnone. tx_unfold. unfold no_faults. tx_simpl. rewrite Hnone. reflexivity.
  - intros r. tx_unfold.
    tx_fault faults; [unchanged|].
    do 2 (tx_fault faults; [tx_fault faults; unchanged|]).
    destruct (filter (is_income_of tid uid) (infodata (db w))) as [|row rest];
      cbn [map].
    { tx_fault faults; [tx_fault faults; unchanged|unchanged]. }
    do 2 (tx_fault faults; [tx_fault faults; unchanged|]).
    rewrite balance_rows_set_infodata.
    destruct (balance_rows uid (db w)) as [|bo bs].
    + tx_fault faults; [tx_fault faults; unchanged|].
      cbn. intros [= <-] H. now contradiction H.
    + unfold query_with.
      destruct (minus (or_zero (parseFloat bo)) (to_number (value row)))
        as [n|sg|]; tx_unfold.
      2,3: tx_fault faults; tx_fault faults; unchanged.
      do 2 (tx_fault faults; [tx_fault faults; unchanged|]).
      cbn. intros [= <-] H. now contradiction H.
  - tx_unfold.
    tx_fault faults; [unchanged|].
    do 2 (tx_fault faults; [tx_fault faults; unchanged|]).
    destruct (filter (is_income_of tid uid) (infodata (db w))) as [|row rest];
      cbn [map].
    { tx_fault faults; [tx_fault faults; unchanged|unchanged]. }
    do 2 (tx_fault faults; [tx_fault faults; unchanged|]).
    rewrite balance_rows_set_infodata.
    destruct (balance_rows uid (db w)) as [|bo bs].
    + tx_fault faults; [tx_fault faults; unchanged|].
      cbn. intros H. discriminate H.
    + unfold query_with.
      destruct (minus (or_zero (parseFloat bo)) (to_number (value row)))
        as [n|sg|]; tx_unfold.
      2,3: tx_fault faults; tx_fault faults; unchanged.
      do 2 (tx_fault faults; [tx_fault faults; unchanged|]).
      cbn. intros H. discriminate H.
  - intros row rest bo bs r Hrow Hrows. tx_unfold.
    tx_fault faults; [not_200|].
    do 2 (tx_fault faults; [tx_fault faults; not_200|]).
    rewrite Hrow. cbn [map].
    do 2 (tx_fault faults; [tx_fault faults; not_200|]).
    rewrite balance_rows_set_infodata, Hrows. unfold query_with.
    destruct (minus (or_zero (parseFloat bo)) (to_number (value row)))
      as [n|sg|]; tx_unfold.
    2,3: tx_fault faults; tx_fault faults; not_200.
    do 2 (tx_fault faults; [tx_fault faults; not_200|]).
    cbn. intros _ _. exists n. repeat split.
Qed.

(** When the token names a user with no row in [users], the deletion
    still answers 200 and removes the ledger row; there is no balance to
    adjust. *)
Lemma delete_income_transaction_without_user (uid tid : Z) (w : world)
      (row : Row) (rest : list Row) :
  uid <> 0 ->
  filter (is_income_of tid uid) (infodata (db w)) = row :: rest ->
  stored_balance uid (db w) = None ->
  users (db (after (delete_income_transaction no_faults as_stored (Some uid) tid) w))
  = users (db w)
  /\ infodata (db (after (delete_income_transaction no_faults as_stored (Some uid) tid)
                         w))
     = filter (fun x => negb (is_row_of tid uid x)) (infodata (db w)).
Proof.
  intros Huid Hrow Hb. apply Z.eqb_neq in Huid.
  unfold delete_income_transaction, after, stored_balance in *.
  cbn [truthy_onum]. rewrite Huid. cbn [negb]. cbv zeta. tx_unfold.
  unfold no_faults. tx_simpl. rewrite Hrow. cbn [map]. tx_simpl.
  destruct (balance_rows uid (db w)) as [|bo bs] eqn:Hrows; [|discriminate].
  rewrite balance_rows_set_infodata, Hrows. tx_simpl. split; reflexivity.
Qed.
End DeleteIncomeFacts.

Lemma delete_income_transaction_adjusts_balance_witness :
  Spec.stored_balance 7
    (Tx.db (Tx.after (Profile.delete_income_transaction Tx.no_faults (fun z => z)
                        (Some 7) 2)
                     (Tx.idle Samples.income_tables 3)))
  = Some 20.
Proof.
  destruct (delete_income_transaction_adjusts_balance Tx.no_faults (fun z => z) 7 2
              (Tx.idle Samples.income_tables 3)) as (Hok & _); [lia|].
  refine (proj1 (proj2 (proj2
           (Hok (Samples.gym_row 2 7 "Income" 30) [] 50
                (Js.Response 200
                   (Js.JObj [("message", Js.JStr "Deposit entry deleted successfully.")]))
                eq_refl eq_refl _ _ _ eq_refl eq_refl))));
    unfold Spec.exactly_held; cbn [Store.value Samples.gym_row]; lia.
Defined.

(** With a balance of 10 on file, deleting a deposit whose value is
    [2^53 + 1] is answered 200 and leaves the balance at [10 - 2^53]:
    the value is read as the double [2^53], and the balance goes down by
    one less than the value of the row. *)
Lemma delete_income_rounds_the_value :
  Tx.answer (Profile.delete_income_transaction Tx.no_faults (fun z => z) (Some 7) 2)
            (Tx.idle Cases.big_deposit 3)
  = Some (Js.Response 200
            (Js.JObj [("message", Js.JStr "Deposit entry deleted successfully.")]))
  /\ filter (Profile.is_income_of 2 7) (Store.infodata Cases.big_deposit)
     = [Samples.gym_row 2 7 "Income" 9007199254740993]
  /\ Spec.stored_balance 7 Cases.big_deposit = Some 10
  /\ Spec.stored_balance 7
       (Tx.db (Tx.after (Profile.delete_income_transaction Tx.no_faults (fun z => z)
                           (Some 7) 2)
                        (Tx.idle Cases.big_deposit 3)))
     = Some (10 - 9007199254740992)
  /\ 10 - 9007199254740992 <> 10 - Store.value (Samples.gym_row 2 7 "Income"
                                                  9007199254740993).
Proof.
  split; [vm_compute; reflexivity|]. split; [reflexivity|]. split; [reflexivity|].
  split; [vm_compute; reflexivity|]. vm_compute. discriminate.
Qed.

(** ** [GET /items/summary] and [GET /items] *)
Section SummaryFacts.
Import Js Db Store Tx Auth Expense Spec.






(** [GET /items] with [_limit=0] falls back to 10 rows per page, and
    with [_page=0] to the first page. *)
Lemma get_items_zero_is_defaulted :
  limit_of (Some "0") = 10 /\ page_of (Some "0") = 1
  /\ offset_of (Some "0") (Some "0") = 0.
Proof. repeat split. Qed.

(** With a negative limit or offset the statement is refused and the
    listing answers 500. *)
Lemma get_items_negative_500 (uid : Z) (_page _limit category : option string)
      (fromDate toDate : option date) (w : world) :
  uid <> 0 ->
  limit_of _limit < 0 \/ offset_of _page _limit < 0 ->
  answer (get_items no_faults (Some uid) _page _limit category fromDate toDate) w
  = Some (Response 500 (error_body "Failed to fetch items.")).
Proof.
  intros Huid Hneg. apply Z.eqb_neq in Huid.
  unfold get_items, answer. cbn [truthy_onum]. rewrite Huid. cbn [negb].
  tx_unfold. unfold no_faults. tx_simpl. unfold limit_offset.
  replace ((limit_of _limit <? 0) || (offset_of _page _limit <? 0)) with true;
    [reflexivity|].
  symmetry. apply orb_true_iff. rewrite !Z.ltb_lt. exact Hneg.
Qed.

Lemma or_default_nonzero (n : option Z) (d : Z) : d <> 0 -> or_default n d <> 0.
Proof.
  intros Hd. unfold or_default. destruct n as [v|]; [|exact Hd].
  destruct (v =? 0) eqn:Hv; [exact Hd|]. now apply Z.eqb_neq.
Qed.

(** A negative [_page] is kept as it is, so every such request is
    answered 500. *)
Lemma get_items_negative_page (uid p : Z) (_page _limit category : option string)
      (fromDate toDate : option date) (w : world) :
  uid <> 0 ->
  parseInt _page = Some p -> p < 0 ->
  answer (get_items no_faults (Some uid) _page _limit category fromDate toDate) w
  = Some (Response 500 (error_body "Failed to fetch items.")).
Proof.
  intros Huid Hp Hneg. apply get_items_negative_500; [exact Huid|].
  unfold offset_of, page_of, limit_of. rewrite Hp. unfold or_default at 2.
  destruct (p =? 0) eqn:Hz; [apply Z.eqb_eq in Hz; lia|].
  pose proof (or_default_nonzero (parseInt _limit) 10 ltac:(lia)) as Hl.
  nia.
Qed.

(** C6.  [GET /items?_page=-1] is neither refused as invalid nor brought
    back to the first page: the offset sent to the database is -20 and
    the answer is 500. *)
Theorem get_items_negative_page_500 (w : world) :
  offset_of (Some "-1") None = -20
  /\ answer (get_items no_faults (Some 1) (Some "-1") None None None None) w
     = Some (Response 500 (error_body "Failed to fetch items.")).
Proof.
  split; [reflexivity|].
  apply get_items_negative_500; [discriminate|right; reflexivity].
Qed.
End SummaryFacts.


(** ** Zero-filled buckets: the result set, the [Map] and the merge *)
Section BucketFacts.
Import Js Db Store Tx Auth Expense Spec.











Lemma insert_sorted_perm {R : Type} (leb : R -> R -> bool) (x : R) (l : list R) :
  Permutation (insert_sorted leb x l) (x :: l).
Proof.
  induction l as [|y l IH]; cbn [insert_sorted]; [reflexivity|].
  destruct (leb x y); [reflexivity|].
  rewrite IH. apply perm_swap.
Qed.

Lemma order_by_perm {R : Type} (leb : R -> R -> bool) (l : list R) :
  Permutation (order_by leb l) l.
Proof.
  induction l as [|x l IH]; [reflexivity|].
  unfold order_by. cbn [fold_right]. fold (order_by leb l).
  rewrite insert_sorted_perm. now constructor.
Qed.



End BucketFacts.

(** ** The calendar *)
Section CalendarFacts.
Import Js Db Store Tx Auth Expense Spec.

Lemma days_in_month_bounds (y m : Z) : 28 <= days_in_month y m <= 31.
Proof.
  unfold days_in_month.
  destruct (m =? 2); [destruct (is_leap y); lia|].
  destruct ((m =? 4) || (m =? 6) || (m =? 9) || (m =? 11)); lia.
Qed.

Lemma valid_date_bounds (d : date) :
  valid_date d = true ->
  1 <= month d <= 12 /\ 1 <= day d <= days_in_month (year d) (month d).
Proof.
  unfold valid_date. rewrite !andb_true_iff, !Z.leb_le. lia.
Qed.

Lemma valid_date_intro (d : date) :
  1 <= month d <= 12 -> 1 <= day d <= days_in_month (year d) (month d) ->
  valid_date d = true.
Proof.
  intros Hm Hd. unfold valid_date. rewrite !andb_true_iff, !Z.leb_le. lia.
Qed.

Lemma date_leb_index (a b : date) :
  valid_date a = true -> valid_date b = true ->
  (date_leb a b = true <-> day_index a <= day_index b).
Proof.
  intros Ha Hb.
  apply valid_date_bounds in Ha. apply valid_date_bounds in Hb.
  pose proof (days_in_month_bounds (year a) (month a)).
  pose proof (days_in_month_bounds (year b) (month b)).
  unfold date_leb, day_index.
  rewrite !orb_true_iff, !andb_true_iff, !orb_true_iff, !andb_true_iff,
    !Z.ltb_lt, !Z.eqb_eq, !Z.leb_le.
  lia.
Qed.


Lemma next_day_valid (d : date) : valid_date d = true -> valid_date (next_day d) = true.
Proof.
  intros Hd. apply valid_date_bounds in Hd. unfold next_day.
  destruct (Z.ltb_spec (day d) (days_in_month (year d) (month d))).
  - apply valid_date_intro; cbn; lia.
  - pose proof (days_in_month_bounds (year d) (month d + 1)).
    destruct (Z.ltb_spec (month d) 12); apply valid_date_intro;
      cbn [year month day]; try lia.
    change (days_in_month (year d + 1) 1) with 31. lia.
Qed.

Lemma next_day_index (d : date) :
  valid_date d = true -> day_index d < day_index (next_day d).
Proof.
  intros Hd. apply valid_date_bounds in Hd.
  pose proof (days_in_month_bounds (year d) (month d)).
  unfold next_day, day_index.
  destruct (Z.ltb_spec (day d) (days_in_month (year d) (month d))); cbn; [lia|].
  destruct (Z.ltb_spec (month d) 12); cbn; lia.
Qed.







Lemma prev_day_valid (d : date) : valid_date d = true -> valid_date (prev_day d) = true.
Proof.
  intros Hd. apply valid_date_bounds in Hd. unfold prev_day.
  destruct (Z.ltb_spec 1 (day d)).
  - apply valid_date_intro; cbn [year month day]; lia.
  - pose proof (days_in_month_bounds (year d) (month d - 1)).
    destruct (Z.ltb_spec 1 (month d)); apply valid_date_intro;
      cbn [year month day]; try lia.
    change (days_in_month (year d - 1) 12) with 31. lia.
Qed.

Lemma next_prev_day (d : date) : valid_date d = true -> next_day (prev_day d) = d.
Proof.
  intros Hd. apply valid_date_bounds in Hd. destruct d as [y m dd].
  cbn [year month day] in Hd. unfold prev_day, next_day. cbn [year month day].
  destruct (Z.ltb_spec 1 dd); cbn [year month day].
  - destruct (Z.ltb_spec (dd - 1) (days_in_month y m)); [|lia].
    f_equal. lia.
  - assert (dd = 1) by lia. subst dd.
    destruct (Z.ltb_spec 1 m); cbn [year month day].
    + rewrite Z.ltb_irrefl.
      destruct (Z.ltb_spec (m - 1) 12); [|lia]. f_equal. lia.
    + assert (m = 1) by lia. subst m.
      change (days_in_month (y - 1) 12) with 31. rewrite Z.ltb_irrefl.
      cbn. f_equal. lia.
Qed.

Lemma prev_day_index (d : date) :
  valid_date d = true -> day_index (prev_day d) < day_index d.
Proof.
  intros Hd. pose proof (next_day_index (prev_day d) (prev_day_valid d Hd)) as H.
  now rewrite next_prev_day in H.
Qed.





End CalendarFacts.

(** ** Labels *)
Section LabelFacts.
Import Js Db Store Tx Auth Expense Spec.



Lemma date_eqb_eq (a b : date) : date_eqb a b = true <-> a = b.
Proof.
  unfold date_eqb. rewrite !andb_true_iff, !Z.eqb_eq.
  destruct a, b; cbn. split; [intros [[-> ->] ->]; reflexivity|].
  intros [= -> -> ->]. auto.
Qed.






Lemma first_of_month_index (y k : Z) :
  month_index (first_of_month y k) = y * 12 + k
  /\ 1 <= month (first_of_month y k) <= 12
  /\ day (first_of_month y k) = 1.
Proof.
  unfold month_index, first_of_month. cbn [year month day].
  repeat split; Z.div_mod_to_equations; lia.
Qed.


End LabelFacts.

(** ** [GET /items/summary/daily] and [GET /items/summary/monthly] *)
Section TimeBucketFacts.
Import Js Db Store Tx Auth Expense Spec.













End TimeBucketFacts.


(** A row dated after the current month is counted too: in March 2024 a
    window of two months shows under "Feb" an expense of February 2025. *)
Lemma monthly_counts_later_rows :
  Tx.answer (Expense.summary_monthly Tx.no_faults Samples.utc (Js.Date 2024 3 15)
                                     (Some 7) (Some "2"))
            (Tx.idle (Store.mkTables []
                        [Store.mkRow 1 "a" 9 (Js.Date 2025 2 1) "Food" None None None 7]
                        []) 2)
  = Some (Js.Response 200
            (Js.JArr [Expense.bucket_json "month" "Feb" 9;
                      Expense.bucket_json "month" "Mar" 0])).
Proof. reflexivity. Qed.

(** On a server in Kolkata a window of twelve months starts on the last
    day of the month before: in March 2024 an expense of 31 March 2023
    is shown under "Mar", the bucket of March 2024. *)
Lemma monthly_window_starts_a_day_early :
  Tx.answer (Expense.summary_monthly Tx.no_faults Samples.kolkata (Js.Date 2024 3 15)
                                     (Some 7) (Some "12"))
            (Tx.idle (Store.mkTables []
                        [Store.mkRow 1 "a" 9 (Js.Date 2023 3 31) "Food" None None None 7]
                        []) 2)
  = Some (Js.Response 200
            (Js.JArr (map (fun lv => Expense.bucket_json "month" (fst lv) (snd lv))
                          [("Apr", 0); ("May", 0); ("Jun", 0); ("Jul", 0);
                           ("Aug", 0); ("Sep", 0); ("Oct", 0); ("Nov", 0);
                           ("Dec", 0); ("Jan", 0); ("Feb", 0); ("Mar", 9)]))).
Proof. vm_compute. reflexivity. Qed.

(** When the clock is put forward during the range the loop steps by
    twenty-three hours once.  In New York, asked for 9 to 12 March 2024,
    the summary shows the 10th twice, with its 40 in both buckets, and
    not the 12th, whose 60 is in no bucket. *)
Lemma daily_clock_put_forward :
  Tx.answer (Expense.summary_daily Tx.no_faults Samples.new_york_at Samples.new_york
                                   (Some 7) (Some "2024-03-09") (Some "2024-03-12"))
            (Tx.idle Cases.spring_tables 3)
  = Some (Js.Response 200
            (Js.JArr (map (fun lv => Expense.bucket_json "date" (fst lv) (snd lv))
                          [("2024-03-09", 0); ("2024-03-10", 40);
                           ("2024-03-10", 40); ("2024-03-11", 0)])))
  /\ Spec.day_total 7 (Js.Date 2024 3 12) (Store.infodata Cases.spring_tables) = 60.
Proof. split; vm_compute; reflexivity. Qed.


(* ===================================================================== *)
(** * Further properties *)
(* ===================================================================== *)

(** ** [retryOperation], whatever the operation does *)
Section RetryBounds.
Import Db Spec Vocabulary.
Context {W A : Type}.
Variable operation : W -> outcome A * W.

Lemma retry_loop_bounded (remaining : nat) :
  forall (i : Z) (last : option error) (w : W) (log : list Z),
  exists k j,
    (k <= remaining)%nat /\ (j <= k)%nat
    /\ world (retry_loop operation remaining i last w log)
       = world_before operation k w
    /\ slept (retry_loop operation remaining i last w log) = log ++ delays i j.
Proof.
  induction remaining as [|r IH]; intros i last w log.
  - exists 0%nat, 0%nat. cbn [retry_loop]. rewrite app_nil_r.
    destruct last; cbn; auto.
  - cbn [retry_loop]. destruct (operation w) as [o w'] eqn:Hop.
    destruct o as [a|e|].
    + exists 1%nat, 0%nat. cbn. rewrite Hop, app_nil_r. repeat split; auto; lia.
    + destruct (is_user_limit e).
      * destruct (IH (i + 1) (Some e) w' (log ++ [1000 * (i + 1)]))
          as (k & j & Hk & Hj & Hw & Hs).
        exists (S k), (S j). repeat split; try lia.
        -- rewrite Hw. cbn [world_before]. now rewrite Hop.
        -- rewrite Hs, delays_succ, <- app_assoc. reflexivity.
      * exists 1%nat, 0%nat. cbn. rewrite Hop, app_nil_r. repeat split; auto; lia.
    + exists 1%nat, 0%nat. cbn. rewrite Hop, app_nil_r. repeat split; auto; lia.
Qed.

(** [retryOperation] runs the operation at most [maxRetries] times and
    awaits at most one delay per run, the delays being 1000, 2000, ...
    milliseconds in this order; with [maxRetries] at most 0 it does not
    run the operation at all and rejects with [undefined]. *)
Theorem retryOperation_runs_at_most_maxRetries (maxRetries : Z) (w : W) :
  (exists k j,
      (k <= Z.to_nat maxRetries)%nat /\ (j <= k)%nat
      /\ world (retryOperation operation maxRetries w) = world_before operation k w
      /\ slept (retryOperation operation maxRetries w) = linear_backoff j)
  /\ (maxRetries <= 0 ->
      retryOperation operation maxRetries w = Run RejectedUndefined w []).
Proof.
  unfold retryOperation. split.
  - destruct (retry_loop_bounded (Z.to_nat maxRetries) 0 None w [])
      as (k & j & Hk & Hj & Hw & Hs).
    exists k, j. rewrite Hs, delays_linear. auto.
  - intros Hn. replace (Z.to_nat maxRetries) with 0%nat by lia. reflexivity.
Qed.
End RetryBounds.

(** ** [verifyToken]: what it reads of the header *)
Section HeaderFacts.
Import Js Db Store Tx Auth Spec Vocabulary.
Variable SECRET_KEY : string.
Variable jwt_verify : string -> string -> claims + error.

Lemma str_app_nil_r (s : string) : (s ++ "")%string = s.
Proof. induction s as [|c s IH]; cbn; [|rewrite IH]; reflexivity. Qed.

Lemma str_app_assoc (a b c : string) :
  ((a ++ b) ++ c)%string = (a ++ (b ++ c))%string.
Proof. induction a as [|x a IH]; cbn; [|rewrite IH]; reflexivity. Qed.

Lemma split_acc_word (a : string) :
  forall cur b,
    no_space a = true ->
    split_acc space cur (a ++ String space b)
    = (cur ++ a)%string :: split_acc space EmptyString b.
Proof.
  induction a as [|c a IH]; intros cur b Ha.
  - cbn. now rewrite str_app_nil_r.
  - cbn [no_space] in Ha. apply andb_prop in Ha. destruct Ha as [Hc Ha].
    apply negb_true_iff in Hc. cbn [append split_acc]. rewrite Hc.
    rewrite IH by exact Ha. f_equal.
    now rewrite str_app_assoc.
Qed.

Lemma split_acc_last (a : string) :
  forall cur, no_space a = true -> split_acc space cur a = [(cur ++ a)%string].
Proof.
  induction a as [|c a IH]; intros cur Ha.
  - cbn. now rewrite str_app_nil_r.
  - cbn [no_space] in Ha. apply andb_prop in Ha. destruct Ha as [Hc Ha].
    apply negb_true_iff in Hc. cbn [split_acc]. rewrite Hc.
    rewrite IH by exact Ha. now rewrite str_app_assoc.
Qed.

(** The second word of a header, followed or not by more words. *)
Lemma presented_token_second_word (scheme tok : string) (more : option string) :
  no_space scheme = true -> no_space tok = true -> tok <> "" ->
  presented_token
    (Some (scheme ++ " " ++ tok
           ++ match more with Some x => " " ++ x | None => "" end)%string)
  = Some tok.
Proof.
  intros Hs Ht Hne. unfold presented_token, split.
  change (" " ++ tok ++ match more with Some x => " " ++ x | None => "" end)%string
    with (String space (tok ++ match more with Some x => " " ++ x | None => "" end)).
  rewrite split_acc_word by exact Hs.
  destruct more as [x|].
  - change (" " ++ x)%string with (String space x).
    rewrite split_acc_word by exact Ht. cbn [nth_error append].
    apply truthy_str_nonempty in Hne. now rewrite Hne.
  - rewrite str_app_nil_r, split_acc_last by exact Ht. cbn [nth_error append].
    apply truthy_str_nonempty in Hne. now rewrite Hne.
Qed.

(** [verifyToken] reads the second word of the header and nothing else:
    the scheme in front of it is not compared with "Bearer" and whatever
    follows it is dropped.  Any header whose second word is a token that
    verifies is let through. *)
Theorem verifyToken_ignores_scheme (scheme tok : string) (more : option string) :
  no_space scheme = true -> no_space tok = true -> tok <> "" ->
  verifyToken SECRET_KEY jwt_verify
    (Some (scheme ++ " " ++ tok
           ++ match more with Some x => " " ++ x | None => "" end)%string)
  = match jwt_verify tok SECRET_KEY with
    | inl decoded => Next decoded
    | inr e => Answered (Response 403 (error_details (rejection_message e) e))
    end.
Proof.
  intros Hs Ht Hne.
  pose proof (presented_token_second_word scheme tok more Hs Ht Hne) as Hp.
  unfold presented_token in Hp. unfold verifyToken, rejection_message.
  set (h := (scheme ++ " " ++ tok
             ++ match more with Some x => " " ++ x | None => "" end)%string) in *.
  assert (Hh : truthy_str h = true).
  { subst h. destruct scheme; reflexivity. }
  rewrite Hh. cbn [negb].
  destruct (nth_error (split space h) 1) as [t|]; [|discriminate].
  destruct (truthy_str t); [|discriminate].
  injection Hp as ->. cbn [negb].
  destruct (jwt_verify tok SECRET_KEY) as [d|e]; [reflexivity|].
  destruct (String.eqb (err_name e) "TokenExpiredError"); reflexivity.
Qed.
End HeaderFacts.

Lemma verifyToken_ignores_scheme_witness :
  Auth.verifyToken "k" Samples.verify_as_1 (Some "Basic abc trailing")
  = Auth.Next (Auth.Claims (Some 1) None).
Proof.
  exact (verifyToken_ignores_scheme "k" Samples.verify_as_1 "Basic" "abc"
           (Some "trailing") eq_refl eq_refl ltac:(discriminate)).
Defined.

(** ** [POST /auth/login] and the refresh token it stores *)
Section LoginFacts.
Import Js Db Store Tx Auth Spec Vocabulary.
Variables SECRET_KEY REFRESH_KEY : string.
Variable jwt_verify : string -> string -> claims + error.
Variable jwt_sign : claims -> string -> string -> Z -> string.
Variable bcrypt_compare : string -> string -> bool.

Lemma update_where_sans_refresh_token (p : User -> bool) (rt : string) (l : list User) :
  map sans_refresh_token (update_where p (with_refresh_token rt) l)
  = map sans_refresh_token l.
Proof.
  unfold update_where. rewrite map_map. apply map_ext. intros u.
  destruct (p u); reflexivity.
Qed.

Lemma filter_email_update_where (em : string) (p : User -> bool) (rt : string)
      (l : list User) :
  filter (fun u => String.eqb (email u) em) (update_where p (with_refresh_token rt) l)
  = update_where p (with_refresh_token rt)
      (filter (fun u => String.eqb (email u) em) l).
Proof.
  unfold update_where. induction l as [|u l IH]; [reflexivity|].
  cbn [map filter].
  assert (He : email (if p u then with_refresh_token rt u else u) = email u)
    by (destruct (p u); reflexivity).
  rewrite He. destruct (String.eqb (email u) em); cbn [map]; now rewrite IH.
Qed.

(** What a login that goes through does. *)
Lemma login_runs (em pw : string) (now : Z) (w : world) (user : User)
      (rest : list User) :
  em <> "" -> pw <> "" ->
  filter (fun u => String.eqb (email u) em) (users (db w)) = user :: rest ->
  bcrypt_compare (trim pw) (password user) = true ->
  answer (login SECRET_KEY REFRESH_KEY jwt_sign bcrypt_compare no_faults
                (Some em) (Some pw) now) w
  = Some (Response 200
            (JObj [("message", JStr "Login successful");
                   ("token", JStr (jwt_sign (Claims (Some (u_id user))
                                                    (Some (email user)))
                                            SECRET_KEY "365d" now));
                   ("refreshToken",
                    JStr (jwt_sign (Claims (Some (u_id user)) None)
                                   REFRESH_KEY "730d" now));
                   ("user", safeUser user)]))
  /\ db (after (login SECRET_KEY REFRESH_KEY jwt_sign bcrypt_compare no_faults
                      (Some em) (Some pw) now) w)
     = set_users
         (update_where (fun u => u_id u =? u_id user)
            (with_refresh_token (jwt_sign (Claims (Some (u_id user)) None)
                                          REFRESH_KEY "730d" now)))
         (db w)
  /\ tx (after (login SECRET_KEY REFRESH_KEY jwt_sign bcrypt_compare no_faults
                      (Some em) (Some pw) now) w) = tx w.
Proof.
  intros Hem Hpw Hf Hc.
  apply truthy_str_nonempty in Hem. apply truthy_str_nonempty in Hpw.
  unfold login, answer, after. rewrite Hem, Hpw. cbn [negb orb].
  tx_unfold. unfold no_faults. tx_simpl. rewrite Hf, Hc. cbn [negb].
  tx_simpl. repeat split.
Qed.

(** What the refresh route answers on a given table of users. *)
Lemma refresh_runs (rt : string) (now : Z) (w : world) (uid : Z) :
  rt <> "" ->
  jwt_verify rt REFRESH_KEY = inl (Claims (Some uid) None) ->
  answer (refresh_token_route SECRET_KEY REFRESH_KEY jwt_verify jwt_sign no_faults
            (Some rt) now) w
  = Some match filter (fun u => match refresh_token u with
                                | Some stored => (u_id u =? uid) && String.eqb stored rt
                                | None => false
                                end) (users (db w)) with
         | [] => Response 401 (error_body "Invalid refresh token")
         | user :: _ =>
             Response 200
               (JObj [("token",
                       JStr (jwt_sign (Claims (Some (u_id user)) (Some (email user)))
                                      SECRET_KEY "365d" now))])
         end.
Proof.
  intros Hne Hv. apply truthy_str_nonempty in Hne.
  unfold refresh_token_route, answer. rewrite Hne. cbn [negb].
  tx_unfold. rewrite Hv. unfold no_faults. tx_simpl. cbn [userId].
  match goal with |- context [filter ?p (users (db w))] =>
    destruct (filter p (users (db w))) end; reflexivity.
Qed.

(** A login stores the refresh token it answers with, so that this token
    is accepted by [POST /auth/refresh-token]; a later login of the same
    user stores another one, and from then on the earlier token is
    refused with 401.  (For a token library whose [verify] gives back
    what [sign] was given for this token.) *)
Theorem login_rotates_refresh_token (em pw : string) (now1 now2 now3 : Z)
        (w : world) (user : User) (rest : list User) :
  jwt_verify (jwt_sign (Claims (Some (u_id user)) None) REFRESH_KEY "730d" now1)
             REFRESH_KEY
  = inl (Claims (Some (u_id user)) None) ->
  jwt_sign (Claims (Some (u_id user)) None) REFRESH_KEY "730d" now1 <> "" ->
  em <> "" -> pw <> "" ->
  filter (fun u => String.eqb (email u) em) (users (db w)) = user :: rest ->
  bcrypt_compare (trim pw) (password user) = true ->
  jwt_sign (Claims (Some (u_id user)) None) REFRESH_KEY "730d" now1
  <> jwt_sign (Claims (Some (u_id user)) None) REFRESH_KEY "730d" now2 ->
  (exists r,
      answer (refresh_token_route SECRET_KEY REFRESH_KEY jwt_verify jwt_sign no_faults
                (Some (jwt_sign (Claims (Some (u_id user)) None) REFRESH_KEY "730d" now1))
                now3)
             (after (login SECRET_KEY REFRESH_KEY jwt_sign bcrypt_compare no_faults
                           (Some em) (Some pw) now1) w) = Some r
      /\ status r = 200)
  /\ answer (refresh_token_route SECRET_KEY REFRESH_KEY jwt_verify jwt_sign no_faults
               (Some (jwt_sign (Claims (Some (u_id user)) None) REFRESH_KEY "730d" now1))
               now3)
            (after (login SECRET_KEY REFRESH_KEY jwt_sign bcrypt_compare no_faults
                          (Some em) (Some pw) now2)
                   (after (login SECRET_KEY REFRESH_KEY jwt_sign bcrypt_compare no_faults
                                 (Some em) (Some pw) now1) w))
     = Some (Response 401 (error_body "Invalid refresh token")).
Proof.
  intros Hrt Hne Hem Hpw Hf Hc Hdiff.
  set (rt1 := jwt_sign (Claims (Some (u_id user)) None) REFRESH_KEY "730d" now1) in *.
  set (rt2 := jwt_sign (Claims (Some (u_id user)) None) REFRESH_KEY "730d" now2) in *.
  destruct (login_runs em pw now1 w user rest Hem Hpw Hf Hc) as (_ & Hdb1 & _).
  fold rt1 in Hdb1.
  set (w1 := after (login SECRET_KEY REFRESH_KEY jwt_sign bcrypt_compare no_faults
                          (Some em) (Some pw) now1) w) in *.
  assert (Hin : In user (users (db w))) by (apply (filter_cons_In _ _ _ _ Hf)).
  split.
  - rewrite (refresh_runs rt1 now3 w1 (u_id user) Hne Hrt).
    match goal with |- context [filter ?p (users (db w1))] =>
      set (p0 := p); destruct (filter p0 (users (db w1))) as [|u l] eqn:Hfl end.
    + exfalso. rewrite Hdb1 in Hfl. cbn [users set_users] in Hfl.
      apply (proj1 (filter_nil_iff p0 _)) with (x := with_refresh_token rt1 user) in Hfl.
      * unfold p0 in Hfl. cbn in Hfl.
        rewrite Z.eqb_refl, String.eqb_refl in Hfl. discriminate.
      * unfold update_where. apply in_map_iff. exists user. split; auto.
        now rewrite Z.eqb_refl.
    + eexists. split; reflexivity.
  - assert (Hf1 : filter (fun u => String.eqb (email u) em) (users (db w1))
                  = with_refresh_token rt1 user
                    :: update_where (fun u => u_id u =? u_id user)
                         (with_refresh_token rt1) rest).
    { rewrite Hdb1. cbn [users set_users].
      rewrite filter_email_update_where, Hf. unfold update_where. cbn [map].
      now rewrite Z.eqb_refl. }
    destruct (login_runs em pw now2 w1 (with_refresh_token rt1 user) _ Hem Hpw Hf1 Hc)
      as (_ & Hdb2 & _).
    cbn [u_id with_refresh_token] in Hdb2. fold rt2 in Hdb2.
    set (w2 := after (login SECRET_KEY REFRESH_KEY jwt_sign bcrypt_compare no_faults
                            (Some em) (Some pw) now2) w1) in *.
    rewrite (refresh_runs rt1 now3 w2 (u_id user) Hne Hrt).
    match goal with |- context [filter ?p (users (db w2))] =>
      set (p0 := p); destruct (filter p0 (users (db w2))) as [|u l] eqn:Hfl end;
      [reflexivity|].
    exfalso. apply filter_cons_In in Hfl. destruct Hfl as [Hu Hp].
    rewrite Hdb2 in Hu. cbn [users set_users] in Hu.
    unfold update_where in Hu. apply in_map_iff in Hu.
    destruct Hu as (u0 & Hu0 & _). unfold p0 in Hp.
    destruct (u_id u0 =? u_id user) eqn:Hid; subst u.
    + cbn in Hp. apply andb_prop in Hp. destruct Hp as [_ Hp].
      apply String.eqb_eq in Hp. congruence.
    + destruct (refresh_token u0); [|discriminate].
      apply andb_prop in Hp. destruct Hp as [Hp _]. congruence.
Qed.

(** A login writes nothing but refresh tokens: the ledger and the
    categories are untouched and every user row keeps all its other
    columns, whatever the input and whatever call to the driver fails;
    and any answer other than 200 leaves the whole database as it was. *)
Theorem login_writes_refresh_token_only (faults : nat -> option error)
        (b_email b_password : option string) (now : Z) (w : world) :
  infodata (db (after (login SECRET_KEY REFRESH_KEY jwt_sign bcrypt_compare faults
                             b_email b_password now) w)) = infodata (db w)
  /\ categories (db (after (login SECRET_KEY REFRESH_KEY jwt_sign bcrypt_compare faults
                                  b_email b_password now) w)) = categories (db w)
  /\ map sans_refresh_token
         (users (db (after (login SECRET_KEY REFRESH_KEY jwt_sign bcrypt_compare faults
                                  b_email b_password now) w)))
     = map sans_refresh_token (users (db w))
  /\ exists r,
      answer (login SECRET_KEY REFRESH_KEY jwt_sign bcrypt_compare faults
                    b_email b_password now) w = Some r
      /\ (status r <> 200 ->
          db (after (login SECRET_KEY REFRESH_KEY jwt_sign bcrypt_compare faults
                           b_email b_password now) w) = db w).
Proof.
  unfold login, answer, after.
  destruct b_email as [em|], b_password as [pw|];
    try (cbn; repeat split; eexists; split; [reflexivity|reflexivity]).
  destruct (negb (truthy_str em) || negb (truthy_str pw));
    [cbn; repeat split; eexists; split; [reflexivity|reflexivity]|].
  tx_unfold.
  tx_fault faults;
    [cbn; repeat split; eexists; split; [reflexivity|reflexivity]|].
  destruct (filter (fun u => String.eqb (email u) em) (users (db w))) as [|user rest];
    [cbn; repeat split; eexists; split; [reflexivity|reflexivity]|].
  destruct (negb (bcrypt_compare (trim pw) (password user)));
    [cbn; repeat split; eexists; split; [reflexivity|reflexivity]|].
  tx_fault faults;
    [cbn; repeat split; eexists; split; [reflexivity|reflexivity]|].
  cbn [fst snd]. tx_simpl. repeat split.
  - apply (update_where_sans_refresh_token _
             (jwt_sign (Claims (Some (u_id user)) None) REFRESH_KEY "730d" now)).
  - eexists. split; [reflexivity|]. cbn. intros H. now contradiction H.
Qed.
End LoginFacts.

Lemma login_rotates_refresh_token_witness :
  Tx.answer
    (Auth.refresh_token_route "s" "r" Samples.verify_as_1
       Cases.spell Tx.no_faults (Some "r:1:10") 30)
    (Tx.after (Auth.login "s" "r" Cases.spell Cases.plain_compare Tx.no_faults
                 (Some "a@x.com") (Some "hash") 20)
       (Tx.after (Auth.login "s" "r" Cases.spell Cases.plain_compare Tx.no_faults
                    (Some "a@x.com") (Some "hash") 10)
          (Tx.idle (Store.mkTables [Samples.alice] [] []) 1)))
  = Some (Js.Response 401 (Auth.error_body "Invalid refresh token")).
Proof.
  exact (proj2 (login_rotates_refresh_token "s" "r" Samples.verify_as_1
                  Cases.spell Cases.plain_compare "a@x.com" "hash" 10 20 30
                  (Tx.idle (Store.mkTables [Samples.alice] [] []) 1)
                  Samples.alice [] eq_refl ltac:(discriminate) ltac:(discriminate)
                  ltac:(discriminate) eq_refl eq_refl ltac:(discriminate))).
Defined.

(** ** [POST /auth/signup] *)
Section SignupFacts.
Import Js Db Store Tx Auth Signup Spec Vocabulary.
Variables SECRET_KEY REFRESH_KEY : string.
Variable jwt_sign : claims -> string -> string -> Z -> string.
Variable bcrypt_hash : string -> string -> string.
Variable bcrypt_compare : string -> string -> bool.

Lemma NoDup_snoc {X : Type} (l : list X) (x : X) :
  NoDup l -> ~ In x l -> NoDup (l ++ [x]).
Proof.
  induction 1 as [|a l Ha Hnd IH]; intros Hx; cbn.
  - constructor; [intros []|constructor].
  - constructor.
    + rewrite in_app_iff. cbn. intros [H|[H|[]]]; [contradiction|].
      subst. apply Hx. now left.
    + apply IH. intros H. apply Hx. now right.
Qed.

Lemma filter_eqb_nil_not_In (f : User -> string) (x : string) (us : list User) :
  filter (fun u => String.eqb (f u) x) us = [] -> ~ In x (map f us).
Proof.
  intros Hf Hin. apply in_map_iff in Hin. destruct Hin as (u & Hu & Hin).
  apply (proj1 (filter_nil_iff _ _) Hf) in Hin. rewrite Hu, String.eqb_refl in Hin.
  discriminate.
Qed.

(** Signing up keeps email addresses and phone numbers unique, writes
    nothing to the ledger or the categories, and leaves the database
    untouched unless it answers 200: whatever the input and whatever
    call to the driver fails. *)
Theorem signup_keeps_contacts_unique (faults : nat -> option error)
        (insertId : Z) (salt : string) (file : option string)
        (b_first_name b_last_name b_email b_phone_number b_password : option string)
        (w : world) :
  unique_contacts (users (db w)) ->
  unique_contacts
    (users (db (after (signup faults bcrypt_hash insertId salt file b_first_name
                              b_last_name b_email b_phone_number b_password) w)))
  /\ infodata (db (after (signup faults bcrypt_hash insertId salt file b_first_name
                                 b_last_name b_email b_phone_number b_password) w))
     = infodata (db w)
  /\ categories (db (after (signup faults bcrypt_hash insertId salt file b_first_name
                                   b_last_name b_email b_phone_number b_password) w))
     = categories (db w)
  /\ exists r,
      answer (signup faults bcrypt_hash insertId salt file b_first_name
                     b_last_name b_email b_phone_number b_password) w = Some r
      /\ (status r <> 200 ->
          db (after (signup faults bcrypt_hash insertId salt file b_first_name
                            b_last_name b_email b_phone_number b_password) w) = db w).
Proof.
  intros Huniq. unfold signup, answer, after.
  destruct b_first_name as [fn|], b_last_name as [ln|], b_email as [em|],
    b_password as [pw|], b_phone_number as [ph|];
    try (cbn; repeat split; try apply Huniq; eexists; split; reflexivity).
  destruct (negb (truthy_str fn) || negb (truthy_str ln) || negb (truthy_str em)
            || negb (truthy_str pw) || negb (truthy_str ph));
    [cbn; repeat split; try apply Huniq; eexists; split; reflexivity|].
  tx_unfold.
  tx_fault faults;
    [cbn; repeat split; try apply Huniq; eexists; split; reflexivity|].
  destruct (filter (fun u => String.eqb (phone_number u) ph) (users (db w)))
    as [|u1 l1] eqn:Hph;
    [|cbn; repeat split; try apply Huniq; eexists; split; reflexivity].
  tx_fault faults;
    [cbn; repeat split; try apply Huniq; eexists; split; reflexivity|].
  destruct (filter (fun u => String.eqb (email u) em) (users (db w)))
    as [|u2 l2] eqn:Hem;
    [|cbn; repeat split; try apply Huniq; eexists; split; reflexivity].
  tx_fault faults;
    [cbn; repeat split; try apply Huniq; eexists; split; reflexivity|].
  cbn [fst snd]. tx_simpl. destruct Huniq as [He Hp]. repeat split.
  - rewrite map_app. cbn [map email]. apply NoDup_snoc; auto.
    now apply filter_eqb_nil_not_In.
  - rewrite map_app. cbn [map phone_number]. apply NoDup_snoc; auto.
    now apply filter_eqb_nil_not_In.
  - eexists. split; [reflexivity|]. cbn. intros H. now contradiction H.
Qed.

(** A phone number already on file is reported before an email address
    already on file. *)
Lemma signup_reports_phone_first (insertId : Z) (salt : string) (file : option string)
      (fn ln em ph pw : string) (w : world) (u : User) (us : list User) :
  fn <> "" -> ln <> "" -> em <> "" -> ph <> "" -> pw <> "" ->
  filter (fun u => String.eqb (phone_number u) ph) (users (db w)) = u :: us ->
  answer (signup no_faults bcrypt_hash insertId salt file (Some fn) (Some ln)
                 (Some em) (Some ph) (Some pw)) w
  = Some (Response 400 (error_body "Phone number already registered")).
Proof.
  intros Hfn Hln Hem Hph Hpw Hf.
  apply truthy_str_nonempty in Hfn, Hln, Hem, Hph, Hpw.
  unfold signup, answer. rewrite Hfn, Hln, Hem, Hph, Hpw. cbn [negb orb].
  tx_unfold. unfold no_faults. tx_simpl. now rewrite Hf.
Qed.

End SignupFacts.

Lemma signup_keeps_contacts_unique_witness :
  Vocabulary.unique_contacts
    (Store.users
       (Tx.db (Tx.after (Signup.signup Tx.no_faults Cases.plain_hash 2 "salt" None
                           (Some "Bob") (Some "B") (Some "b@x.com") (Some "555-2")
                           (Some "secret"))
                        (Tx.idle (Store.mkTables [Samples.alice] [] []) 1)))).
Proof.
  apply (signup_keeps_contacts_unique Cases.plain_hash Tx.no_faults 2 "salt" None
           (Some "Bob") (Some "B") (Some "b@x.com") (Some "555-2") (Some "secret")
           (Tx.idle (Store.mkTables [Samples.alice] [] []) 1)).
  split; (constructor; [intros []|constructor]).
Defined.


Example trim_strips_unicode_space :
  Auth.trim (Cases.nbsp ++ " a b" ++ Cases.bom ++ Cases.nbsp ++ " ")%string = "a b"
  /\ Auth.trim ("secret" ++ Cases.nbsp)%string = "secret"
  /\ Auth.trim "a  b" = "a  b".
Proof. repeat split. Qed.

Example login_refused_after_no_break_space :
  Tx.answer (Auth.login "s" "r" Cases.spell Cases.plain_compare Tx.no_faults
               (Some "b@x.com") (Some ("secret" ++ Cases.nbsp)%string) 5)
            (Tx.after (Signup.signup Tx.no_faults Cases.plain_hash 2 "salt" None
                         (Some "Bob") (Some "B") (Some "b@x.com") (Some "555-2")
                         (Some ("secret" ++ Cases.nbsp)%string))
                      (Tx.idle (Store.mkTables [Samples.alice] [] []) 1))
  = Some (Js.Response 401 (Auth.error_body "Invalid email or password")).
Proof. vm_compute. reflexivity. Qed.

(** ** [getPeriodDates] *)
Section PeriodFacts.
Import Js Db Store Tx Auth Expense Spec Vocabulary.

Lemma midnight_printed (ahead : date -> Z -> Z) (s : date) :
  - 1440 < ahead s 0 < 1440 ->
  toISOString_day ahead s 0 = midnight_utc ahead s.
Proof.
  intros Ha. unfold toISOString_day, utc_day, midnight_utc. cbv zeta.
  destruct (Z.ltb_spec 0 (ahead s 0)).
  - destruct (Z.ltb_spec (0 - ahead s 0 * 60000) 0); [reflexivity|lia].
  - destruct (Z.ltb_spec (0 - ahead s 0 * 60000) 0); [lia|].
    destruct (Z.leb_spec 86400000 (0 - ahead s 0 * 60000)); [lia|reflexivity].
Qed.

Lemma day_end_printed (ahead : date -> Z -> Z) (d : date) :
  - 1440 < ahead d 86399999 < 1440 ->
  toISOString_day ahead d 86399999 = day_end_utc ahead d.
Proof.
  intros Ha. unfold toISOString_day, utc_day, day_end_utc. cbv zeta.
  destruct (Z.ltb_spec (ahead d 86399999) 0).
  - destruct (Z.ltb_spec (86399999 - ahead d 86399999 * 60000) 0); [lia|].
    destruct (Z.leb_spec 86400000 (86399999 - ahead d 86399999 * 60000));
      [reflexivity|lia].
  - destruct (Z.ltb_spec (86399999 - ahead d 86399999 * 60000) 0); [lia|].
    destruct (Z.leb_spec 86400000 (86399999 - ahead d 86399999 * 60000));
      [lia|reflexivity].
Qed.

Lemma midnight_utc_index (ahead : date -> Z -> Z) (s : date) :
  valid_date s = true ->
  valid_date (midnight_utc ahead s) = true
  /\ day_index (midnight_utc ahead s) <= day_index s.
Proof.
  intros Hs. unfold midnight_utc. destruct (0 <? ahead s 0).
  - split; [now apply prev_day_valid|]. pose proof (prev_day_index s Hs). lia.
  - split; [exact Hs|lia].
Qed.

Lemma day_end_utc_index (ahead : date -> Z -> Z) (d : date) :
  valid_date d = true ->
  valid_date (day_end_utc ahead d) = true
  /\ day_index d <= day_index (day_end_utc ahead d).
Proof.
  intros Hd. unfold day_end_utc. destruct (ahead d 86399999 <? 0).
  - split; [now apply next_day_valid|]. pose proof (next_day_index d Hd). lia.
  - split; [exact Hd|lia].
Qed.

(** The named periods start at local midnight of the first day of a
    month: the current one for [thisMonth], two and five months back for
    [last3Months] and [last6Months] (also across the turn of a year),
    and the same month of the year before for [last12Months], which so
    spans thirteen calendar months.  The two bounds are printed in UTC:
    east of Greenwich the start is the last day of the month before, and
    west of it the end is tomorrow; on a server on UTC they are the
    first of the month and today.  With any other name the period
    starts on the UTC day of the call.  No period starts after it
    ends. *)
Theorem getPeriodDates_windows (ahead : date -> Z -> Z) (today : date) (now : Z)
        (period : string) :
  valid_date today = true ->
  (forall d ms, - 1440 < ahead d ms < 1440) ->
  snd (getPeriodDates ahead today now period) = day_end_utc ahead today
  /\ fst (getPeriodDates ahead today now "thisMonth")
     = midnight_utc ahead (Date (year today) (month today) 1)
  /\ (exists s,
         fst (getPeriodDates ahead today now "last3Months") = midnight_utc ahead s
         /\ day s = 1 /\ 1 <= month s <= 12
         /\ month_index today - month_index s = 2)
  /\ (exists s,
         fst (getPeriodDates ahead today now "last6Months") = midnight_utc ahead s
         /\ day s = 1 /\ 1 <= month s <= 12
         /\ month_index today - month_index s = 5)
  /\ fst (getPeriodDates ahead today now "last12Months")
     = midnight_utc ahead (Date (year today - 1) (month today) 1)
  /\ (period <> "thisMonth" -> period <> "last3Months" ->
      period <> "last6Months" -> period <> "last12Months" ->
      fst (getPeriodDates ahead today now period)
      = utc_day (ahead today now) today now)
  /\ (now - ahead today now * 60000 <= 86399999 - ahead today 86399999 * 60000 ->
      date_leb (fst (getPeriodDates ahead today now period))
               (snd (getPeriodDates ahead today now period)) = true)
  /\ ((forall d ms, ahead d ms = 0) -> 0 <= now < 86400000 ->
      snd (getPeriodDates ahead today now period) = today
      /\ fst (getPeriodDates ahead today now "thisMonth")
         = Date (year today) (month today) 1
      /\ fst (getPeriodDates ahead today now "last12Months")
         = Date (year today - 1) (month today) 1
      /\ (period <> "thisMonth" -> period <> "last3Months" ->
          period <> "last6Months" -> period <> "last12Months" ->
          fst (getPeriodDates ahead today now period) = today)).
Proof.
  intros Hv Hzone. pose proof (valid_date_bounds today Hv) as [Hm Hd].
  assert (Hidx : forall k, 0 <= k ->
            let s := first_of_month (year today) (month today - 1 - k) in
            day s = 1 /\ 1 <= month s <= 12
            /\ month_index today - month_index s = k).
  { intros k Hk s. subst s.
    destruct (first_of_month_index (year today) (month today - 1 - k))
      as (Hi & Hmm & Hdd).
    repeat split; try lia. rewrite Hi. unfold month_index. lia. }
  assert (Hfirst : forall s, day s = 1 -> 1 <= month s <= 12 ->
                             month_index s <= month_index today ->
                             valid_date s = true /\ day_index s <= day_index today).
  { intros s Hs1 Hs2 Hs3. split.
    - apply valid_date_intro; try lia.
      pose proof (days_in_month_bounds (year s) (month s)). lia.
    - unfold day_index, month_index in *. lia. }
  assert (H12 : first_of_month (year today - 1) (month today - 1)
                = Date (year today - 1) (month today) 1).
  { unfold first_of_month. f_equal; Z.div_mod_to_equations; lia. }
  assert (H0 : first_of_month (year today) (month today - 1)
               = Date (year today) (month today) 1).
  { unfold first_of_month. f_equal; Z.div_mod_to_equations; lia. }
  assert (Hend : snd (getPeriodDates ahead today now period) = day_end_utc ahead today).
  { unfold getPeriodDates. cbn [snd]. apply day_end_printed, Hzone. }
  assert (Hnamed : forall s, day s = 1 -> 1 <= month s <= 12 ->
                     month_index s <= month_index today ->
                     date_leb (midnight_utc ahead s) (day_end_utc ahead today) = true).
  { intros s Hs1 Hs2 Hs3. destruct (Hfirst s Hs1 Hs2 Hs3) as [Hsv Hsi].
    destruct (midnight_utc_index ahead s Hsv) as [Hv1 Hi1].
    destruct (day_end_utc_index ahead today Hv) as [Hv2 Hi2].
    apply date_leb_index; auto. lia. }
  split; [exact Hend|].
  split; [unfold getPeriodDates; cbn [fst String.eqb]; rewrite H0;
          apply midnight_printed, Hzone|].
  split.
  { exists (first_of_month (year today) (month today - 1 - 2)).
    split; [apply midnight_printed, Hzone|]. exact (Hidx 2 ltac:(lia)). }
  split.
  { exists (first_of_month (year today) (month today - 1 - 5)).
    split; [apply midnight_printed, Hzone|]. exact (Hidx 5 ltac:(lia)). }
  split; [unfold getPeriodDates; cbn [fst]; rewrite H12;
          apply midnight_printed, Hzone|].
  assert (Hother : period <> "thisMonth" -> period <> "last3Months" ->
                   period <> "last6Months" -> period <> "last12Months" ->
                   fst (getPeriodDates ahead today now period)
                   = utc_day (ahead today now) today now).
  { intros N1 N2 N3 N4. unfold getPeriodDates. cbn [fst].
    apply String.eqb_neq in N1, N2, N3, N4. now rewrite N1, N2, N3, N4. }
  split; [exact Hother|]. split.
  - intros Hmono. rewrite Hend. unfold getPeriodDates. cbn [fst].
    destruct (String.eqb period "thisMonth").
    { rewrite H0, (midnight_printed ahead _ (Hzone _ _)).
      apply Hnamed; cbn [day month]; try lia. unfold month_index. cbn [year month]. lia. }
    destruct (String.eqb period "last3Months").
    { rewrite (midnight_printed ahead _ (Hzone _ _)).
      destruct (Hidx 2 ltac:(lia)) as (? & ? & ?). apply Hnamed; auto; lia. }
    destruct (String.eqb period "last6Months").
    { rewrite (midnight_printed ahead _ (Hzone _ _)).
      destruct (Hidx 5 ltac:(lia)) as (? & ? & ?). apply Hnamed; auto; lia. }
    destruct (String.eqb period "last12Months").
    { rewrite H12, (midnight_printed ahead _ (Hzone _ _)).
      apply Hnamed; cbn [day month]; try lia. unfold month_index. cbn [year month]. lia. }
    destruct (day_end_utc_index ahead today Hv) as [Hv2 Hi2].
    pose proof (prev_day_valid today Hv) as Hpv.
    pose proof (prev_day_index today Hv) as Hpi.
    pose proof (next_day_valid today Hv) as Hnv.
    pose proof (next_day_index today Hv) as Hni.
    pose proof (Hzone today now) as Z1. pose proof (Hzone today 86399999) as Z2.
    unfold toISOString_day, utc_day. cbv zeta.
    destruct (Z.ltb_spec (now - ahead today now * 60000) 0).
    { apply date_leb_index; auto. lia. }
    destruct (Z.leb_spec 86400000 (now - ahead today now * 60000)).
    + unfold day_end_utc.
      destruct (Z.ltb_spec (ahead today 86399999) 0); [|lia].
      apply date_leb_index; auto. lia.
    + apply date_leb_index; auto.
  - intros Hutc Hnow.
    assert (Hmid : forall s, midnight_utc ahead s = s).
    { intros s. unfold midnight_utc. now rewrite Hutc. }
    split.
    { rewrite Hend. unfold day_end_utc. now rewrite Hutc. }
    split.
    { transitivity (midnight_utc ahead (Date (year today) (month today) 1));
        [|apply Hmid].
      unfold getPeriodDates; cbn [fst String.eqb]; rewrite H0.
      apply midnight_printed, Hzone. }
    split.
    { transitivity (midnight_utc ahead (Date (year today - 1) (month today) 1));
        [|apply Hmid].
      unfold getPeriodDates; cbn [fst]; rewrite H12.
      apply midnight_printed, Hzone. }
    intros N1 N2 N3 N4. rewrite (Hother N1 N2 N3 N4). unfold utc_day.
    rewrite Hutc. cbv zeta.
    destruct (Z.ltb_spec (now - 0 * 60000) 0); [lia|].
    destruct (Z.leb_spec 86400000 (now - 0 * 60000)); [lia|reflexivity].
Qed.
End PeriodFacts.

Lemma getPeriodDates_windows_witness :
  Expense.getPeriodDates Samples.kolkata (Js.Date 2024 3 15) Samples.noon "thisMonth"
  = (Js.Date 2024 2 29, Js.Date 2024 3 15)
  /\ fst (Expense.getPeriodDates Samples.kolkata (Js.Date 2024 3 15) Samples.noon
                                 "thisMonth")
     = Spec.midnight_utc Samples.kolkata (Js.Date 2024 3 1).
Proof.
  split; [reflexivity|].
  refine (proj1 (proj2
           (getPeriodDates_windows Samples.kolkata (Js.Date 2024 3 15) Samples.noon
              "thisMonth" eq_refl _))).
  intros d ms. unfold Samples.kolkata. lia.
Defined.

Example getPeriodDates_west_of_greenwich :
  Expense.getPeriodDates Samples.five_behind (Js.Date 2024 3 15) Samples.noon
                         "last3Months"
  = (Js.Date 2024 1 1, Js.Date 2024 3 16)
  /\ Expense.getPeriodDates Samples.utc (Js.Date 2024 1 15) Samples.noon "last3Months"
     = (Js.Date 2023 11 1, Js.Date 2024 1 15).
Proof. split; reflexivity. Qed.

(** ** The item routes *)
Section ItemFacts.
Import Js Db Store Tx Auth Expense Items Spec Vocabulary.

Lemma insert_sorted_In {R : Type} (leb : R -> R -> bool) (x y : R) (l : list R) :
  In y (insert_sorted leb x l) <-> y = x \/ In y l.
Proof.
  split; intros H.
  - apply (Permutation_in _ (insert_sorted_perm leb x l)) in H.
    destruct H as [<-|H]; auto.
  - apply (Permutation_in _ (Permutation_sym (insert_sorted_perm leb x l))).
    destruct H as [->|H]; [now left|now right].
Qed.






(** [DELETE /items/:id] answers 200 or 500 and nothing else: also when
    no row carries this identifier, or when the row belongs to someone
    else, it answers 200 as long as the statement runs.  It removes the
    caller's rows with this identifier and no other row, and never
    writes to [users]: deleting a deposit this way leaves the balance
    where it was. *)
Theorem delete_item_is_silent (faults : nat -> option error) (userId : option Z)
        (id : Z) (w : world) :
  (exists r,
      answer (delete_item faults userId id) w = Some r
      /\ (faults (tick w) = None ->
          r = Response 200 (JObj [("message", JStr "Item deleted successfully")])
          /\ infodata (db (after (delete_item faults userId id) w))
             = filter (fun x => negb ((i_id x =? id) && of_user userId x))
                      (infodata (db w)))
      /\ (faults (tick w) <> None ->
          r = Response 500 (error_body "Failed to delete item.")
          /\ infodata (db (after (delete_item faults userId id) w))
             = infodata (db w)))
  /\ users (db (after (delete_item faults userId id) w)) = users (db w)
  /\ categories (db (after (delete_item faults userId id) w)) = categories (db w)
  /\ (forall x, In x (infodata (db w)) ->
                of_user userId x = false \/ i_id x <> id ->
                In x (infodata (db (after (delete_item faults userId id) w)))).
Proof.
  unfold delete_item, answer, after. tx_unfold.
  destruct (faults (tick w)) as [e|] eqn:F; tx_simpl; cbn [fst snd].
  - repeat split; auto. eexists. split; [reflexivity|].
    split; [intros H; discriminate|intros _; split; reflexivity].
  - repeat split; auto.
    + eexists. split; [reflexivity|].
      split; [intros _; split; reflexivity|intros H; now contradiction H].
    + intros x Hx Hkeep. apply filter_In. split; [exact Hx|].
      apply negb_true_iff, andb_false_iff.
      destruct Hkeep as [Hu|Hi]; [now right|left; now apply Z.eqb_neq].
Qed.



End ItemFacts.


Lemma delete_item_is_silent_witness :
  Tx.answer (Items.delete_item Tx.no_faults (Some 8) 1) (Tx.idle Samples.gym_tables 8)
  = Some (Js.Response 200
            (Js.JObj [("message", Js.JStr "Item deleted successfully")]))
  /\ Store.infodata
       (Tx.db (Tx.after (Items.delete_item Tx.no_faults (Some 8) 1)
                        (Tx.idle Samples.gym_tables 8)))
     = Store.infodata Samples.gym_tables.
Proof.
  destruct (delete_item_is_silent Tx.no_faults (Some 8) 1
              (Tx.idle Samples.gym_tables 8)) as [(r & Hr & Hok & _) _].
  destruct (Hok eq_refl) as [-> Hl]. split; [exact Hr|]. rewrite Hl. reflexivity.
Defined.


(** ** The category routes *)
Section CategoryFacts.
Import Js Db Store Tx Auth Expense Items Categories Spec Vocabulary.

Lemma order_by_head {R : Type} (leb : R -> R -> bool) (P : R -> Prop) (l : list R) :
  l <> [] -> Forall P l ->
  exists x rest, order_by leb l = x :: rest /\ P x.
Proof.
  intros Hne Hall. pose proof (order_by_perm leb l) as Hp.
  destruct (order_by leb l) as [|x rest] eqn:Ho.
  - apply Permutation_nil in Hp. contradiction.
  - exists x, rest. split; [reflexivity|].
    rewrite Forall_forall in Hall. apply Hall.
    apply (Permutation_in _ Hp). now left.
Qed.

Lemma filter_set_section_target (userId : option Z) (sec : string) (t : option Z)
      (l : list Row) :
  filter (fun r => String.eqb (section r) sec && of_user userId r)
         (set_section_target userId sec t l)
  = map (with_target t)
        (filter (fun r => String.eqb (section r) sec && of_user userId r) l).
Proof.
  unfold set_section_target, update_where.
  induction l as [|r l IH]; [reflexivity|]. cbn [map filter].
  destruct (String.eqb (section r) sec && of_user userId r) eqn:Hp.
  - cbn [section i_user_id]. 
    assert (Hq : String.eqb (section r) sec
                 && of_user userId
                      (mkRow (i_id r) (title r) (value r) (i_date r) (section r) t
                             (payment_mode r) (notes r) (i_user_id r)) = true)
      by (destruct userId; exact Hp).
    rewrite Hq. cbn [map]. now rewrite IH.
  - rewrite Hp. exact IH.
Qed.

Lemma labelled_own_is_own_or_shared (userId : option Z) (l : string) (c : Category) :
  labelled_own userId l c = true -> labelled_own_or_shared userId l c = true.
Proof.
  unfold labelled_own, labelled_own_or_shared.
  destruct (String.eqb (label c) l); [|discriminate]. cbn [andb].
  destruct (c_user_id c), userId; auto; discriminate.
Qed.

Lemma filter_own_update (userId : option Z) (l : string) (t : option Z)
      (cs : list Category) :
  filter (labelled_own userId l)
         (update_where (labelled_own_or_shared userId l) (set_category_target t) cs)
  = map (set_category_target t) (filter (labelled_own userId l) cs).
Proof.
  unfold update_where. induction cs as [|c cs IH]; [reflexivity|]. cbn [map filter].
  destruct (labelled_own userId l c) eqn:Hown.
  - rewrite (labelled_own_is_own_or_shared _ _ _ Hown).
    change (labelled_own userId l (set_category_target t c))
      with (labelled_own userId l c).
    rewrite Hown. cbn [map]. now rewrite IH.
  - destruct (labelled_own_or_shared userId l c).
    + change (labelled_own userId l (set_category_target t c))
        with (labelled_own userId l c).
      now rewrite Hown.
    + now rewrite Hown.
Qed.

(** After [PUT /items/update-category-target] has answered 200,
    [GET /items/category-target] answers the target just stored, for a
    default category and for a category the user owns. *)
Theorem category_target_round_trip (userId : option Z) (category : string)
        (newTarget : option Z) (w : world) (r : response) :
  answer (update_category_target no_faults userId (Some category) (Some newTarget)) w
  = Some r ->
  status r = 200 ->
  is_default category = true
  \/ filter (labelled_own userId category) (categories (db w)) <> [] ->
  answer (category_target no_faults userId (Some category))
         (after (update_category_target no_faults userId (Some category)
                                        (Some newTarget)) w)
  = Some (Response 200 (JObj [("target", jopt JNum newTarget)])).
Proof.
  unfold update_category_target, category_target, answer, after.
  destruct (truthy_str category) eqn:Hc; cbn [negb]; [|other_status].
  tx_unfold. unfold no_faults. tx_simpl.
  destruct (is_default category) eqn:Hdef; tx_simpl.
  - match goal with |- context [Z.of_nat (List.length ?l) =? 0] =>
      destruct l as [|x xs] eqn:Hf end; [other_status|].
    cbn [List.length]. rewrite Nat2Z.inj_succ.
    destruct (Z.succ (Z.of_nat (List.length xs)) =? 0) eqn:Hz;
      [apply Z.eqb_eq in Hz; lia|].
    cbn [fst snd]. intros _ _ _. tx_simpl.
    rewrite filter_set_section_target, Hf.
    destruct (order_by_head highest_id_first (fun x => target x = newTarget)
                (map (with_target newTarget) (x :: xs)))
      as (y & rest & Ho & Hy); [discriminate| |].
    { apply Forall_forall. intros z Hz'. apply in_map_iff in Hz'.
      destruct Hz' as (z0 & <- & _). reflexivity. }
    rewrite Ho. cbn [map firstn]. now rewrite Hy.
  - match goal with |- context [Z.of_nat (List.length ?l) =? 0] =>
      destruct (Z.of_nat (List.length l) =? 0) end; [other_status|].
    cbn [fst snd]. intros _ _ [Hd|Hown]; [discriminate|]. tx_simpl.
    rewrite filter_own_update.
    destruct (filter (labelled_own userId category) (categories (db w)))
      as [|c cs]; [contradiction|]. reflexivity.
Qed.

(** For a label that is no default category, the update also writes the
    target of every shared category with that label, and counts it: when
    the user owns no category with the label but a shared one carries
    it, the update answers 200, the shared category has the new target
    for everyone, and [GET /items/category-target] still answers 0. *)
Theorem update_category_target_writes_shared (userId : option Z) (category : string)
        (newTarget : option Z) (w : world) (c : Category) :
  category <> "" -> is_default category = false ->
  In c (categories (db w)) -> label c = category -> c_user_id c = None ->
  filter (labelled_own userId category) (categories (db w)) = [] ->
  answer (update_category_target no_faults userId (Some category) (Some newTarget)) w
  = Some (Response 200
            (JObj [("message", JStr "Target updated successfully in categories!")]))
  /\ In (set_category_target newTarget c)
        (categories (db (after (update_category_target no_faults userId (Some category)
                                                       (Some newTarget)) w)))
  /\ answer (category_target no_faults userId (Some category))
            (after (update_category_target no_faults userId (Some category)
                                           (Some newTarget)) w)
     = Some (Response 200 (JObj [("target", JNum 0)])).
Proof.
  intros Hne Hdef Hin Hl Hshared Hnone. apply truthy_str_nonempty in Hne.
  assert (Hm : labelled_own_or_shared userId category c = true).
  { unfold labelled_own_or_shared. now rewrite Hl, String.eqb_refl, Hshared. }
  unfold update_category_target, category_target, answer, after.
  rewrite Hne. cbn [negb]. tx_unfold. unfold no_faults. tx_simpl. rewrite Hdef.
  tx_simpl.
  destruct (filter (labelled_own_or_shared userId category) (categories (db w)))
    as [|x xs] eqn:Hf.
  { apply (proj1 (filter_nil_iff _ _) Hf) in Hin. congruence. }
  cbn [List.length]. rewrite Nat2Z.inj_succ.
  destruct (Z.succ (Z.of_nat (List.length xs)) =? 0) eqn:Hz;
    [apply Z.eqb_eq in Hz; lia|].
  cbn [fst snd]. tx_simpl. split; [reflexivity|]. split.
  - unfold update_where. apply in_map_iff. exists c. now rewrite Hm.
  - rewrite filter_own_update, Hnone. reflexivity.
Qed.

(** A category added with [POST /items/add-category] shows in
    [GET /items/custom-categories] after what was listed before, unless
    its label is the name of a default category: then it is stored and
    never listed. *)
Theorem add_category_then_list (insertId uid : Z) (l lib : string)
        (icon color : option string) (tg : option Z) (w : world) :
  l <> "" -> lib <> "" ->
  answer (add_category no_faults insertId (Some uid) (Some l) icon color tg (Some lib)) w
  = Some (Response 201 (JObj [("message", JStr "Category added successfully!");
                              ("categoryId", JNum insertId)]))
  /\ exists listed,
      answer (custom_categories no_faults (Some uid)) w
      = Some (Response 200 (JArr listed))
      /\ answer (custom_categories no_faults (Some uid))
                (after (add_category no_faults insertId (Some uid) (Some l) icon color
                                     tg (Some lib)) w)
         = Some (Response 200
                   (JArr (listed
                          ++ if is_default l then []
                             else [JObj [("id", JNum insertId); ("label", JStr l);
                                         ("iconName", jopt JStr icon);
                                         ("iconColor", jopt JStr color);
                                         ("target", JNum (num_or_zero tg))]]))).
Proof.
  intros Hl Hlib. apply truthy_str_nonempty in Hl, Hlib.
  unfold add_category, custom_categories, answer, after. rewrite Hl, Hlib.
  cbn [negb orb]. tx_unfold. unfold no_faults. tx_simpl.
  split; [reflexivity|]. eexists. split; [reflexivity|].
  rewrite filter_app, map_app. cbn [filter is_custom_of c_user_id label].
  rewrite Z.eqb_refl. cbn [andb]. destruct (is_default l); reflexivity.
Qed.

(** Deleting a category that has just been added brings [categories]
    back to what it was, and takes with it every ledger row of the user
    whose section is the label: rows that were there before the category
    was added are deleted and counted like any other. *)
Theorem add_then_delete_category (insertId uid : Z) (l lib : string)
        (icon color : option string) (tg : option Z) (w : world) :
  uid <> 0 -> l <> "" -> lib <> "" ->
  (forall c, In c (categories (db w)) -> c_id c <> insertId) ->
  (exists msg,
      answer (delete_custom_category no_faults (fun cs => cs) (Some uid) insertId)
             (after (add_category no_faults insertId (Some uid) (Some l) icon color
                                  tg (Some lib)) w)
      = Some (Response 200
                (JObj [("message", JStr msg);
                       ("deletedTransactionsCount",
                        JNum (Z.of_nat (List.length
                                (filter (in_section uid l) (infodata (db w))))))])))
  /\ categories
       (db (after (delete_custom_category no_faults (fun cs => cs) (Some uid) insertId)
                  (after (add_category no_faults insertId (Some uid) (Some l) icon
                                       color tg (Some lib)) w)))
     = categories (db w)
  /\ infodata
       (db (after (delete_custom_category no_faults (fun cs => cs) (Some uid) insertId)
                  (after (add_category no_faults insertId (Some uid) (Some l) icon
                                       color tg (Some lib)) w)))
     = filter (fun r => negb (in_section uid l r)) (infodata (db w)).
Proof.
  intros Huid Hl Hlib Hfresh.
  apply Z.eqb_neq in Huid. apply truthy_str_nonempty in Hl, Hlib.
  assert (Hold : filter (owns insertId uid) (categories (db w)) = []).
  { apply filter_nil_iff. intros c Hc. unfold owns.
    apply Hfresh in Hc. apply Z.eqb_neq in Hc. now rewrite Hc. }
  assert (Hkeep : filter (fun c => negb (owns insertId uid c)) (categories (db w))
                  = categories (db w)).
  { apply forallb_filter_id. apply forallb_forall. intros c Hc.
    apply (proj1 (filter_nil_iff _ _) Hold) in Hc. now rewrite Hc. }
  assert (Hnew : owns insertId uid
                   (mkCategory insertId l icon color (Some lib)
                               (Some (num_or_zero tg)) (Some uid)) = true).
  { unfold owns. cbn [c_id c_user_id]. now rewrite !Z.eqb_refl. }
  unfold add_category, delete_custom_category, answer, after.
  rewrite Hl, Hlib. cbn [negb orb truthy_onum]. rewrite Huid. cbn [negb].
  tx_unfold. unfold no_faults. tx_simpl.
  rewrite filter_app, Hold. cbn [filter app]. rewrite Hnew. cbn [map label]. tx_simpl.
  rewrite !filter_app, Hold, Hkeep. cbn [filter app]. rewrite Hnew.
  cbn [negb List.length]. tx_simpl.
  change (Z.of_nat 1 =? 0) with false. cbn [fst snd]. tx_simpl.
  rewrite app_nil_r. split; [eexists; reflexivity|]. split; reflexivity.
Qed.
End CategoryFacts.


Lemma category_target_round_trip_witness :
  Tx.answer (Categories.category_target Tx.no_faults (Some 7) (Some "Gym"))
    (Tx.after (Categories.update_category_target Tx.no_faults (Some 7) (Some "Gym")
                 (Some (Some 500)))
              (Tx.idle Samples.gym_tables 8))
  = Some (Js.Response 200 (Js.JObj [("target", Js.JNum 500)])).
Proof.
  apply (category_target_round_trip (Some 7) "Gym" (Some 500)
           (Tx.idle Samples.gym_tables 8)
           (Js.Response 200
              (Js.JObj [("message",
                         Js.JStr "Target updated successfully in categories!")]))).
  - vm_compute. reflexivity.
  - reflexivity.
  - right. vm_compute. discriminate.
Defined.

Lemma update_category_target_writes_shared_witness :
  In (Categories.set_category_target (Some 500) Cases.yoga_shared)
     (Store.categories
        (Tx.db (Tx.after (Categories.update_category_target Tx.no_faults (Some 7)
                            (Some "Yoga") (Some (Some 500)))
                         (Tx.idle Cases.shared_tables 8))))
  /\ Tx.answer (Categories.category_target Tx.no_faults (Some 7) (Some "Yoga"))
       (Tx.after (Categories.update_category_target Tx.no_faults (Some 7)
                    (Some "Yoga") (Some (Some 500)))
                 (Tx.idle Cases.shared_tables 8))
     = Some (Js.Response 200 (Js.JObj [("target", Js.JNum 0)])).
Proof.
  apply (update_category_target_writes_shared (Some 7) "Yoga" (Some 500)
           (Tx.idle Cases.shared_tables 8) Cases.yoga_shared).
  - discriminate.
  - vm_compute. reflexivity.
  - right. left. reflexivity.
  - reflexivity.
  - reflexivity.
  - vm_compute. reflexivity.
Defined.

Lemma add_category_then_list_witness :
  Tx.answer (Categories.custom_categories Tx.no_faults (Some 7))
    (Tx.after (Categories.add_category Tx.no_faults 4 (Some 7) (Some "Food") None None
                 None (Some "fa"))
              (Tx.idle Samples.gym_tables 8))
  = Tx.answer (Categories.custom_categories Tx.no_faults (Some 7))
              (Tx.idle Samples.gym_tables 8).
Proof.
  destruct (add_category_then_list 4 7 "Food" "fa" None None None
              (Tx.idle Samples.gym_tables 8) ltac:(discriminate) ltac:(discriminate))
    as (_ & listed & Hbefore & Hafter).
  rewrite Hafter, Hbefore.
  change (Categories.is_default "Food") with true. cbv iota. now rewrite app_nil_r.
Defined.

Lemma add_then_delete_category_witness :
  Store.infodata
    (Tx.db (Tx.after (Expense.delete_custom_category Tx.no_faults (fun cs => cs)
                        (Some 7) 4)
              (Tx.after (Categories.add_category Tx.no_faults 4 (Some 7) (Some "Food")
                           None None None (Some "fa"))
                        (Tx.idle Samples.gym_tables 8))))
  = filter (fun r => negb (Expense.in_section 7 "Food" r))
           (Store.infodata Samples.gym_tables).
Proof.
  apply (add_then_delete_category 4 7 "Food" "fa" None None None
           (Tx.idle Samples.gym_tables 8)).
  - lia.
  - discriminate.
  - discriminate.
  - intros c [<-|[]]. vm_compute. discriminate.
Defined.


(** ** [PUT /items/:id] under faults *)
Section UpdateFacts.
Import Js Db Store Tx Auth Expense Items Spec Vocabulary.
Variable faults : nat -> option error.

Lemma same_state_refl (w : world) : same_state w w.
Proof. now repeat split. Qed.

Lemma same_state_trans (w1 w2 w3 : world) :
  same_state w1 w2 -> same_state w2 w3 -> same_state w1 w3.
Proof. intros (?&?&?) (?&?&?). repeat split; congruence. Qed.

Lemma same_state_bump (w : world) : same_state (bump w) w.
Proof. now repeat split. Qed.

Lemma call_acts {A : Type} (f : world -> A * world) : acts_as (call faults f) f.
Proof.
  intros w. unfold call. destruct (faults (tick w)).
  - apply same_state_bump.
  - destruct (f w) as [a w']. split; [reflexivity|apply same_state_bump].
Qed.

Lemma retry_loop_acts {A : Type} (op : M A) (F : world -> A * world) :
  acts_as op F -> untimed F ->
  forall n i le w0 w log,
    same_state w0 w -> (n = 0%nat -> le <> None) ->
    match Db.result (retry_loop op n i le w0 log) with
    | Resolved a =>
        a = fst (F w) /\ same_state (Db.world (retry_loop op n i le w0 log)) (snd (F w))
    | Rejected _ => same_state (Db.world (retry_loop op n i le w0 log)) w
    | RejectedUndefined => False
    end.
Proof.
  intros Hop HF. induction n as [|n IH]; intros i le w0 w log Hs Hle.
  - cbn [retry_loop]. destruct le; [exact Hs|]. now apply Hle.
  - cbn [retry_loop]. pose proof (Hop w0) as H0.
    destruct (op w0) as [[a|e|] w1].
    + cbn [Db.result Db.world]. destruct H0 as [-> H1].
      destruct (HF w0 w Hs) as [Ha Hw]. split; [exact Ha|].
      exact (same_state_trans _ _ _ H1 Hw).
    + destruct (is_user_limit e).
      * apply IH; [exact (same_state_trans _ _ _ H0 Hs)|discriminate].
      * cbn [Db.result Db.world]. exact (same_state_trans _ _ _ H0 Hs).
    + contradiction.
Qed.

Lemma retry_acts {A : Type} (op : M A) (F : world -> A * world) :
  acts_as op F -> untimed F -> acts_as (retry op) F.
Proof.
  intros Hop HF w. unfold retry, retryOperation.
  pose proof (retry_loop_acts op F Hop HF (Z.to_nat 3) 0 None w w [] (same_state_refl w)
                ltac:(discriminate)) as H.
  destruct (Db.result (retry_loop op (Z.to_nat 3) 0 None w [])); exact H.
Qed.

Lemma on_tables_untimed {A : Type} (f : tables -> A * tables) : untimed (on_tables f).
Proof.
  intros w1 w2 (Hd & Ht & Ha). unfold on_tables. rewrite Hd, Ht, Ha.
  destruct (tx w2) as [t|].
  - destruct (f t). now repeat split.
  - destruct (f (db w2)). now repeat split.
Qed.

Lemma begin_acts :
  acts_as (bind (getConnection faults) (fun _ => beginTransaction faults))
          (fun w => (tt, mkWorld (db w) (Some (db w)) (auto_inc w) (tick w))).
Proof.
  intros w. unfold bind, getConnection, beginTransaction, call.
  destruct (faults (tick w)); [apply same_state_bump|].
  cbn [tick bump]. destruct (faults (S (tick w))); cbn [fst snd].
  - now repeat split.
  - split; [reflexivity|]. now repeat split.
Qed.

Lemma begin_untimed :
  untimed (fun w => (tt, mkWorld (db w) (Some (db w)) (auto_inc w) (tick w))).
Proof. intros w1 w2 (Hd & Ht & Ha). cbn [fst snd]. now rewrite Hd, Ha. Qed.

Lemma pool_untimed {A : Type} (f : tables -> A * tables) :
  untimed (fun w => let (a, d') := f (db w) in
                    (a, mkWorld d' (tx w) (auto_inc w) (tick w))).
Proof.
  intros w1 w2 (Hd & Ht & Ha). rewrite Hd, Ht, Ha.
  destruct (f (db w2)). now repeat split.
Qed.

Lemma begin_step (w : world) :
  match retry (bind (getConnection faults) (fun _ => beginTransaction faults)) w with
  | (Resolved _, w') => db w' = db w /\ tx w' = Some (db w)
  | (Rejected _, w') => db w' = db w /\ tx w' = tx w
  | (RejectedUndefined, _) => False
  end.
Proof.
  pose proof (retry_acts _ _ begin_acts begin_untimed w) as H.
  destruct (retry _ w) as [[[]|e|] w']; cbn [fst snd] in H.
  - destruct H as (_ & Hd & Ht & _). now split.
  - destruct H as (Hd & Ht & _). now split.
  - exact H.
Qed.

Lemma query_step (f : tables -> tables) (w : world) (t : tables) :
  tx w = Some t ->
  match retry (query faults (fun t => (tt, f t))) w with
  | (Resolved _, w') => db w' = db w /\ tx w' = Some (f t)
  | (Rejected _, w') => db w' = db w
  | (RejectedUndefined, _) => False
  end.
Proof.
  intros Ht. unfold query.
  pose proof (retry_acts _ _ (call_acts (on_tables (fun t => (tt, f t))))
                (on_tables_untimed _) w) as H.
  destruct (retry _ w) as [[[]|e|] w']; cbn [fst snd] in H.
  - destruct H as (_ & H). unfold on_tables in H. rewrite Ht in H.
    destruct H as (Hd & Ht' & _). now split.
  - now destruct H as (Hd & _).
  - exact H.
Qed.

Lemma commit_step (w : world) (t : tables) :
  tx w = Some t ->
  match commit faults w with
  | (Resolved _, w') => db w' = t /\ tx w' = None
  | (Rejected _, w') => db w' = db w
  | (RejectedUndefined, _) => False
  end.
Proof.
  intros Ht. unfold commit.
  match goal with |- context [call faults ?f] =>
    pose proof (call_acts f w) as H; destruct (call faults f w) as [[[]|e|] w'] end;
    cbn [fst snd] in H.
  - destruct H as (_ & H). rewrite Ht in H. destruct H as (Hd & Ht' & _). now split.
  - now destruct H as (Hd & _).
  - exact H.
Qed.

Lemma pool_select_step {A : Type} (f : tables -> A) (w : world) :
  match retry (pool_query faults (fun t => (f t, t))) w with
  | (Resolved a, w') => a = f (db w) /\ db w' = db w /\ tx w' = tx w
  | (Rejected _, w') => db w' = db w /\ tx w' = tx w
  | (RejectedUndefined, _) => False
  end.
Proof.
  unfold pool_query.
  match goal with |- context [call faults ?g] =>
    pose proof (retry_acts _ _ (call_acts g) (pool_untimed (fun t => (f t, t))) w)
      as H end.
  destruct (retry _ w) as [[a|e|] w']; cbn [fst snd] in H.
  - destruct H as (-> & Hd & Ht & _). now repeat split.
  - destruct H as (Hd & Ht & _). now split.
  - exact H.
Qed.

Lemma update_tail (k sel : list Row -> list Row) (resp : list Row -> response)
      (w2 : world) (t2 : tables) :
  tx w2 = Some t2 ->
  match bind (retry (query faults (fun t => (tt, set_infodata k t))))
          (fun _ => bind (commit faults)
             (fun _ => bind (retry (pool_query faults
                                      (fun t => (sel (infodata t), t))))
                         (fun items => ret (resp items)))) w2 with
  | (Resolved r, w') =>
      r = resp (sel (k (infodata t2))) /\ db w' = set_infodata k t2 /\ tx w' = None
  | (Rejected _, w') => db w' = db w2 \/ db w' = set_infodata k t2
  | (RejectedUndefined, _) => False
  end.
Proof.
  intros Ht2. unfold bind at 1.
  pose proof (query_step (set_infodata k) w2 t2 Ht2) as H3.
  destruct (retry _ w2) as [[[]|e3|] w3]; [|now left|contradiction].
  destruct H3 as [Hd3 Ht3]. unfold bind at 1.
  pose proof (commit_step w3 _ Ht3) as H4.
  destruct (commit faults w3) as [[[]|e4|] w4]; [|left; congruence|contradiction].
  destruct H4 as [Hd4 Ht4]. unfold bind at 1.
  pose proof (pool_select_step (fun t => sel (infodata t)) w4) as H5.
  destruct (retry _ w4) as [[items|e5|] w5]; [| |contradiction].
  - destruct H5 as (-> & Hd5 & Ht5). unfold ret. rewrite Hd4.
    repeat split; congruence.
  - destruct H5 as (Hd5 & _). right. congruence.
Qed.

Lemma await_rollback_step (w : world) :
  match await_rollback faults w with
  | (Resolved _, w') => db w' = db w /\ tx w' = None
  | (Rejected e, w') => db w' = db w /\ exists k, faults k = Some e
  | (RejectedUndefined, _) => False
  end.
Proof.
  unfold await_rollback, call. destruct (faults (tick w)) as [e|] eqn:F; cbn.
  - split; [reflexivity|]. now exists (tick w).
  - now split.
Qed.

(** The [catch] of a handler that has its connection: the rollback is
    awaited, then 500 is sent. *)
Lemma catch_step (r : response) (w : world) :
  match bind (await_rollback faults) (fun _ => ret r) w with
  | (Resolved r', w') => r' = r /\ db w' = db w /\ tx w' = None
  | (Rejected e, w') => db w' = db w /\ exists k, faults k = Some e
  | (RejectedUndefined, _) => False
  end.
Proof.
  unfold bind. pose proof (await_rollback_step w) as H.
  destruct (await_rollback faults w) as [[[]|e|] w']; [|exact H|exact H].
  unfold ret. destruct H as [Hd Ht]. now repeat split.
Qed.

Lemma update_item_cases (userId : option Z) (id : Z) (b_title : string)
      (v : Z) (d : date) (b_section : string) (b_target : option Z)
      (pm nt : option string) (w : world) :
  match update_item faults userId id b_title (Some v) (Some d) b_section
                    (option_map Some b_target) pm nt w with
  | (Resolved r, w') =>
      users (db w') = users (db w)
      /\ categories (db w') = categories (db w)
      /\ (tx w' = None \/ tx w' = tx w)
      /\ ((infodata (db w')
           = set_item_fields userId id b_title v d b_section (or_null pm) (or_null nt)
               (match b_target with
                | Some t => set_section_target userId b_section (Some t)
                                               (infodata (db w))
                | None => infodata (db w)
                end)
           /\ tx w' = None
           /\ r = Response 200
                    (JObj [("message", JStr "Items updated successfully");
                           ("updatedItem",
                            JObj [("id", JNum id); ("title", JStr b_title);
                                  ("value", JNum v); ("date", JStr (iso_date d));
                                  ("section", JStr b_section);
                                  ("target", JNum (match b_target with
                                                   | Some t => t
                                                   | None => 0
                                                   end));
                                  ("payment_mode", jopt JStr (or_null pm));
                                  ("notes", jopt JStr (or_null nt));
                                  ("user_id", jopt JNum userId)]);
                           ("sectionItems",
                            JArr (map row_json
                                    (filter (fun r => String.eqb (section r) b_section
                                                      && of_user userId r)
                                            (infodata (db w')))))]))
          \/ ((exists e, r = Response 500 (error_details "Failed to update items" e))
              /\ (infodata (db w') = infodata (db w)
                  \/ infodata (db w')
                     = set_item_fields userId id b_title v d b_section (or_null pm)
                         (or_null nt)
                         (match b_target with
                          | Some t => set_section_target userId b_section (Some t)
                                                         (infodata (db w))
                          | None => infodata (db w)
                          end))))
  | (Rejected e, w') =>
      users (db w') = users (db w)
      /\ categories (db w') = categories (db w)
      /\ (infodata (db w') = infodata (db w)
          \/ infodata (db w')
             = set_item_fields userId id b_title v d b_section (or_null pm) (or_null nt)
                 (match b_target with
                  | Some t => set_section_target userId b_section (Some t)
                                                 (infodata (db w))
                  | None => infodata (db w)
                  end))
      /\ exists k, faults k = Some e
  | (RejectedUndefined, _) => False
  end.
Proof.
  unfold update_item.
  assert (Ht : match option_map Some b_target with Some t => t | None => Some 0 end
               = Some (match b_target with Some t => t | None => 0 end))
    by (destruct b_target; reflexivity).
  rewrite Ht. clear Ht. cbv zeta.
  unfold bind at 1. unfold try_catch at 1. unfold bind at 1.
  pose proof (begin_step w) as H1.
  destruct (retry _ w) as [[[]|e1|] w1]; [| |contradiction].
  2:{ unfold ret. destruct H1 as [H1 H1t]. rewrite H1. repeat split; auto.
      right. split; [now exists e1|now left]. }
  destruct H1 as [Hd1 Ht1]. unfold ret at 1. unfold try_catch.
  destruct b_target as [t|]; cbn [option_map].
  - unfold bind at 1.
    pose proof (query_step (set_infodata (set_section_target userId b_section (Some t)))
                  w1 (db w) Ht1) as H2.
    destruct (retry _ w1) as [[[]|e2|] w2]; [| |contradiction].
    2:{ pose proof (catch_step
                      (Response 500 (error_details "Failed to update items" e2)) w2)
          as Hc.
        destruct (bind _ _ w2) as [[r|e|] w3]; [| |contradiction].
        - destruct Hc as (-> & Hd & Htx). rewrite Hd, H2, Hd1.
          repeat split; auto. right. split; [now exists e2|now left].
        - destruct Hc as (Hd & Hk). rewrite Hd, H2, Hd1. repeat split; auto. }
    destruct H2 as [Hd2 Ht2].
    match goal with |- context [ret (Response 200 (JObj [?a; ?b; _]))] =>
      pose proof (update_tail
                    (set_item_fields userId id b_title v d b_section (or_null pm)
                                     (or_null nt))
                    (filter (fun r => String.eqb (section r) b_section
                                      && of_user userId r))
                    (fun items =>
                       Response 200 (JObj [a; b;
                                           ("sectionItems", JArr (map row_json items))]))
                    w2 _ Ht2) as H3 end.
    cbv beta in H3.
    destruct (bind _ _ w2) as [[r|e|] w3]; [| |contradiction].
    + destruct H3 as (-> & Hd3 & Ht3).
      rewrite Hd3. cbn [users categories infodata set_infodata].
      repeat split; auto.
    + pose proof (catch_step
                    (Response 500 (error_details "Failed to update items" e)) w3)
        as Hc.
      destruct (bind _ _ w3) as [[r|e'|] w4]; [| |contradiction].
      * destruct Hc as (-> & Hd & Htx). rewrite Hd.
        destruct H3 as [H3|H3]; rewrite H3; rewrite ?Hd2, ?Hd1;
          cbn [users categories infodata set_infodata];
          (repeat split; auto); right; (split; [now exists e|]); auto.
      * destruct Hc as (Hd & Hk). rewrite Hd.
        destruct H3 as [H3|H3]; rewrite H3; rewrite ?Hd2, ?Hd1;
          cbn [users categories infodata set_infodata]; repeat split; auto.
  - unfold bind at 1. unfold ret at 1.
    match goal with |- context [ret (Response 200 (JObj [?a; ?b; _]))] =>
      pose proof (update_tail
                    (set_item_fields userId id b_title v d b_section (or_null pm)
                                     (or_null nt))
                    (filter (fun r => String.eqb (section r) b_section
                                      && of_user userId r))
                    (fun items =>
                       Response 200 (JObj [a; b;
                                           ("sectionItems", JArr (map row_json items))]))
                    w1 _ Ht1) as H3 end.
    cbv beta in H3.
    destruct (bind _ _ w1) as [[r|e|] w3]; [| |contradiction].
    + destruct H3 as (-> & Hd3 & Ht3).
      rewrite Hd3. cbn [users categories infodata set_infodata].
      repeat split; auto.
    + pose proof (catch_step
                    (Response 500 (error_details "Failed to update items" e)) w3)
        as Hc.
      destruct (bind _ _ w3) as [[r|e'|] w4]; [| |contradiction].
      * destruct Hc as (-> & Hd & Htx). rewrite Hd.
        destruct H3 as [H3|H3]; rewrite H3; rewrite ?Hd1;
          cbn [users categories infodata set_infodata];
          (repeat split; auto); right; (split; [now exists e|]); auto.
      * destruct Hc as (Hd & Hk). rewrite Hd.
        destruct H3 as [H3|H3]; rewrite H3; rewrite ?Hd1;
          cbn [users categories infodata set_infodata]; repeat split; auto.
Qed.


(** When the edited row comes from another section, it enters the new
    section with the target it had: the answer 200 reports the new
    target for the item, and lists the item in [sectionItems] with its
    old one. *)
Theorem update_item_moved_row_keeps_target (uid id : Z) (b_title : string)
        (v : Z) (d : date) (b_section : string) (t : Z) (pm nt : option string)
        (w : world) (r : response) (old : Row) :
  answer (update_item faults (Some uid) id b_title (Some v) (Some d) b_section
                      (Some (Some t)) pm nt) w = Some r ->
  status r = 200 ->
  In old (infodata (db w)) -> i_id old = id -> i_user_id old = uid ->
  section old <> b_section ->
  exists items,
    body r = JObj [("message", JStr "Items updated successfully");
                   ("updatedItem",
                    JObj [("id", JNum id); ("title", JStr b_title);
                          ("value", JNum v); ("date", JStr (iso_date d));
                          ("section", JStr b_section); ("target", JNum t);
                          ("payment_mode", jopt JStr (or_null pm));
                          ("notes", jopt JStr (or_null nt));
                          ("user_id", JNum uid)]);
                   ("sectionItems", JArr items)]
    /\ In (row_json (mkRow id b_title v d b_section (target old) (or_null pm)
                           (or_null nt) uid)) items.
Proof.
  intros Hr H200 Hin Hid Hu Hsec.
  pose proof (update_item_cases (Some uid) id b_title v d b_section (Some t) pm nt w)
    as H.
  cbn [option_map] in H. unfold answer in Hr.
  destruct (update_item faults (Some uid) id b_title (Some v) (Some d) b_section
                        (Some (Some t)) pm nt w) as [[r'|e|] w'];
    [|discriminate|contradiction].
  cbn [fst] in Hr. injection Hr as ->.
  destruct H as (_ & _ & _ & [(Hl & _ & ->)|((e & ->) & _)]); [|discriminate].
  eexists. split; [reflexivity|].
  apply in_map. apply filter_In. cbn [section i_user_id of_user].
  rewrite String.eqb_refl, Z.eqb_refl. split; [|reflexivity].
  rewrite Hl. unfold set_item_fields, set_section_target, update_where.
  apply in_map_iff. exists old. split.
  - rewrite Hid. unfold of_user. rewrite Hu, !Z.eqb_refl. reflexivity.
  - apply in_map_iff. exists old. split; [|exact Hin].
    apply String.eqb_neq in Hsec. now rewrite Hsec.
Qed.

(** After a 200 with a target, every row of the user in the section
    carries the new target, but for the edited row when it came from
    another section. *)
Theorem update_item_retargets_section (userId : option Z) (id : Z) (b_title : string)
        (v : Z) (d : date) (b_section : string) (t : Z) (pm nt : option string)
        (w : world) (r : response) (row : Row) :
  answer (update_item faults userId id b_title (Some v) (Some d) b_section
                      (Some (Some t)) pm nt) w = Some r ->
  status r = 200 ->
  In row (infodata (db (after (update_item faults userId id b_title (Some v) (Some d)
                                 b_section (Some (Some t)) pm nt) w))) ->
  section row = b_section -> of_user userId row = true ->
  target row = Some t
  \/ (i_id row = id
      /\ exists old, In old (infodata (db w)) /\ i_id old = id
                     /\ section old <> b_section /\ target row = target old).
Proof.
  intros Hr H200.
  pose proof (update_item_cases userId id b_title v d b_section (Some t) pm nt w)
    as H.
  cbn [option_map] in H. unfold answer in Hr. unfold after.
  destruct (update_item faults userId id b_title (Some v) (Some d) b_section
                        (Some (Some t)) pm nt w) as [[r'|e|] w'];
    [|discriminate|contradiction].
  cbn [fst snd] in *. injection Hr as ->.
  destruct H as (_ & _ & _ & [(Hl & _ & _)|((e & ->) & _)]); [|discriminate].
  rewrite Hl.
  unfold set_item_fields, set_section_target, update_where.
  rewrite map_map. intros Hin Hsec Hof. apply in_map_iff in Hin.
  destruct Hin as (r0 & Hrow & Hin).
  destruct (String.eqb (section r0) b_section && of_user userId r0) eqn:P1.
  - left. subst row.
    match goal with |- context [if ?b then _ else _] => destruct b end; reflexivity.
  - destruct ((i_id r0 =? id) && of_user userId r0) eqn:P2.
    + right. apply andb_true_iff in P2. destruct P2 as [Pid Pu].
      apply Z.eqb_eq in Pid. subst row. cbn [i_id target]. split; [exact Pid|].
      exists r0. repeat split; auto.
      rewrite Pu, andb_true_r in P1. now apply String.eqb_neq.
    + subst row. rewrite Hsec, String.eqb_refl, Hof in P1. discriminate.
Qed.
End UpdateFacts.

(** ** [PUT /items/:id] and a single fault *)
Section UpdateFaults.
Import Js Db Store Tx Auth Expense Items Spec Vocabulary.

Ltac run_update He :=
  unfold update_item, answer, after, retry, retryOperation, fault_at, no_faults;
  tx_unfold; change (Z.to_nat 3) with 3%nat;
  repeat (cbn [retry_loop Nat.eqb tick bump db tx
               auto_inc fst snd Db.result Db.world option_map];
          rewrite ?He).

(** One connection-limit error, at any call of the driver but the
    commit, is invisible to the client of [PUT /items/:id]: the answer
    and the tables are those of a run without faults. *)
Theorem update_item_absorbs_limit_error (k : nat) (e : error) (userId : option Z)
        (id : Z) (b_title : string) (v : Z) (d : date) (b_section : string)
        (b_target : option Z) (pm nt : option string) (w : world) :
  is_user_limit e = true -> tick w = 0%nat ->
  k <> (match b_target with Some _ => 4 | None => 3 end)%nat ->
  answer (update_item (fault_at k e) userId id b_title (Some v) (Some d) b_section
                      (option_map Some b_target) pm nt) w
  = answer (update_item no_faults userId id b_title (Some v) (Some d) b_section
                        (option_map Some b_target) pm nt) w
  /\ db (after (update_item (fault_at k e) userId id b_title (Some v) (Some d)
                  b_section (option_map Some b_target) pm nt) w)
     = db (after (update_item no_faults userId id b_title (Some v) (Some d)
                    b_section (option_map Some b_target) pm nt) w).
Proof.
  intros He Htick Hk. destruct w as [d0 t0 a0 n0]. cbn [tick] in Htick. subst n0.
  destruct b_target as [t|].
  - do 7 (destruct k as [|k]; [try (now elim Hk); run_update He; split; reflexivity|]).
    run_update He; split; reflexivity.
  - do 7 (destruct k as [|k]; [try (now elim Hk); run_update He; split; reflexivity|]).
    run_update He; split; reflexivity.
Qed.

(** The commit of [PUT /items/:id] is not retried: an error there, a
    connection-limit error as any other, gives 500 and leaves the tables
    as they were. *)
Theorem update_item_commit_not_retried (e : error) (userId : option Z)
        (id : Z) (b_title : string) (v : Z) (d : date) (b_section : string)
        (b_target : option Z) (pm nt : option string) (w : world) :
  tick w = 0%nat ->
  answer (update_item (fault_at (match b_target with Some _ => 4 | None => 3 end) e)
                      userId id b_title (Some v) (Some d) b_section
                      (option_map Some b_target) pm nt) w
  = Some (Response 500 (error_details "Failed to update items" e))
  /\ db (after (update_item
                  (fault_at (match b_target with Some _ => 4 | None => 3 end) e)
                  userId id b_title (Some v) (Some d) b_section
                  (option_map Some b_target) pm nt) w)
     = db w.
Proof.
  intros Htick. destruct w as [d0 t0 a0 n0]. cbn [tick] in Htick. subst n0.
  destruct b_target as [t|].
  - assert (He : true = true) by reflexivity. run_update He. split; reflexivity.
  - assert (He : true = true) by reflexivity. run_update He. split; reflexivity.
Qed.

(** An error that is no connection-limit error, thrown by the query
    that reads the section back, gives 500 although the update has been
    committed. *)
Theorem update_item_500_after_commit (e : error) (userId : option Z)
        (id : Z) (b_title : string) (v : Z) (d : date) (b_section : string)
        (b_target : option Z) (pm nt : option string) (w : world) :
  is_user_limit e = false -> tick w = 0%nat ->
  answer (update_item (fault_at (match b_target with Some _ => 5 | None => 4 end) e)
                      userId id b_title (Some v) (Some d) b_section
                      (option_map Some b_target) pm nt) w
  = Some (Response 500 (error_details "Failed to update items" e))
  /\ infodata
       (db (after (update_item
                     (fault_at (match b_target with Some _ => 5 | None => 4 end) e)
                     userId id b_title (Some v) (Some d) b_section
                     (option_map Some b_target) pm nt) w))
     = set_item_fields userId id b_title v d b_section (or_null pm) (or_null nt)
         (match b_target with
          | Some t => set_section_target userId b_section (Some t) (infodata (db w))
          | None => infodata (db w)
          end).
Proof.
  intros He Htick. destruct w as [d0 t0 a0 n0]. cbn [tick] in Htick.
  subst n0. destruct b_target as [t|].
  - run_update He. split; reflexivity.
  - run_update He. split; reflexivity.
Qed.
End UpdateFaults.

Example update_item_target_not_a_number :
  Tx.answer (Items.update_item Tx.no_faults (Some 7) 3 "Rope" (Some 9)
               (Some Samples.day1) "Gym" (Some None) (Some "Card") None)
            (Tx.idle Samples.gym_tables 8)
  = Some (Js.Response 400 (Auth.error_body "Target must be a valid number.")).
Proof. reflexivity. Qed.

Example update_item_rollback_rejected :
  Tx.answer (Items.update_item (Vocabulary.fault_from 4 Cases.lost) (Some 7) 3 "Rope"
               (Some 9) (Some Samples.day1) "Gym" (Some (Some 500)) (Some "Card") None)
            (Tx.idle Samples.gym_tables 8)
  = None
  /\ Tx.db (Tx.after (Items.update_item (Vocabulary.fault_from 4 Cases.lost) (Some 7) 3
                        "Rope" (Some 9) (Some Samples.day1) "Gym" (Some (Some 500))
                        (Some "Card") None)
                     (Tx.idle Samples.gym_tables 8))
     = Samples.gym_tables.
Proof. split; vm_compute; reflexivity. Qed.

Lemma update_item_moved_row_keeps_target_witness :
  exists r items,
    Tx.answer (Items.update_item Tx.no_faults (Some 7) 3 "Rope" (Some 9)
                 (Some Samples.day1) "Gym" (Some (Some 500)) (Some "Card") None)
              (Tx.idle Samples.gym_tables 8) = Some r
    /\ Js.body r
       = Js.JObj [("message", Js.JStr "Items updated successfully");
                  ("updatedItem",
                   Js.JObj [("id", Js.JNum 3); ("title", Js.JStr "Rope");
                            ("value", Js.JNum 9);
                            ("date", Js.JStr (Js.iso_date Samples.day1));
                            ("section", Js.JStr "Gym"); ("target", Js.JNum 500);
                            ("payment_mode", Js.jopt Js.JStr (Items.or_null (Some "Card")));
                            ("notes", Js.jopt Js.JStr (Items.or_null None));
                            ("user_id", Js.JNum 7)]);
                  ("sectionItems", Js.JArr items)]
    /\ In (Items.row_json
             (Store.mkRow 3 "Rope" 9 Samples.day1 "Gym" None
                          (Items.or_null (Some "Card")) (Items.or_null None) 7))
          items.
Proof.
  pose (r := match Tx.answer
                     (Items.update_item Tx.no_faults (Some 7) 3 "Rope" (Some 9)
                        (Some Samples.day1) "Gym" (Some (Some 500)) (Some "Card") None)
                     (Tx.idle Samples.gym_tables 8) with
             | Some r => r
             | None => Js.Response 0 Js.JNull
             end).
  destruct (update_item_moved_row_keeps_target Tx.no_faults 7 3 "Rope" 9 Samples.day1
              "Gym" 500 (Some "Card") None (Tx.idle Samples.gym_tables 8) r
              (Samples.gym_row 3 7 "Food" 5)
              ltac:(vm_compute; reflexivity) ltac:(vm_compute; reflexivity)
              ltac:(vm_compute; tauto) eq_refl eq_refl ltac:(discriminate))
    as (items & Hb & Hin).
  exists r, items. split; [vm_compute; reflexivity|]. split; assumption.
Defined.

Lemma update_item_retargets_section_witness :
  Store.target (Vocabulary.with_target (Some 500) (Samples.gym_row 1 7 "Gym" 10)) = Some 500
  \/ (Store.i_id (Vocabulary.with_target (Some 500) (Samples.gym_row 1 7 "Gym" 10)) = 3
      /\ exists old,
          In old (Store.infodata (Tx.db (Tx.idle Samples.gym_tables 8)))
          /\ Store.i_id old = 3 /\ Store.section old <> "Gym"
          /\ Store.target (Vocabulary.with_target (Some 500) (Samples.gym_row 1 7 "Gym" 10))
             = Store.target old).
Proof.
  pose (r := match Tx.answer
                     (Items.update_item Tx.no_faults (Some 7) 3 "Rope" (Some 9)
                        (Some Samples.day1) "Gym" (Some (Some 500)) (Some "Card") None)
                     (Tx.idle Samples.gym_tables 8) with
             | Some r => r
             | None => Js.Response 0 Js.JNull
             end).
  apply (update_item_retargets_section Tx.no_faults (Some 7) 3 "Rope" 9 Samples.day1
           "Gym" 500 (Some "Card") None (Tx.idle Samples.gym_tables 8) r).
  - vm_compute. reflexivity.
  - vm_compute. reflexivity.
  - vm_compute. tauto.
  - reflexivity.
  - reflexivity.
Defined.

Lemma update_item_absorbs_limit_error_witness :
  Tx.answer (Items.update_item (Vocabulary.fault_at 2 Cases.too_many) (Some 7) 3 "Rope"
               (Some 9) (Some Samples.day1) "Gym" (Some (Some 500)) (Some "Card") None)
            (Tx.idle Samples.gym_tables 8)
  = Tx.answer (Items.update_item Tx.no_faults (Some 7) 3 "Rope"
                 (Some 9) (Some Samples.day1) "Gym" (Some (Some 500)) (Some "Card") None)
              (Tx.idle Samples.gym_tables 8).
Proof.
  exact (proj1 (update_item_absorbs_limit_error 2 Cases.too_many (Some 7) 3 "Rope" 9
                  Samples.day1 "Gym" (Some 500) (Some "Card") None
                  (Tx.idle Samples.gym_tables 8) eq_refl eq_refl
                  ltac:(discriminate))).
Defined.

Lemma update_item_commit_not_retried_witness :
  Tx.db (Tx.after (Items.update_item (Vocabulary.fault_at 4 Cases.too_many) (Some 7) 3
                     "Rope" (Some 9) (Some Samples.day1) "Gym" (Some (Some 500))
                     (Some "Card") None)
                  (Tx.idle Samples.gym_tables 8))
  = Samples.gym_tables.
Proof.
  exact (proj2 (update_item_commit_not_retried Cases.too_many (Some 7) 3 "Rope" 9
                  Samples.day1 "Gym" (Some 500) (Some "Card") None
                  (Tx.idle Samples.gym_tables 8) eq_refl)).
Defined.

Lemma update_item_500_after_commit_witness :
  Tx.answer (Items.update_item (Vocabulary.fault_at 5 Cases.lost) (Some 7) 3 "Rope"
               (Some 9) (Some Samples.day1) "Gym" (Some (Some 500)) (Some "Card") None)
            (Tx.idle Samples.gym_tables 8)
  = Some (Js.Response 500 (Auth.error_details "Failed to update items" Cases.lost)).
Proof.
  exact (proj1 (update_item_500_after_commit Cases.lost (Some 7) 3 "Rope" 9
                  Samples.day1 "Gym" (Some 500) (Some "Card") None
                  (Tx.idle Samples.gym_tables 8) eq_refl eq_refl)).
Defined.

(** ** Deposits and the balance routes *)
Section AccountFacts.
Import Js Db Store Tx Auth Expense Profile Account Spec Vocabulary.
Variable toLocaleDateString : date -> string.

Lemma order_by_first {R : Type} (leb : R -> R -> bool) (x : R) (l : list R) :
  In x l ->
  (forall y, In y l -> y = x \/ (leb x y = true /\ leb y x = false)) ->
  exists rest, order_by leb l = x :: rest.
Proof.
  unfold order_by. induction l as [|a l IH]; intros Hin Hall; [contradiction|].
  cbn [fold_right].
  destruct (Hall a (or_introl eq_refl)) as [->|[Hxa Hax]].
  - destruct (fold_right (insert_sorted leb) [] l) as [|b rest] eqn:HS.
    + now exists [].
    + cbn [insert_sorted]. destruct (leb x b) eqn:Hxb; [now eexists|].
      assert (Hbl : In b l).
      { apply (Permutation_in b (order_by_perm leb l)).
        unfold order_by. rewrite HS. now left. }
      destruct (Hall b (or_intror Hbl)) as [->|[Hb _]]; [now eexists|congruence].
  - destruct Hin as [->|Hin]; [congruence|].
    destruct (IH Hin (fun y Hy => Hall y (or_intror Hy))) as (rest & ->).
    cbn [insert_sorted]. rewrite Hax. now eexists.
Qed.

Lemma date_leb_antisym (a b : date) :
  date_leb a b = true -> date_leb b a = true -> date_eqb a b = true.
Proof.
  unfold date_leb, date_eqb. destruct a as [ya ma da], b as [yb mb db0].
  cbn [year month day].
  destruct (Z.ltb_spec ya yb), (Z.ltb_spec yb ya), (Z.eqb_spec ya yb),
    (Z.eqb_spec yb ya), (Z.ltb_spec ma mb), (Z.ltb_spec mb ma), (Z.eqb_spec ma mb),
    (Z.eqb_spec mb ma), (Z.leb_spec da db0), (Z.leb_spec db0 da), (Z.eqb_spec da db0);
    cbn; try reflexivity; try discriminate; lia.
Qed.

(** After a deposit, [GET /profile/balance] shows the new balance, and
    the deposit as the last income transaction when no income row of the
    user is dated later and every row has a smaller identifier.  (For a
    deposit, a balance and a sum that are whole numbers up to [2^53] in
    size, which doubles hold as they are.) *)
Theorem deposit_then_get_balance (as_text : Z -> string) (as_stored : Z -> Z)
        (currentDate : date) (uid a : Z) (w : world)
        (b : option Z) (bs : list (option Z)) :
  uid <> 0 -> 0 < a -> tx w = None ->
  exactly_held a -> exactly_held (num_or_zero b) -> exactly_held (num_or_zero b + a) ->
  balance_rows uid (db w) = b :: bs ->
  (forall r, In r (infodata (db w)) -> is_income_row_of uid r = true ->
             date_leb (i_date r) currentDate = true /\ i_id r < auto_inc w) ->
  answer (get_balance no_faults toLocaleDateString (Some uid))
         (after (add_balance no_faults as_text as_stored currentDate (Some uid)
                             (JNum a)) w)
  = Some (Response 200
            (JObj [("balance", JNum (num_or_zero b + a));
                   ("lastIncomeTransaction",
                    income_json toLocaleDateString
                                (income_row uid a currentDate (auto_inc w)))])).
Proof.
  intros Huid Ha Htx Hsa Hsb Hsum Hb Hrows.
  apply safe_iff in Hsa, Hsb, Hsum.
  destruct (add_balance_runs as_text as_stored currentDate uid a w b bs Huid Ha
              Hsa Hsb Hsum Hb) as (_ & Hdb & _ & Htx').
  apply Z.eqb_neq in Huid.
  set (w' := after (add_balance no_faults as_text as_stored currentDate (Some uid)
                                (JNum a)) w) in *.
  clearbody w'.
  unfold get_balance, answer. cbn [truthy_onum]. rewrite Huid. cbn [negb].
  tx_unfold. unfold no_faults. tx_simpl. rewrite Htx', Hdb. tx_simpl.
  change (balance_rows uid ?t) with (map balance (filter (fun u => u_id u =? uid) (users t))).
  cbn [users].
  change (map balance (filter (fun u => u_id u =? uid)
                              (set_balance uid (num_or_zero b + a) (users (db w)))))
    with (balance_rows uid (set_users (set_balance uid (num_or_zero b + a)) (db w))).
  rewrite balance_rows_set_balance, Hb. cbn [map]. tx_simpl.
  rewrite filter_app. cbn [filter].
  assert (Hnew : is_income_row_of uid (income_row uid a currentDate (auto_inc w)) = true).
  { unfold is_income_row_of, income_row, deposit_row. cbn [i_user_id section].
    now rewrite Z.eqb_refl. }
  rewrite Hnew.
  destruct (order_by_first latest_first (income_row uid a currentDate (auto_inc w))
              (filter (is_income_row_of uid) (infodata (db w))
               ++ [income_row uid a currentDate (auto_inc w)])) as (rest & ->).
  - apply in_or_app. right. now left.
  - intros y Hy. apply in_app_or in Hy. destruct Hy as [Hy|[<-|[]]]; [|now left].
    right. apply filter_In in Hy. destruct Hy as [Hy Hinc].
    destruct (Hrows y Hy Hinc) as [Hd Hid].
    unfold latest_first, income_row, deposit_row. cbn [i_date i_id].
    destruct (date_eqb currentDate (i_date y)) eqn:He.
    + apply date_eqb_eq in He. rewrite <- He.
      assert (Hrefl : date_eqb currentDate currentDate = true) by now apply date_eqb_eq.
      rewrite Hrefl. split; [apply Z.leb_le|apply Z.leb_gt]; lia.
    + destruct (date_eqb (i_date y) currentDate) eqn:He'.
      { apply date_eqb_eq in He'. rewrite He' in He.
        assert (Hrefl : date_eqb currentDate currentDate = true) by now apply date_eqb_eq.
        congruence. }
      split; [exact Hd|].
      destruct (date_leb currentDate (i_date y)) eqn:Hl; [|reflexivity].
      pose proof (date_leb_antisym _ _ Hl Hd). congruence.
  - reflexivity.
Qed.

Lemma set_balance_twice (uid x y : Z) (l : list User) :
  set_balance uid y (set_balance uid x l) = set_balance uid y l.
Proof.
  unfold set_balance, update_where. rewrite map_map. apply map_ext. intros u.
  destruct (u_id u =? uid) eqn:Hu; cbn [u_id]; rewrite Hu; reflexivity.
Qed.

(** Deleting a deposit right after it was made undoes it: the ledger is
    as before and the stored balance is the number it was, provided the
    identifier the deposit got was not in use.  (For a deposit, a
    balance and a sum that are whole numbers up to [2^53] in size;
    beyond, the sum is rounded and the deletion does not give back what
    the deposit added.) *)
Theorem deposit_then_delete (as_text : Z -> string) (as_stored : Z -> Z)
        (currentDate : date) (uid a : Z) (w : world)
        (b : option Z) (bs : list (option Z)) :
  uid <> 0 -> 0 < a -> tx w = None ->
  exactly_held a -> exactly_held (num_or_zero b) -> exactly_held (num_or_zero b + a) ->
  balance_rows uid (db w) = b :: bs ->
  (forall r, In r (infodata (db w)) -> i_id r <> auto_inc w) ->
  answer (delete_income_transaction no_faults as_stored (Some uid) (auto_inc w))
         (after (add_balance no_faults as_text as_stored currentDate (Some uid)
                             (JNum a)) w)
  = Some (Response 200 (JObj [("message", JStr "Deposit entry deleted successfully.")]))
  /\ infodata (db (after (delete_income_transaction no_faults as_stored (Some uid)
                            (auto_inc w))
                         (after (add_balance no_faults as_text as_stored currentDate
                                             (Some uid) (JNum a)) w)))
     = infodata (db w)
  /\ users (db (after (delete_income_transaction no_faults as_stored (Some uid)
                         (auto_inc w))
                      (after (add_balance no_faults as_text as_stored currentDate
                                          (Some uid) (JNum a)) w)))
     = set_balance uid (num_or_zero b) (users (db w))
  /\ stored_balance uid
       (db (after (delete_income_transaction no_faults as_stored (Some uid)
                     (auto_inc w))
                  (after (add_balance no_faults as_text as_stored currentDate
                                      (Some uid) (JNum a)) w)))
     = stored_balance uid (db w).
Proof.
  intros Huid Ha Htx Hsa Hsb Hsum Hb Hfresh.
  apply safe_iff in Hsa, Hsb, Hsum.
  destruct (add_balance_runs as_text as_stored currentDate uid a w b bs Huid Ha
              Hsa Hsb Hsum Hb) as (_ & Hdb & _ & Htx').
  assert (Hback : minus (or_zero (parseFloat (Some (num_or_zero b + a)))) (to_number a)
                  = Num (num_or_zero b)).
  { rewrite (new_balance_safe (Some (num_or_zero b + a)) a Hsa); cbn [num_or_zero].
    - f_equal. lia.
    - exact Hsum.
    - replace (num_or_zero b + a - a) with (num_or_zero b) by lia. exact Hsb. }
  apply Z.eqb_neq in Huid.
  set (w' := after (add_balance no_faults as_text as_stored currentDate (Some uid)
                                (JNum a)) w) in *.
  clearbody w'.
  assert (Hnone : filter (is_income_of (auto_inc w) uid) (infodata (db w)) = []).
  { apply filter_nil_iff. intros r Hr. unfold is_income_of.
    apply Hfresh in Hr. apply Z.eqb_neq in Hr. now rewrite Hr. }
  assert (Hkeep : filter (fun r => negb (is_row_of (auto_inc w) uid r)) (infodata (db w))
                  = infodata (db w)).
  { apply forallb_filter_id. apply forallb_forall. intros r Hr. unfold is_row_of.
    apply Hfresh in Hr. apply Z.eqb_neq in Hr. now rewrite Hr. }
  assert (Hnew1 : is_income_of (auto_inc w) uid
                    (income_row uid a currentDate (auto_inc w)) = true).
  { unfold is_income_of, income_row, deposit_row. cbn [i_id i_user_id section].
    now rewrite !Z.eqb_refl. }
  assert (Hnew2 : is_row_of (auto_inc w) uid
                    (income_row uid a currentDate (auto_inc w)) = true).
  { unfold is_row_of, income_row, deposit_row. cbn [i_id i_user_id].
    now rewrite !Z.eqb_refl. }
  assert (Hb' : forall nb i c,
             balance_rows uid (mkTables (set_balance uid nb (users (db w))) i c)
             = Some nb :: map (fun _ => Some nb) bs).
  { intros nb i c.
    transitivity (balance_rows uid (set_users (set_balance uid nb) (db w)));
      [reflexivity|].
    rewrite balance_rows_set_balance, Hb. reflexivity. }
  unfold delete_income_transaction, answer, after, stored_balance.
  cbn [truthy_onum]. rewrite Huid. cbn [negb]. cbv zeta.
  tx_unfold. unfold no_faults. tx_simpl. rewrite Hdb. tx_simpl.
  rewrite filter_app, Hnone. cbn [filter app]. rewrite Hnew1.
  cbn [map]. change (value (income_row uid a currentDate (auto_inc w))) with a.
  tx_simpl. rewrite !balance_rows_set_infodata, !Hb'. rewrite Hback.
  unfold query_with. tx_unfold. tx_simpl.
  rewrite (stored_of_safe as_stored _ Hsb).
  rewrite filter_app, Hkeep. cbn [filter]. rewrite Hnew2. cbn [negb].
  rewrite app_nil_r. rewrite set_balance_twice.
  rewrite balance_rows_set_balance, balance_rows_set_infodata, Hb', Hb.
  repeat split.
Qed.
End AccountFacts.

Lemma deposit_then_get_balance_witness :
  Tx.answer (Account.get_balance Tx.no_faults Js.iso_date (Some 7))
    (Tx.after (Profile.add_balance Tx.no_faults Js.show (fun z => z) Samples.day1
                 (Some 7) (Js.JNum 5))
              (Tx.idle Samples.income_tables 3))
  = Some (Js.Response 200
            (Js.JObj [("balance", Js.JNum 55);
                      ("lastIncomeTransaction",
                       Account.income_json Js.iso_date
                         (Profile.income_row 7 5 Samples.day1 3))])).
Proof.
  apply (deposit_then_get_balance Js.iso_date Js.show (fun z => z) Samples.day1 7 5
           (Tx.idle Samples.income_tables 3) (Some 50) []).
  - lia.
  - lia.
  - reflexivity.
  - unfold Spec.exactly_held. lia.
  - unfold Spec.exactly_held. cbn [Store.num_or_zero]. lia.
  - unfold Spec.exactly_held. cbn [Store.num_or_zero]. lia.
  - reflexivity.
  - intros r [<-|[<-|[]]] H; [discriminate H|]. split; reflexivity.
Defined.

Lemma deposit_then_delete_witness :
  Store.infodata
    (Tx.db (Tx.after (Profile.delete_income_transaction Tx.no_faults (fun z => z)
                        (Some 7) 3)
              (Tx.after (Profile.add_balance Tx.no_faults Js.show (fun z => z)
                           Samples.day1 (Some 7) (Js.JNum 5))
                        (Tx.idle Samples.income_tables 3))))
  = Store.infodata Samples.income_tables.
Proof.
  refine (proj1 (proj2 (deposit_then_delete Js.show (fun z => z) Samples.day1 7 5
                          (Tx.idle Samples.income_tables 3) (Some 50) []
                          ltac:(lia) ltac:(lia) eq_refl _ _ _ eq_refl _))).
  - unfold Spec.exactly_held. lia.
  - unfold Spec.exactly_held. cbn [Store.num_or_zero]. lia.
  - unfold Spec.exactly_held. cbn [Store.num_or_zero]. lia.
  - intros r [<-|[<-|[]]]; discriminate.
Defined.

Example deposit_then_delete_loses_the_balance :
  Spec.stored_balance 7 (Tx.db (Tx.idle Cases.one_left 8)) = Some 1
  /\ Spec.stored_balance 7
       (Tx.db (Tx.after (Profile.delete_income_transaction Tx.no_faults (fun z => z)
                           (Some 7) 8)
                 (Tx.after (Profile.add_balance Tx.no_faults Js.show (fun z => z)
                              Samples.day1 (Some 7) (Js.JNum 9007199254740992))
                           (Tx.idle Cases.one_left 8))))
     = Some 0.
Proof. split; vm_compute; reflexivity. Qed.

(** ** [GET /items] *)
Section ListingFacts.
Import Js Db Store Tx Auth Expense Items Categories Spec Vocabulary.

Lemma firstn_In {R : Type} (x : R) (n : nat) (l : list R) :
  In x (firstn n l) -> In x l.
Proof.
  revert l. induction n as [|n IH]; intros [|a l]; cbn; try tauto.
  intros [->|H]; [now left|right; now apply IH].
Qed.

Lemma skipn_In {R : Type} (x : R) (n : nat) (l : list R) :
  In x (skipn n l) -> In x l.
Proof.
  revert l. induction n as [|n IH]; intros [|a l]; cbn; try tauto.
  intros H. right. now apply IH.
Qed.

Lemma left_join_In (cs : list Category) (i i' : Row) (c : option Category) :
  In (i', c) (left_join cs i) ->
  i' = i
  /\ match c with
     | None => True
     | Some cat => In cat cs /\ label cat = section i
                   /\ c_user_id cat = Some (i_user_id i)
     end.
Proof.
  unfold left_join.
  destruct (filter _ cs) as [|c0 found] eqn:Hf.
  - intros [[= <- <-]|[]]. now split.
  - rewrite <- Hf. intros H. apply in_map_iff in H.
    destruct H as (cat & [= <- <-] & Hcat). split; [reflexivity|].
    apply filter_In in Hcat. destruct Hcat as [Hin Hp].
    apply andb_true_iff in Hp. destruct Hp as [Hl Hu].
    apply String.eqb_eq in Hl. split; [exact Hin|]. split; [now symmetry|].
    destruct (c_user_id cat) as [u|]; [|discriminate].
    apply Z.eqb_eq in Hu. now subst.
Qed.

(** Whatever the driver does, a page that [GET /items] answers with 200
    has at most [_limit] entries (10 by default), and each entry is a
    ledger row of the caller that passes the filters, joined with
    nothing or with a category of the caller whose label is the row's
    section. *)
Theorem get_items_page_is_own_and_bounded (faults : nat -> option error) (uid : Z)
        (_page _limit category : option string) (fromDate toDate : option date)
        (w : world) (r : response) :
  answer (get_items faults (Some uid) _page _limit category fromDate toDate) w = Some r ->
  status r = 200 ->
  exists rows,
    body r = JArr (map item_json rows)
    /\ Z.of_nat (List.length rows) <= limit_of _limit
    /\ forall i c, In (i, c) rows ->
         In i (infodata (db w)) /\ i_user_id i = uid
         /\ matches uid category fromDate toDate i = true
         /\ match c with
            | None => True
            | Some cat => In cat (categories (db w)) /\ label cat = section i
                          /\ c_user_id cat = Some uid
            end.
Proof.
  unfold get_items, answer. cbn [truthy_onum].
  destruct (uid =? 0); cbn [negb]; [other_status|].
  tx_unfold.
  tx_fault faults; [other_status|].
  tx_fault faults; [other_status|].
  destruct (limit_offset _ _ _) as [rows|] eqn:Hlo; [|other_status].
  cbn [fst]. intros [= <-] _. exists rows. split; [reflexivity|].
  unfold limit_offset in Hlo.
  destruct ((limit_of _limit <? 0) || (offset_of _page _limit <? 0)) eqn:Hneg;
    [discriminate|].
  apply orb_false_iff in Hneg. destruct Hneg as [Hl Ho]. apply Z.ltb_ge in Hl.
  injection Hlo as <-. split.
  - pose proof (firstn_le_length (Z.to_nat (limit_of _limit))
                  (skipn (Z.to_nat (offset_of _page _limit))
                     (order_by newest_first
                        (flat_map (left_join (categories (db w)))
                           (filter (matches uid category fromDate toDate)
                                   (infodata (db w))))))).
    lia.
  - intros i c Hin. apply firstn_In, skipn_In in Hin.
    apply (Permutation_in _ (order_by_perm _ _)) in Hin.
    apply in_flat_map in Hin. destruct Hin as (i0 & Hi0 & Hj).
    apply left_join_In in Hj. destruct Hj as [-> Hc].
    apply filter_In in Hi0. destruct Hi0 as [Hin Hm].
    assert (Hu : i_user_id i0 = uid).
    { unfold matches in Hm. rewrite !andb_true_iff in Hm.
      destruct Hm as [[[Hu _] _] _]. now apply Z.eqb_eq in Hu. }
    repeat split; auto. destruct c as [cat|]; [|exact I]. now rewrite <- Hu.
Qed.

(** [POST /items/add-category] does not look for a category of the same
    label: the second one is stored too, and from then on [GET /items]
    lists a row of that section once for each of them. *)
Theorem duplicate_label_lists_row_twice (id1 id2 uid : Z) (l lib1 lib2 : string)
        (icon1 color1 icon2 color2 : option string) (tg1 tg2 : option Z)
        (w : world) (r : Row) :
  uid <> 0 -> l <> "" -> l <> "All" -> lib1 <> "" -> lib2 <> "" ->
  filter (matches uid (Some l) None None) (infodata (db w)) = [r] ->
  (forall c, In c (categories (db w)) -> label c = l -> c_user_id c <> Some uid) ->
  answer (add_category no_faults id2 (Some uid) (Some l) icon2 color2 tg2 (Some lib2))
         (after (add_category no_faults id1 (Some uid) (Some l) icon1 color1 tg1
                              (Some lib1)) w)
  = Some (Response 201 (JObj [("message", JStr "Category added successfully!");
                              ("categoryId", JNum id2)]))
  /\ answer (get_items no_faults (Some uid) None None (Some l) None None)
            (after (add_category no_faults id2 (Some uid) (Some l) icon2 color2 tg2
                                 (Some lib2))
                   (after (add_category no_faults id1 (Some uid) (Some l) icon1 color1
                                        tg1 (Some lib1)) w))
     = Some (Response 200
               (JArr [item_json (r, Some (mkCategory id1 l icon1 color1 (Some lib1)
                                            (Some (num_or_zero tg1)) (Some uid)));
                      item_json (r, Some (mkCategory id2 l icon2 color2 (Some lib2)
                                            (Some (num_or_zero tg2)) (Some uid)))])).
Proof.
  intros Huid Hl Hall Hlib1 Hlib2 Hrows Hnone.
  assert (Hr : In r (filter (matches uid (Some l) None None) (infodata (db w))))
    by (rewrite Hrows; now left).
  apply filter_In in Hr. destruct Hr as [_ Hm]. unfold matches in Hm.
  rewrite !andb_true_iff in Hm. destruct Hm as [[[Hu Hc] _] _].
  apply Z.eqb_eq in Hu.
  apply truthy_str_nonempty in Hl, Hlib1, Hlib2. apply String.eqb_neq in Hall.
  unfold category_filter in Hc. rewrite Hl, Hall in Hc. cbn [andb negb] in Hc.
  apply String.eqb_eq in Hc.
  assert (Hold : filter (fun c => String.eqb (section r) (label c)
                                  && match c_user_id c with
                                     | Some u => u =? i_user_id r
                                     | None => false
                                     end) (categories (db w)) = []).
  { apply filter_nil_iff. intros c Hin.
    destruct (String.eqb (section r) (label c)) eqn:E; [|reflexivity].
    apply String.eqb_eq in E. cbn [andb].
    destruct (c_user_id c) as [u|] eqn:Ec; [|reflexivity].
    apply Z.eqb_neq. intros ->. apply (Hnone c Hin); congruence. }
  apply Z.eqb_neq in Huid.
  unfold add_category, get_items, answer, after. rewrite Hl, Hlib1, Hlib2.
  cbn [negb orb truthy_onum]. rewrite Huid. cbn [negb].
  tx_unfold. unfold no_faults. tx_simpl. split; [reflexivity|].
  rewrite Hrows. cbn [flat_map]. unfold left_join.
  rewrite <- !app_assoc, filter_app, Hold. cbn [app filter label c_user_id].
  rewrite Hc, Hu, String.eqb_refl, Z.eqb_refl. cbn [andb map app].
  unfold order_by. cbn [fold_right insert_sorted]. unfold newest_first at 1.
  cbn [fst].
  assert (Hd : date_eqb (i_date r) (i_date r) = true) by now apply date_eqb_eq.
  rewrite Hd, Z.leb_refl. reflexivity.
Qed.
End ListingFacts.

Lemma get_items_page_is_own_and_bounded_witness :
  exists r rows,
    Tx.answer (Expense.get_items Tx.no_faults (Some 7) None (Some "2") None None None)
              (Tx.idle Samples.gym_tables 8) = Some r
    /\ Js.body r = Js.JArr (map Expense.item_json rows)
    /\ Z.of_nat (List.length rows) <= 2.
Proof.
  pose (r := match Tx.answer
                     (Expense.get_items Tx.no_faults (Some 7) None (Some "2") None None
                                        None)
                     (Tx.idle Samples.gym_tables 8) with
             | Some r => r
             | None => Js.Response 0 Js.JNull
             end).
  destruct (get_items_page_is_own_and_bounded Tx.no_faults 7 None (Some "2") None None
              None (Tx.idle Samples.gym_tables 8) r
              ltac:(vm_compute; reflexivity) ltac:(vm_compute; reflexivity))
    as (rows & Hb & Hlen & _).
  exists r, rows. split; [vm_compute; reflexivity|]. split; assumption.
Defined.

Lemma duplicate_label_lists_row_twice_witness :
  Tx.answer (Expense.get_items Tx.no_faults (Some 7) None None (Some "Food") None None)
    (Tx.after (Categories.add_category Tx.no_faults 5 (Some 7) (Some "Food") None None
                 None (Some "fa"))
       (Tx.after (Categories.add_category Tx.no_faults 4 (Some 7) (Some "Food") None
                    None None (Some "fa"))
                 (Tx.idle Samples.gym_tables 8)))
  = Some (Js.Response 200
            (Js.JArr
               [Expense.item_json
                  (Samples.gym_row 3 7 "Food" 5,
                   Some (Store.mkCategory 4 "Food" None None (Some "fa")
                           (Some (Store.num_or_zero None)) (Some 7)));
                Expense.item_json
                  (Samples.gym_row 3 7 "Food" 5,
                   Some (Store.mkCategory 5 "Food" None None (Some "fa")
                           (Some (Store.num_or_zero None)) (Some 7)))])).
Proof.
  refine (proj2 (duplicate_label_lists_row_twice 4 5 7 "Food" "fa" "fa" None None None
                   None None None (Tx.idle Samples.gym_tables 8)
                   (Samples.gym_row 3 7 "Food" 5)
                   ltac:(lia) ltac:(discriminate) ltac:(discriminate)
                   ltac:(discriminate) ltac:(discriminate) eq_refl _)).
  intros c [<-|[]] H. discriminate H.
Defined.

(** ** The income listing *)
Section IncomeFacts.
Import Js Db Store Tx Auth Expense Profile Account Spec Vocabulary.
Variable toLocaleDateString : date -> string.



End IncomeFacts.


(** ** The weekly summary *)
Section WeeklyFacts.
Import Js Db Store Tx Auth Expense Weekly Spec Vocabulary.











End WeeklyFacts.


(** On a server in Kolkata the expenses dated today, 155 in all, are in
    no week. *)
Example summary_weekly_east_of_greenwich :
  Tx.answer (Weekly.summary_weekly Tx.no_faults Samples.kolkata Samples.day1
               (Some 7) (Some "2"))
            (Tx.idle Samples.gym_tables 8)
  = Some (Js.Response 200
            (Js.JArr [Weekly.week_json 1 0; Weekly.week_json 2 0])).
Proof. vm_compute. reflexivity. Qed.

(** ** Reading and editing the profile *)
Section ProfileFacts.
Import Js Db Store Tx Auth Expense UserProfile Spec Vocabulary.
Variable faults : nat -> option error.

Lemma filter_is_user_update (userId : option Z) (f : User -> User) (us : list User) :
  (forall u, u_id (f u) = u_id u) ->
  filter (is_user userId) (update_where (is_user userId) f us)
  = map f (filter (is_user userId) us).
Proof.
  intros Hid. unfold update_where. induction us as [|a us IH]; [reflexivity|].
  cbn [map filter]. destruct (is_user userId a) eqn:Ha.
  - assert (Hfa : is_user userId (f a) = true).
    { unfold is_user in *. destruct userId; [|discriminate]. now rewrite Hid. }
    rewrite Hfa. cbn [map]. now rewrite IH.
  - rewrite Ha. exact IH.
Qed.




Lemma NoDup_map_In_eq {K : Type} (key : User -> K) (us : list User) (u v : User) :
  NoDup (map key us) -> In u us -> In v us -> key u = key v ->
  u = v.
Proof.
  induction us as [|a us IH]; intros Hnd Hu Hv Hk; [contradiction|].
  cbn [map] in Hnd. inversion Hnd as [|? ? Hna Hnd']; subst.
  destruct Hu as [->|Hu], Hv as [->|Hv]; auto.
  - exfalso. apply Hna. rewrite Hk. now apply in_map.
  - exfalso. apply Hna. rewrite <- Hk. now apply in_map.
Qed.



End ProfileFacts.

Section ProfileRuns.
Import Js Db Store Tx Auth Expense UserProfile Spec Vocabulary.

Lemma update_profile_runs (userId : option Z) (file fn ln ph em : option string)
      (w : world) (u : User) (rest : list User) :
  filter (is_user userId) (users (db w)) = u :: rest ->
  (forall e, em = Some e -> e <> "" ->
     emailRegex_test e = true
     /\ filter (fun x => String.eqb (email x) e && is_other userId x) (users (db w))
        = []) ->
  (forall p, ph = Some p -> p <> "" ->
     filter (fun x => String.eqb (phone_number x) p && is_other userId x)
            (users (db w)) = []) ->
  assignment fn "first_name" ++ assignment ln "last_name"
  ++ assignment ph "phone_number" ++ assignment em "email"
  ++ assignment file "profile_photo" <> [] ->
  answer (update_profile no_faults userId file fn ln ph em) w
  = Some (Response 200
            (JObj [("message", JStr "Profile updated successfully");
                   ("user",
                    safeUser
                      (set_profile fn ln ph em
                         (match file with
                          | Some filename =>
                              Some (Signup.BASE_URL ++ "/uploads/" ++ filename)%string
                          | None => None
                          end) u))]))
  /\ db (after (update_profile no_faults userId file fn ln ph em) w)
     = set_users
         (update_where (is_user userId)
            (set_profile fn ln ph em
               (match file with
                | Some filename =>
                    Some (Signup.BASE_URL ++ "/uploads/" ++ filename)%string
                | None => None
                end))) (db w)
  /\ tx (after (update_profile no_faults userId file fn ln ph em) w) = None.
Proof.
  intros Hu Hef Hpf Hfields.
  assert (Hlen : Nat.eqb
                   (List.length
                      (assignment fn "first_name" ++ assignment ln "last_name"
                       ++ assignment ph "phone_number" ++ assignment em "email"
                       ++ assignment
                            (match file with
                             | Some filename =>
                                 Some (Signup.BASE_URL ++ "/uploads/" ++ filename)%string
                             | None => None
                             end) "profile_photo")) 0 = false).
  { apply Nat.eqb_neq. intros H0. apply Hfields. apply length_zero_iff_nil.
    rewrite !length_app in *. destruct file; exact H0. }
  assert (Hnz : (Z.of_nat (List.length (u :: rest)) =? 0) = false)
    by (apply Z.eqb_neq; cbn [List.length]; lia).
  assert (Hwrite : forall w1,
            tx w1 = Some (db w) -> db w1 = db w ->
            exists w',
              write_profile no_faults userId file fn ln ph em w1
              = (Resolved
                   (Response 200
                      (JObj [("message", JStr "Profile updated successfully");
                             ("user",
                              safeUser
                                (set_profile fn ln ph em
                                   (match file with
                                    | Some filename =>
                                        Some (Signup.BASE_URL ++ "/uploads/"
                                              ++ filename)%string
                                    | None => None
                                    end) u))])), w')
              /\ db w'
                 = set_users
                     (update_where (is_user userId)
                        (set_profile fn ln ph em
                           (match file with
                            | Some filename =>
                                Some (Signup.BASE_URL ++ "/uploads/" ++ filename)%string
                            | None => None
                            end))) (db w)
              /\ tx w' = None).
  { intros w1 Htx1 Hdb1. unfold write_profile. tx_unfold. unfold no_faults.
    rewrite Hlen.
    destruct file as [filename|]; tx_simpl; rewrite Htx1; tx_simpl;
      rewrite Hu, Hnz; tx_simpl;
      rewrite filter_is_user_update by reflexivity; rewrite Hu; cbn [map];
      eexists; repeat split. }
  assert (Hphone : forall w1,
            tx w1 = Some (db w) -> db w1 = db w ->
            exists w',
              check_phone no_faults userId file fn ln ph em w1
              = (Resolved
                   (Response 200
                      (JObj [("message", JStr "Profile updated successfully");
                             ("user",
                              safeUser
                                (set_profile fn ln ph em
                                   (match file with
                                    | Some filename =>
                                        Some (Signup.BASE_URL ++ "/uploads/"
                                              ++ filename)%string
                                    | None => None
                                    end) u))])), w')
              /\ db w'
                 = set_users
                     (update_where (is_user userId)
                        (set_profile fn ln ph em
                           (match file with
                            | Some filename =>
                                Some (Signup.BASE_URL ++ "/uploads/" ++ filename)%string
                            | None => None
                            end))) (db w)
              /\ tx w' = None).
  { intros w1 Htx1 Hdb1. unfold check_phone.
    destruct ph as [p|]; [|now apply Hwrite].
    destruct (truthy_str p) eqn:Hp; [|now apply Hwrite].
    apply truthy_str_nonempty in Hp.
    unfold select, query, call, on_tables, bind, no_faults. rewrite Htx1.
    rewrite (Hpf p eq_refl Hp). now apply Hwrite. }
  assert (Hall : exists w',
            update_profile no_faults userId file fn ln ph em w
            = (Resolved
                 (Response 200
                    (JObj [("message", JStr "Profile updated successfully");
                           ("user",
                            safeUser
                              (set_profile fn ln ph em
                                 (match file with
                                  | Some filename =>
                                      Some (Signup.BASE_URL ++ "/uploads/"
                                            ++ filename)%string
                                  | None => None
                                  end) u))])), w')
            /\ db w'
               = set_users
                   (update_where (is_user userId)
                      (set_profile fn ln ph em
                         (match file with
                          | Some filename =>
                              Some (Signup.BASE_URL ++ "/uploads/" ++ filename)%string
                          | None => None
                          end))) (db w)
            /\ tx w' = None).
  { unfold update_profile, try_catch, bind, getConnection, beginTransaction, call,
      no_faults. tx_simpl.
    assert (Hstep : forall w1, tx w1 = Some (db w) -> db w1 = db w ->
              exists w',
                match check_phone (fun _ => None) userId file fn ln ph em w1 with
                | (Rejected e, w'0) =>
                    (let (o, w'1) := rollback w'0 in
                     match o with
                     | Resolved _ =>
                         ret (Response 500
                                (error_details "Failed to update profile" e)) w'1
                     | Rejected e0 => (Rejected e0, w'1)
                     | RejectedUndefined => (RejectedUndefined, w'1)
                     end)
                | r => r
                end
                = (Resolved
                     (Response 200
                        (JObj [("message", JStr "Profile updated successfully");
                               ("user",
                                safeUser
                                  (set_profile fn ln ph em
                                     (match file with
                                      | Some filename =>
                                          Some (Signup.BASE_URL ++ "/uploads/"
                                                ++ filename)%string
                                      | None => None
                                      end) u))])), w')
                /\ db w'
                   = set_users
                       (update_where (is_user userId)
                          (set_profile fn ln ph em
                             (match file with
                              | Some filename =>
                                  Some (Signup.BASE_URL ++ "/uploads/"
                                        ++ filename)%string
                              | None => None
                              end))) (db w)
                /\ tx w' = None).
    { intros w1 Htx1 Hdb1. destruct (Hphone w1 Htx1 Hdb1) as (w' & E & Hd & Ht).
      unfold no_faults in E. rewrite E. now exists w'. }
    destruct em as [e|]; [|now apply Hstep].
    destruct (truthy_str e) eqn:He; [|now apply Hstep].
    apply truthy_str_nonempty in He. destruct (Hef e eq_refl He) as [Hre Hfree].
    rewrite Hre. cbn [negb].
    unfold select, query, call, on_tables. tx_simpl. rewrite Hfree.
    now apply Hstep. }
  destruct Hall as (w' & E & Hd & Ht). unfold answer, after. rewrite E.
  repeat split; assumption.
Qed.
End ProfileRuns.

Section ProfileRoundTrip.
Import Js Db Store Tx Auth Expense UserProfile Spec Vocabulary.


(** An empty email address is neither tested against the pattern nor
    looked up: [PUT /profile] stores it with 200 although another user
    has an empty address already, and the two then share it. *)
Theorem update_profile_empty_email_unchecked (uid : Z) (file fn ln : option string)
        (w : world) (u v : User) (rest : list User) :
  filter (is_user (Some uid)) (users (db w)) = u :: rest ->
  In v (users (db w)) -> u_id v <> uid -> email v = "" ->
  (exists r,
      answer (update_profile no_faults (Some uid) file fn ln None (Some "")) w = Some r
      /\ status r = 200)
  /\ ~ NoDup (map email
                (users (db (after (update_profile no_faults (Some uid) file fn ln None
                                                  (Some "")) w)))).
Proof.
  intros Hu Hv Hvid Hve.
  destruct (update_profile_runs (Some uid) file fn ln None (Some "") w u rest Hu)
    as (Hans & Hdb & _).
  - intros e [= <-] He. now elim He.
  - intros p [=].
  - cbn [assignment]. intros H. apply app_eq_nil in H. destruct H as [_ H].
    apply app_eq_nil in H. destruct H as [_ H]. discriminate H.
  - split; [eexists; split; [exact Hans|reflexivity]|].
    rewrite Hdb. cbn [users set_users]. intros Hnd.
    assert (Huin : In u (users (db w)) /\ is_user (Some uid) u = true).
    { apply filter_In. rewrite Hu. now left. }
    destruct Huin as [Huin Huu].
    assert (Hvu : is_user (Some uid) v = false)
      by (unfold is_user; now apply Z.eqb_neq).
    pose proof (NoDup_map_In_eq email _
                  (set_profile fn ln None (Some "")
                     (match file with
                      | Some filename =>
                          Some (Signup.BASE_URL ++ "/uploads/" ++ filename)%string
                      | None => None
                      end) u) v Hnd) as Heq.
    assert (Hid : u_id v = uid).
    { rewrite <- Heq.
      - cbn [set_profile u_id]. unfold is_user in Huu. now apply Z.eqb_eq in Huu.
      - unfold update_where. apply in_map_iff. exists u. now rewrite Huu.
      - unfold update_where. apply in_map_iff. exists v. now rewrite Hvu.
      - cbn [set_profile email or_keep]. now rewrite Hve. }
    contradiction.
Qed.
End ProfileRoundTrip.



Lemma update_profile_empty_email_unchecked_witness :
  ~ NoDup (map Store.email
             (Store.users
                (Tx.db (Tx.after (UserProfile.update_profile Tx.no_faults (Some 1) None
                                    None None None (Some ""))
                                 (Tx.idle Cases.pair_tables 1))))).
Proof.
  refine (proj2 (update_profile_empty_email_unchecked 1 None None None
                   (Tx.idle Cases.pair_tables 1) Samples.alice Cases.bob []
                   eq_refl _ ltac:(discriminate) eq_refl)).
  right. left. reflexivity.
Defined.

(** ** The pattern for email addresses *)
Section EmailFacts.
Import Js Db Store Tx Auth Expense UserProfile Spec Vocabulary.








End EmailFacts.

